(** * LTTng callstack event context (lttng-context-callstack.c)

    A shallow embedding of the callstack context of lttng-modules: the
    per-CPU, per-nesting capture slots, the slot selection, the two hooks
    of the event record protocol ([lttng_callstack_get_size], then
    [lttng_callstack_record]) and the attachment of the field to a context
    set, followed by the properties the design document states about them.

    Kernel memory is an explicit store: [kzalloc] and [alloc_percpu] blocks
    live in finite maps from addresses, per-CPU variables are functions of
    the CPU number, and every C operation whose behaviour is undefined (a
    slot index outside the array, a call through a null function pointer,
    a read past the entries array) makes the embedded function return
    [None]. *)

From stdpp Require Import base numbers option list gmap strings functions.

Local Open Scope Z_scope.

(** ** Target parameters

    What the kernel headers and the build configuration fix and this file
    only names: the size of [unsigned long], the two alignments that
    [lttng_alignof] yields (1 when the ring buffer is packed), the byte
    order, the number of possible CPUs, [CONFIG_X86], and the two values of
    [enum lttng_kernel_context_type] that select a callstack context. *)
Record target := Target {
  sizeof_long : Z;
  alignof_uint : Z;
  alignof_ulong : Z;
  big_endian : bool;
  CONFIG_X86 : bool;
  nr_possible_cpus : nat;
  LTTNG_KERNEL_CONTEXT_CALLSTACK_KERNEL : Z;
  LTTNG_KERNEL_CONTEXT_CALLSTACK_USER : Z
}.

(** The targets Linux runs on: 32- or 64-bit longs, power-of-two
    alignments no larger than the type, distinct enumeration constants. *)
Record target_ok (T : target) : Prop := TargetOk {
  sizeof_long_ok : sizeof_long T = 4 ∨ sizeof_long T = 8;
  alignof_uint_ok :
    alignof_uint T = 1 ∨ alignof_uint T = 2 ∨ alignof_uint T = 4;
  alignof_ulong_ok :
    alignof_ulong T = 1 ∨ alignof_ulong T = 2 ∨
    alignof_ulong T = 4 ∨ alignof_ulong T = 8;
  context_types_ok :
    LTTNG_KERNEL_CONTEXT_CALLSTACK_KERNEL T ≠
    LTTNG_KERNEL_CONTEXT_CALLSTACK_USER T
}.

(** x86-64 with an aligned ring buffer, four possible CPUs. *)
Definition x86_64 : target :=
  {| sizeof_long := 8; alignof_uint := 4; alignof_ulong := 8;
     big_endian := false; CONFIG_X86 := true; nr_possible_cpus := 4;
     LTTNG_KERNEL_CONTEXT_CALLSTACK_KERNEL := 16;
     LTTNG_KERNEL_CONTEXT_CALLSTACK_USER := 17 |}.

(** ** Constants *)

Definition MAX_ENTRIES : Z := 128.

(** The ring buffer's nesting limit; the header comment of the file gives
    its value ("up to 4 interrupt nesting"). *)
Definition RING_BUFFER_MAX_NESTING : Z := 4.

Definition sizeof_uint : Z := 4.

Definition ENOMEM : Z := 12.
Definition EEXIST : Z := 17.
Definition EINVAL : Z := 22.

(** ** C integer arithmetic *)

Definition wrap_uint (x : Z) : Z := x mod 2 ^ 32.

(** Conversion to [int]: two's complement wrap-around. *)
Definition wrap_int (x : Z) : Z := (x + 2 ^ 31) mod 2 ^ 32 - 2 ^ 31.

Definition INT_MIN : Z := - 2 ^ 31.
Definition INT_MAX : Z := 2 ^ 31 - 1.

Section Words.
Context (T : target).

Definition long_bits : Z := 8 * sizeof_long T.

(** [unsigned long] and [size_t] arithmetic. *)
Definition wrap_ulong (x : Z) : Z := x mod 2 ^ long_bits.

Definition ULONG_MAX : Z := 2 ^ long_bits - 1.
End Words.

(** ** Data model *)

Inductive lttng_cs_ctx_modes := CALLSTACK_KERNEL | CALLSTACK_USER.

Global Instance lttng_cs_ctx_modes_eq_dec : EqDecision lttng_cs_ctx_modes.
Proof. solve_decision. Defined.

(** [struct stack_trace] as this file uses it, together with the array its
    [entries] pointer is wired to: in a [struct lttng_cs_dispatch] the
    pointer designates the dispatch's own [entries[MAX_ENTRIES]], so a
    capture slot is the counters and that array.  The counters are
    [unsigned int], the entries [unsigned long]. *)
Record stack_trace := StackTrace {
  nr_entries : Z;
  max_entries : Z;
  entries : list Z
}.

Abbreviation lttng_cs_dispatch := stack_trace (only parsing).

(** [struct lttng_cs]: [dispatch[RING_BUFFER_MAX_NESTING]]. *)
Abbreviation lttng_cs := (list lttng_cs_dispatch) (only parsing).

Abbreviation addr := positive (only parsing).

(** [struct field_data]; [cs_percpu] is a nullable per-CPU pointer. *)
Record field_data := FieldData {
  cs_percpu : option addr;
  mode : lttng_cs_ctx_modes
}.

(** The platform unwinder behind [save_func]: it receives the slot and
    leaves its frames and their count in it. *)
Definition save_func_t := stack_trace → stack_trace.

(** [struct lttng_cs_type] and the table [cs_types]. *)
Record lttng_cs_type := CsType {
  name : string;
  save_func_name : string;
  save_func : option save_func_t
}.

Definition cs_types_init (m : lttng_cs_ctx_modes) : lttng_cs_type :=
  match m with
  | CALLSTACK_KERNEL =>
      {| name := "callstack_kernel"; save_func_name := "save_stack_trace";
         save_func := None |}
  | CALLSTACK_USER =>
      {| name := "callstack_user"; save_func_name := "save_stack_trace_user";
         save_func := None |}
  end.

(** The kernel state this file reads and writes.  [save_func_calls] is a
    ghost counter: it counts the calls made through [save_func]. *)
Record kstate := KState {
  cs_types : lttng_cs_ctx_modes → lttng_cs_type;
  callstack_user_nesting : nat → Z;
  lib_ring_buffer_nesting : nat → Z;
  kmalloc_heap : gmap addr field_data;
  percpu_heap : gmap addr (list lttng_cs);
  save_func_calls : nat
}.

Definition set_cs_types f (s : kstate) : kstate :=
  KState (f (cs_types s)) (callstack_user_nesting s)
    (lib_ring_buffer_nesting s) (kmalloc_heap s) (percpu_heap s)
    (save_func_calls s).
Definition set_callstack_user_nesting f (s : kstate) : kstate :=
  KState (cs_types s) (f (callstack_user_nesting s))
    (lib_ring_buffer_nesting s) (kmalloc_heap s) (percpu_heap s)
    (save_func_calls s).
Definition set_kmalloc_heap f (s : kstate) : kstate :=
  KState (cs_types s) (callstack_user_nesting s)
    (lib_ring_buffer_nesting s) (f (kmalloc_heap s)) (percpu_heap s)
    (save_func_calls s).
Definition set_percpu_heap f (s : kstate) : kstate :=
  KState (cs_types s) (callstack_user_nesting s)
    (lib_ring_buffer_nesting s) (kmalloc_heap s) (f (percpu_heap s))
    (save_func_calls s).
Definition count_save_func_call (s : kstate) : kstate :=
  KState (cs_types s) (callstack_user_nesting s)
    (lib_ring_buffer_nesting s) (kmalloc_heap s) (percpu_heap s)
    (S (save_func_calls s)).

(** The ring buffer moves its nesting counter around every event. *)
Definition set_lib_ring_buffer_nesting f (s : kstate) : kstate :=
  KState (cs_types s) (callstack_user_nesting s)
    (f (lib_ring_buffer_nesting s)) (kmalloc_heap s) (percpu_heap s)
    (save_func_calls s).

(** Array indexing with a C integer: outside the array there is nothing
    to read. *)
Definition index {A} (l : list A) (i : Z) : option A :=
  if decide (0 ≤ i) then l !! Z.to_nat i else None.

(** ** Slot selection *)

(** A [struct stack_trace *] into the per-CPU area of a field: the area,
    the CPU and the index into [dispatch].  The index is the one the C
    code computes, checked or not. *)
Record trace_ptr := TracePtr {
  tp_area : option addr;
  tp_cpu : nat;
  tp_index : Z
}.

(** [stack_trace_context(field, ctx)].  [fdata] is [field->priv], which
    the two callers have dereferenced, and [cpu] is [ctx->cpu]; a null
    result is [None].  [lib_ring_buffer_nesting] is the ring buffer's
    per-CPU counter; the code stores the difference in an [int]. *)
Definition stack_trace_context (fdata : field_data) (cpu : nat)
    (s : kstate) : option trace_ptr :=
  let cs_user_nesting := callstack_user_nesting s cpu in
  if decide (mode fdata = CALLSTACK_USER ∧ 1 ≤ cs_user_nesting) then None
  else
    let buffer_nesting := wrap_int (lib_ring_buffer_nesting s cpu - 1) in
    if decide (RING_BUFFER_MAX_NESTING ≤ buffer_nesting) then None
    else Some (TracePtr (cs_percpu fdata) cpu buffer_nesting).

(** ** Context fields *)

Inductive lttng_string_encodings := lttng_encode_none.

(** The integer case of [struct lttng_type]. *)
Record lttng_integer_type := IntegerType {
  size : Z;
  alignment : Z;
  signedness : bool;
  reverse_byte_order : bool;
  base : Z;
  encoding : lttng_string_encodings
}.

(** [atype_unset] stands for the zeroed descriptor of a fresh field. *)
Inductive lttng_type :=
  | atype_unset
  | atype_sequence (length_type elem_type : lttng_integer_type).

(** The functions of this file that a field's hooks can point to. *)
Inductive ctx_hook :=
  | hook_lttng_callstack_get_size
  | hook_lttng_callstack_record
  | hook_lttng_callstack_destroy.

Record lttng_ctx_field := CtxField {
  event_field_name : option string;
  event_field_type : lttng_type;
  get_size_arg : option ctx_hook;
  record : option ctx_hook;
  destroy : option ctx_hook;
  priv : option addr
}.

Definition blank_field : lttng_ctx_field :=
  CtxField None atype_unset None None None None.

(** ** The ring buffer, as far as a context writes to it *)

(** A byte of the reserved region: skipped as padding, or written. *)
Inductive rb_byte := Pad | Data (b : Z).

(** [struct lib_ring_buffer_ctx]: the CPU, the write cursor, and what the
    writer has laid down since the context was handed to it. *)
Record lib_ring_buffer_ctx := RbCtx {
  cpu : nat;
  buf_offset : Z;
  written : list rb_byte
}.

Fixpoint le_bytes (n : nat) (v : Z) : list Z :=
  match n with
  | O => []
  | S n => v mod 256 :: le_bytes n (v / 256)
  end.

Section HotPath.
Context (T : target).

(** The object representation of an [n]-byte unsigned integer. *)
Definition host_bytes (n : Z) (v : Z) : list Z :=
  let l := le_bytes (Z.to_nat n) v in
  if big_endian T then reverse l else l.

(** Modelled from the spec: [lib_ring_buffer_align], of the ring buffer
    library, is the padding that brings an offset up to the alignment
    ("Padding up to 4-byte alignment"): the distance from the offset to
    the next multiple of the alignment. *)
Definition lib_ring_buffer_align (align_drift size_of_type : Z) : Z :=
  wrap_uint ((- align_drift) mod size_of_type).

(** Modelled from the spec: [lib_ring_buffer_align_ctx], of the ring
    buffer library ("Align the ring-buffer write cursor"): the cursor
    skips the padding. *)
Definition lib_ring_buffer_align_ctx (ctx : lib_ring_buffer_ctx)
    (alignment : Z) : lib_ring_buffer_ctx :=
  let pad := lib_ring_buffer_align (buf_offset ctx) alignment in
  RbCtx (cpu ctx) (wrap_ulong T (buf_offset ctx + pad))
    (written ctx ++ replicate (Z.to_nat pad) Pad).

(** Modelled from the spec: [chan->ops->event_write], the ring buffer
    client's write ("write it as a 32-bit unsigned integer", "Write
    [length] machine words"): the bytes of the source are copied at the
    cursor, which moves past them. *)
Definition event_write (ctx : lib_ring_buffer_ctx) (src : list Z)
    : lib_ring_buffer_ctx :=
  RbCtx (cpu ctx) (wrap_ulong T (buf_offset ctx + Z.of_nat (length src)))
    (written ctx ++ (Data <$> src)).

(** The first [n] words of an array, when it has that many. *)
Definition read_words (l : list Z) (n : Z) : option (list Z) :=
  if decide (0 ≤ n ≤ Z.of_nat (length l)) then Some (take (Z.to_nat n) l)
  else None.

Definition words_bytes (ws : list Z) : list Z :=
  ws ≫= host_bytes (sizeof_long T).

(** *** Dereferencing a slot pointer *)

Definition load_trace (s : kstate) (p : trace_ptr) : option stack_trace :=
  a ← tp_area p;
  area ← percpu_heap s !! a;
  cs ← area !! tp_cpu p;
  index cs (tp_index p).

Definition store_trace (s : kstate) (p : trace_ptr) (t : stack_trace)
    : option kstate :=
  a ← tp_area p;
  area ← percpu_heap s !! a;
  cs ← area !! tp_cpu p;
  _ ← index cs (tp_index p);
  Some (set_percpu_heap
          (<[a := <[tp_cpu p := <[Z.to_nat (tp_index p) := t]> cs]> area]>)
          s).

(** *** The steps of [lttng_callstack_get_size] *)

(** [++per_cpu(callstack_user_nesting, cpu)] for a user callstack. *)
Definition user_nesting_enter (m : lttng_cs_ctx_modes) (c : nat)
    (s : kstate) : kstate :=
  if decide (m = CALLSTACK_USER) then
    set_callstack_user_nesting
      (λ f, <[c := wrap_int (f c + 1)]> f) s
  else s.

(** [per_cpu(callstack_user_nesting, cpu)--] for a user callstack. *)
Definition user_nesting_exit (m : lttng_cs_ctx_modes) (c : nat)
    (s : kstate) : kstate :=
  if decide (m = CALLSTACK_USER) then
    set_callstack_user_nesting
      (λ f, <[c := wrap_int (f c - 1)]> f) s
  else s.

(** "Remove final ULONG_MAX delimiter": the test reads
    [entries[nr_entries - 1]] only when [nr_entries > 0]. *)
Definition strip_delimiter (t : stack_trace) : option stack_trace :=
  if decide (0 < nr_entries t) then
    last ← index (entries t) (nr_entries t - 1);
    if decide (last = ULONG_MAX T) then
      Some (StackTrace (wrap_uint (nr_entries t - 1)) (max_entries t)
              (entries t))
    else Some t
  else Some t.

(** The size of the sequence that starts at [offset]: the length field,
    the frames, and the delimiter of an incomplete stack. *)
Definition sequence_size (offset : Z) (t : stack_trace) : Z :=
  let orig_offset := offset in
  let offset :=
    wrap_ulong T (offset + lib_ring_buffer_align offset (alignof_uint T)) in
  let offset := wrap_ulong T (offset + sizeof_uint) in
  let offset :=
    wrap_ulong T (offset + lib_ring_buffer_align offset (alignof_ulong T)) in
  let offset :=
    wrap_ulong T (offset + wrap_ulong T (sizeof_long T * nr_entries t)) in
  let offset :=
    if decide (nr_entries t = max_entries t)
    then wrap_ulong T (offset + sizeof_long T) else offset in
  wrap_ulong T (offset - orig_offset).

(** The size of the sequence written when nothing is captured. *)
Definition empty_sequence_size (offset : Z) : Z :=
  let orig_offset := offset in
  let offset :=
    wrap_ulong T (offset + lib_ring_buffer_align offset (alignof_uint T)) in
  let offset := wrap_ulong T (offset + sizeof_uint) in
  let offset :=
    wrap_ulong T (offset + lib_ring_buffer_align offset (alignof_ulong T)) in
  wrap_ulong T (offset - orig_offset).

(** The body of [lttng_callstack_get_size].  Besides the size and the
    state it leaves, the run reports what the unwinder finds in
    [callstack_user_nesting] while it runs: the per-CPU values at the
    call through [save_func], or nothing when no call is made. *)
Definition lttng_callstack_get_size_run (offset : Z)
    (field : lttng_ctx_field) (ctx : lib_ring_buffer_ctx) (s : kstate)
    : option (Z * kstate * option (nat → Z)) :=
  p ← priv field;
  fdata ← kmalloc_heap s !! p;
  match stack_trace_context fdata (cpu ctx) s with
  | None => Some (empty_sequence_size offset, s, None)
  | Some trace =>
      t ← load_trace s trace;
      let t := StackTrace 0 (max_entries t) (entries t) in
      let s := user_nesting_enter (mode fdata) (cpu ctx) s in
      f ← save_func (cs_types s (mode fdata));
      let during := callstack_user_nesting s in
      let t := f t in
      let s := count_save_func_call s in
      let s := user_nesting_exit (mode fdata) (cpu ctx) s in
      t ← strip_delimiter t;
      s ← store_trace s trace t;
      Some (sequence_size offset t, s, Some during)
  end.

(** [lttng_callstack_get_size]: what the run returns to its caller and
    leaves in the state. *)
Definition lttng_callstack_get_size (offset : Z) (field : lttng_ctx_field)
    (ctx : lib_ring_buffer_ctx) (s : kstate) : option (Z * kstate) :=
  fst <$> lttng_callstack_get_size_run offset field ctx s.

Definition lttng_callstack_record (field : lttng_ctx_field)
    (ctx : lib_ring_buffer_ctx) (s : kstate)
    : option lib_ring_buffer_ctx :=
  p ← priv field;
  fdata ← kmalloc_heap s !! p;
  match stack_trace_context fdata (cpu ctx) s with
  | None =>
      let nr_seq_entries := 0 in
      let ctx := lib_ring_buffer_align_ctx ctx (alignof_uint T) in
      let ctx := event_write ctx (host_bytes sizeof_uint nr_seq_entries) in
      let ctx := lib_ring_buffer_align_ctx ctx (alignof_ulong T) in
      Some ctx
  | Some trace =>
      t ← load_trace s trace;
      let ctx := lib_ring_buffer_align_ctx ctx (alignof_uint T) in
      let nr_seq_entries := nr_entries t in
      let nr_seq_entries :=
        if decide (nr_entries t = max_entries t)
        then wrap_uint (nr_seq_entries + 1) else nr_seq_entries in
      let ctx := event_write ctx (host_bytes sizeof_uint nr_seq_entries) in
      let ctx := lib_ring_buffer_align_ctx ctx (alignof_ulong T) in
      ws ← read_words (entries t) (nr_entries t);
      let ctx := event_write ctx (words_bytes ws) in
      if decide (nr_entries t = max_entries t) then
        let delim := ULONG_MAX T in
        Some (event_write ctx (host_bytes (sizeof_long T) delim))
      else Some ctx
  end.
End HotPath.

(** ** Attachment *)

(** A context set: its fields, in order.  A field pointer is an index. *)
Abbreviation lttng_ctx := (list lttng_ctx_field) (only parsing).

(** Which of the allocations of one attachment succeed, should they be
    attempted. *)
Record alloc_oracle := AllocOracle {
  append_succeeds : bool;
  kzalloc_succeeds : bool;
  alloc_percpu_succeeds : bool
}.

Definition zeroed_dispatch : lttng_cs_dispatch :=
  StackTrace 0 0 (replicate (Z.to_nat MAX_ENTRIES) 0).

Definition zeroed_cs : lttng_cs :=
  replicate (Z.to_nat RING_BUFFER_MAX_NESTING) zeroed_dispatch.

(** [kfree] and [free_percpu]; both accept a null pointer. *)
Definition kfree (p : option addr) (s : kstate) : kstate :=
  match p with
  | None => s
  | Some p => set_kmalloc_heap (delete p) s
  end.

Definition free_percpu (p : option addr) (s : kstate) : kstate :=
  match p with
  | None => s
  | Some a => set_percpu_heap (delete a) s
  end.

Definition field_data_free (fdata : option addr) (s : kstate)
    : option kstate :=
  match fdata with
  | None => Some s
  | Some p =>
      fd ← kmalloc_heap s !! p;
      let s := free_percpu (cs_percpu fd) s in
      Some (kfree (Some p) s)
  end.

(** Modelled from the spec: [lttng_append_context], of the context
    registry ("Append a new field to the context set. If allocation
    fails, return out of memory"): a zeroed field at the end of the set,
    or a null pointer. *)
Definition lttng_append_context (o : alloc_oracle) (ctx : lttng_ctx)
    : lttng_ctx * option nat :=
  if append_succeeds o then (ctx ++ [blank_field], Some (length ctx))
  else (ctx, None).

(** Modelled from the spec: [lttng_find_context], of the context registry
    ("a field with this mode's display name already exists in the
    set"). *)
Definition lttng_find_context (ctx : lttng_ctx) (ctx_name : string) : bool :=
  bool_decide (Exists (λ f, event_field_name f = Some ctx_name) ctx).

(** Modelled from the spec: [lttng_remove_context_field], of the context
    registry ("undo step 2", "a partially installed field is removed from
    its context set"). *)
Definition lttng_remove_context_field (ctx : lttng_ctx) (field : nat)
    : lttng_ctx :=
  delete field ctx.

Section Attach.
Context (T : target).

(** The host's symbol table: the address behind a name, if any. *)
Context (kallsyms_lookup_funcptr : string → option save_func_t).

Definition init_type (m : lttng_cs_ctx_modes) (s : kstate) : Z * kstate :=
  match save_func (cs_types s m) with
  | Some _ => (0, s)
  | None =>
      match kallsyms_lookup_funcptr (save_func_name (cs_types s m)) with
      | None => (- EINVAL, s)
      | Some func =>
          (0, set_cs_types
                (λ tbl, <[m := CsType (name (tbl m)) (save_func_name (tbl m))
                                 (Some func)]> tbl) s)
      end
  end.

(** The body of the two loops of [field_data_create]. *)
Definition init_dispatch (d : lttng_cs_dispatch) : lttng_cs_dispatch :=
  StackTrace (nr_entries d) MAX_ENTRIES (entries d).

Definition init_cs (cs : lttng_cs) : lttng_cs :=
  foldl (λ cs i, alter init_dispatch i cs) cs
    (seq 0 (Z.to_nat RING_BUFFER_MAX_NESTING)).

Definition init_cs_set (cs_set : list lttng_cs) : list lttng_cs :=
  foldl (λ cs_set cpu, alter init_cs cpu cs_set) cs_set
    (seq 0 (nr_possible_cpus T)).

Definition field_data_create (o : alloc_oracle) (m : lttng_cs_ctx_modes)
    (s : kstate) : option (option addr * kstate) :=
  if kzalloc_succeeds o then
    let fdata := fresh (dom (kmalloc_heap s)) in
    let s :=
      set_kmalloc_heap (<[fdata := FieldData None CALLSTACK_KERNEL]>) s in
    if alloc_percpu_succeeds o then
      let cs_set := fresh (dom (percpu_heap s)) in
      let s :=
        set_percpu_heap
          (<[cs_set := replicate (nr_possible_cpus T) zeroed_cs]>) s in
      let s :=
        set_kmalloc_heap (alter (λ fd, FieldData (Some cs_set) (mode fd)) fdata) s in
      let s := set_percpu_heap (alter init_cs_set cs_set) s in
      let s :=
        set_kmalloc_heap (alter (λ fd, FieldData (cs_percpu fd) m) fdata) s in
      Some (Some fdata, s)
    else
      s ← field_data_free (Some fdata) s;
      Some (None, s)
  else Some (None, s).

(** The sequence type the field declares. *)
Definition callstack_type : lttng_type :=
  atype_sequence
    {| size := sizeof_uint * 8; alignment := alignof_uint T * 8;
       signedness := false; reverse_byte_order := false; base := 10;
       encoding := lttng_encode_none |}
    {| size := sizeof_long T * 8; alignment := alignof_ulong T * 8;
       signedness := false; reverse_byte_order := false; base := 16;
       encoding := lttng_encode_none |}.

Definition __lttng_add_callstack_generic (o : alloc_oracle)
    (ctx : lttng_ctx) (m : lttng_cs_ctx_modes) (s : kstate)
    : option (Z * lttng_ctx * kstate) :=
  let ctx_name := name (cs_types s m) in
  let '(ret, s) := init_type m s in
  if decide (ret ≠ 0) then Some (ret, ctx, s)
  else
    match lttng_append_context o ctx with
    | (ctx, None) => Some (- ENOMEM, ctx, s)
    | (ctx, Some field) =>
        if lttng_find_context ctx ctx_name then
          Some (- EEXIST, lttng_remove_context_field ctx field, s)
        else
          r ← field_data_create o m s;
          match r with
          | (None, s) =>
              s ← field_data_free None s;
              Some (- ENOMEM, lttng_remove_context_field ctx field, s)
          | (Some fdata, s) =>
              Some (0,
                    <[field := CtxField (Some ctx_name) callstack_type
                                 (Some hook_lttng_callstack_get_size)
                                 (Some hook_lttng_callstack_record)
                                 (Some hook_lttng_callstack_destroy)
                                 (Some fdata)]> ctx,
                    s)
          end
    end.

Definition lttng_add_callstack_to_ctx (o : alloc_oracle) (ctx : lttng_ctx)
    (type : Z) (s : kstate) : option (Z * lttng_ctx * kstate) :=
  if decide (type = LTTNG_KERNEL_CONTEXT_CALLSTACK_KERNEL T) then
    __lttng_add_callstack_generic o ctx CALLSTACK_KERNEL s
  else if decide (CONFIG_X86 T = true ∧
                  type = LTTNG_KERNEL_CONTEXT_CALLSTACK_USER T) then
    __lttng_add_callstack_generic o ctx CALLSTACK_USER s
  else Some (- EINVAL, ctx, s).

(** [lttng_callstack_destroy], the field's [destroy] hook. *)
Definition lttng_callstack_destroy (field : lttng_ctx_field) (s : kstate)
    : option kstate :=
  field_data_free (priv field) s.
End Attach.

(** ** The wire format and the conditions of the hot path *)

Section Specification.
Context (T : target).

(** The wire format of the design document, for a sequence that starts
    at [offset]: padding up to the alignment of the count, the count as
    a 32-bit unsigned integer, padding up to machine-word alignment,
    then the machine words. *)
Definition wire_sequence (offset count : Z) (words : list Z)
    : list rb_byte :=
  let pad1 := lib_ring_buffer_align offset (alignof_uint T) in
  let offset := wrap_ulong T (offset + pad1) in
  let offset := wrap_ulong T (offset + sizeof_uint) in
  let pad2 := lib_ring_buffer_align offset (alignof_ulong T) in
  replicate (Z.to_nat pad1) Pad ++ (Data <$> host_bytes T sizeof_uint count)
    ++ replicate (Z.to_nat pad2) Pad ++ (Data <$> words_bytes T words).

(** The size of the empty sequence, in plain integers. *)
Definition empty_layout_size (offset : Z) : Z :=
  let pad1 := lib_ring_buffer_align offset (alignof_uint T) in
  let pad2 :=
    lib_ring_buffer_align
      (wrap_ulong T (wrap_ulong T (offset + pad1) + sizeof_uint))
      (alignof_ulong T) in
  pad1 + sizeof_uint + pad2.

(** A slot as [field_data_create] leaves it: capacity [MAX_ENTRIES]. *)
Definition slot_ok (t : stack_trace) : Prop :=
  max_entries t = MAX_ENTRIES ∧
  length (entries t) = Z.to_nat MAX_ENTRIES.

(** The contract of an unwinder: it stores at most [max_entries] frames
    in the array it is given and touches nothing else. *)
Definition backend_ok (f : save_func_t) : Prop :=
  ∀ t, slot_ok t →
    slot_ok (f t) ∧ 0 ≤ nr_entries (f t) ≤ max_entries t.

(** [per_cpu_ptr(fdata->cs_percpu, c)], dereferenced. *)
Definition capture_set (s : kstate) (fdata : field_data) (c : nat)
    : option lttng_cs :=
  a ← cs_percpu fdata;
  area ← percpu_heap s !! a;
  area !! c.

(** The field [field] is attached in state [s]: its private data
    [fdata] is allocated, CPU [c] has its capture set [cs], and the
    unwinder [f] of its mode is bound. *)
Record attached (s : kstate) (field : lttng_ctx_field) (c : nat)
    (fdata : field_data) (cs : lttng_cs) (f : save_func_t) : Prop :=
  Attached {
    att_priv : priv field ≫= (kmalloc_heap s !!.) = Some fdata;
    att_set : capture_set s fdata c = Some cs;
    att_nesting : length cs = Z.to_nat RING_BUFFER_MAX_NESTING;
    att_slots : Forall slot_ok cs;
    att_bound : save_func (cs_types s (mode fdata)) = Some f;
    att_backend : backend_ok f
  }.

(** The emission path's invariant on CPU [c]: the hooks run with the
    ring buffer's nesting count at least 1 (and within an [int]). *)
Definition in_event (s : kstate) (c : nat) : Prop :=
  0 ≤ lib_ring_buffer_nesting s c - 1 ≤ INT_MAX.

(** [callstack_user_nesting] holds an [int]. *)
Definition user_nesting_typed (s : kstate) (c : nat) : Prop :=
  INT_MIN ≤ callstack_user_nesting s c ≤ INT_MAX.

(** Between two calls on CPU [c], what the hooks of [field] read is
    unchanged from [s] to [s2]: the private data, the two per-CPU
    counters, and the slot that [s] selects. *)
Definition slot_unchanged (field : lttng_ctx_field) (c : nat)
    (s s2 : kstate) : Prop :=
  priv field ≫= (kmalloc_heap s2 !!.) = priv field ≫= (kmalloc_heap s !!.)
  ∧ callstack_user_nesting s2 c = callstack_user_nesting s c
  ∧ lib_ring_buffer_nesting s2 c = lib_ring_buffer_nesting s c
  ∧ ∀ fdata p,
      priv field ≫= (kmalloc_heap s !!.) = Some fdata →
      stack_trace_context fdata c s = Some p →
      load_trace s2 p = load_trace s p.

(** What the unwinder bound to the field returns for the slot [t0] that
    [lttng_callstack_get_size] hands to it. *)
Definition backend_result (f : save_func_t) (t0 : stack_trace)
    : stack_trace :=
  f (StackTrace 0 (max_entries t0) (entries t0)).
End Specification.

(** ** The outcomes of an attachment *)

Section AttachSpecification.
Context (T : target).

(** The type selector [type] is recognized and stands for mode [m]:
    the kernel callstack always, the user callstack where
    [CONFIG_X86] is set. *)
Definition supported (type : Z) (m : lttng_cs_ctx_modes) : Prop :=
  (type = LTTNG_KERNEL_CONTEXT_CALLSTACK_KERNEL T ∧ m = CALLSTACK_KERNEL)
  ∨ (CONFIG_X86 T = true
     ∧ type = LTTNG_KERNEL_CONTEXT_CALLSTACK_USER T
     ∧ m = CALLSTACK_USER).

(** The unwinder of mode [m] is not bound yet and the host does not
    know its symbol. *)
Definition symbol_missing
    (kallsyms_lookup_funcptr : string → option save_func_t)
    (s : kstate) (m : lttng_cs_ctx_modes) : Prop :=
  save_func (cs_types s m) = None
  ∧ kallsyms_lookup_funcptr (save_func_name (cs_types s m)) = None.

(** What binding the unwinder of mode [m] yields: the function already
    bound, or else the one the host knows under its name. *)
Definition bound_unwinder
    (kallsyms_lookup_funcptr : string → option save_func_t)
    (s : kstate) (m : lttng_cs_ctx_modes) : option save_func_t :=
  match save_func (cs_types s m) with
  | Some f => Some f
  | None => kallsyms_lookup_funcptr (save_func_name (cs_types s m))
  end.

(** The per-CPU area of a freshly created field: on every possible
    CPU, [RING_BUFFER_MAX_NESTING] empty slots of capacity
    [MAX_ENTRIES]. *)
Definition created_cs_set : list lttng_cs :=
  replicate (nr_possible_cpus T)
    (replicate (Z.to_nat RING_BUFFER_MAX_NESTING)
       (StackTrace 0 MAX_ENTRIES (replicate (Z.to_nat MAX_ENTRIES) 0))).

(** The field that a successful attachment of mode [m] installs. *)
Definition callstack_field (ctx_name : string) (fdata : addr)
    : lttng_ctx_field :=
  CtxField (Some ctx_name) (callstack_type T)
    (Some hook_lttng_callstack_get_size) (Some hook_lttng_callstack_record)
    (Some hook_lttng_callstack_destroy) (Some fdata).
End AttachSpecification.

(** ** Sample instances *)

(** An unwinder that finds the frames [fr] on the stack and stores as
    many of them as the slot holds. *)
Definition frames_backend (fr : list Z) : save_func_t :=
  λ t,
    let fr := take (Z.to_nat (max_entries t)) fr in
    StackTrace (Z.of_nat (length fr)) (max_entries t)
      (fr ++ drop (length fr) (entries t)).

(** A slot that an earlier event left behind, with stale entries. *)
Definition idle_slot : stack_trace :=
  StackTrace 0 128 (replicate 128 7).

(** A state with one attached field of mode [m], at address 1, on two
    CPUs whose slots all hold [slot]; every CPU has the user nesting
    [guard] and the ring-buffer nesting [d]; the unwinders find the
    frames [fr]. *)
Definition sample_state (slot : stack_trace) (fr : list Z)
    (m : lttng_cs_ctx_modes) (guard d : Z) : kstate :=
  KState
    (λ m', CsType (name (cs_types_init m')) (save_func_name (cs_types_init m'))
             (Some (frames_backend fr)))
    (λ _, guard) (λ _, d)
    {[ 1%positive := FieldData (Some 1%positive) m ]}
    {[ 1%positive := [replicate 4 slot; replicate 4 slot] ]}
    0.

Definition sample_field (m : lttng_cs_ctx_modes) : lttng_ctx_field :=
  callstack_field x86_64 (name (cs_types_init m)) 1%positive.

(** A ring-buffer context on CPU 0 whose cursor is at offset 4. *)
Definition sample_ctx : lib_ring_buffer_ctx := RbCtx 0 4 [].

(** The state before any field is attached. *)
Definition boot_state : kstate :=
  KState cs_types_init (λ _, 0) (λ _, 0) ∅ ∅ 0.

Definition sample_symbols (n : string) : option save_func_t :=
  if decide (n = "save_stack_trace") then Some (frames_backend [10; 11])
  else None.

(** A kernel callstack of three frames above the bottom of the stack. *)
Definition kernel_event : kstate :=
  sample_state idle_slot [10; 11; 12; ULONG_MAX x86_64] CALLSTACK_KERNEL 0 1.

(** A kernel callstack of one frame above the bottom of the stack. *)
Definition short_event : kstate :=
  sample_state idle_slot [10; ULONG_MAX x86_64] CALLSTACK_KERNEL 0 1.

(** A stack that is nothing but its bottom. *)
Definition bottom_event : kstate :=
  sample_state idle_slot [ULONG_MAX x86_64] CALLSTACK_KERNEL 0 1.

(** A kernel callstack that fills the slot and ends at the bottom. *)
Definition brimful_event : kstate :=
  sample_state idle_slot (replicate 127 5 ++ [ULONG_MAX x86_64])
    CALLSTACK_KERNEL 0 1.

(** A user callstack event raised while the user unwinder runs. *)
Definition nested_user_event : kstate :=
  sample_state idle_slot [10] CALLSTACK_USER 1 2.

(** A user callstack event. *)
Definition user_event : kstate :=
  sample_state idle_slot [10; 11] CALLSTACK_USER 0 1.

(** The state at the write of a truncated capture. *)
Definition truncated_capture : kstate :=
  sample_state (StackTrace 128 128 (replicate 128 5)) [] CALLSTACK_KERNEL 0 1.

(** Two states at the write of a two-frame capture, with different
    stale entries beyond the frames. *)
Definition two_frames_over_sevens : kstate :=
  sample_state (StackTrace 2 128 (10 :: 11 :: replicate 126 7)) []
    CALLSTACK_KERNEL 0 1.
Definition two_frames_over_nines : kstate :=
  sample_state (StackTrace 2 128 (10 :: 11 :: replicate 126 9)) []
    CALLSTACK_KERNEL 0 1.

Definition sample_fdata (m : lttng_cs_ctx_modes) : field_data :=
  FieldData (Some 1%positive) m.

(** The slot of CPU 0 at nesting 1. *)
Definition sample_ptr : trace_ptr := TracePtr (Some 1%positive) 0 0.

(** Every allocation of an attachment succeeds. *)
Definition plentiful : alloc_oracle := AllocOracle true true true.

(** [kzalloc] succeeds and [alloc_percpu] fails. *)
Definition percpu_exhausted : alloc_oracle := AllocOracle true true false.

(** A symbol table that knows both unwinders. *)
Definition both_symbols (n : string) : option save_func_t :=
  if decide (n = "save_stack_trace") then Some (frames_backend [10; 11])
  else if decide (n = "save_stack_trace_user")
       then Some (frames_backend [20])
       else None.

(** A symbol table that knows nothing. *)
Definition no_symbols (n : string) : option save_func_t := None.

(** A state with a kernel callstack field at address 1 and a user
    callstack field at address 2, each with its own area. *)
Definition two_fields : kstate :=
  KState
    (λ m', CsType (name (cs_types_init m')) (save_func_name (cs_types_init m'))
             (Some (frames_backend [10; 11])))
    (λ _, 0) (λ _, 1)
    {[ 1%positive := FieldData (Some 1%positive) CALLSTACK_KERNEL;
       2%positive := FieldData (Some 2%positive) CALLSTACK_USER ]}
    {[ 1%positive := [replicate 4 idle_slot; replicate 4 idle_slot];
       2%positive := [replicate 4 idle_slot; replicate 4 idle_slot] ]}
    0.

Definition second_field : lttng_ctx_field :=
  callstack_field x86_64 "callstack_user" 2%positive.

(** * Properties *)

(** ** Integer arithmetic of the target *)

Section Arithmetic.
Context (T : target) (HT : target_ok T).

Lemma long_bits_cases : long_bits T = 32 ∨ long_bits T = 64.
Proof.
  unfold long_bits. destruct (sizeof_long_ok T HT) as [-> | ->]; auto.
Qed.

Lemma ulong_modulus : 2 ^ 32 ≤ 2 ^ long_bits T.
Proof. destruct long_bits_cases as [-> | ->]; lia. Qed.

Lemma wrap_ulong_small x : 0 ≤ x < 2 ^ 32 → wrap_ulong T x = x.
Proof.
  intros Hx. unfold wrap_ulong. apply Z.mod_small.
  pose proof ulong_modulus. lia.
Qed.

Lemma wrap_ulong_add_l x y :
  wrap_ulong T (wrap_ulong T x + y) = wrap_ulong T (x + y).
Proof. unfold wrap_ulong. apply Zplus_mod_idemp_l. Qed.

Lemma wrap_ulong_add_r x y :
  wrap_ulong T (x + wrap_ulong T y) = wrap_ulong T (x + y).
Proof. unfold wrap_ulong. apply Zplus_mod_idemp_r. Qed.

Lemma wrap_ulong_delta x d :
  wrap_ulong T (wrap_ulong T (x + d) - x) = wrap_ulong T d.
Proof.
  unfold wrap_ulong. rewrite Zminus_mod_idemp_l. f_equal. lia.
Qed.

(** Brings the additions under one reduction modulo the word. *)
Ltac push_wrap :=
  repeat (rewrite wrap_ulong_add_l || rewrite <- Z.add_assoc).

(** The alignments divide the modulus of [size_t]. *)
Lemma wrap_ulong_mod x a :
  a = 1 ∨ a = 2 ∨ a = 4 ∨ a = 8 →
  wrap_ulong T x mod a = x mod a.
Proof.
  intros Ha. unfold wrap_ulong.
  apply Z.mod_mod_divide.
  destruct long_bits_cases as [-> | ->];
      destruct Ha as [-> | [-> | [-> | ->]]].
  - by exists (2 ^ 32).
  - by exists (2 ^ 31).
  - by exists (2 ^ 30).
  - by exists (2 ^ 29).
  - by exists (2 ^ 64).
  - by exists (2 ^ 63).
  - by exists (2 ^ 62).
  - by exists (2 ^ 61).
Qed.

Lemma align_bounds off a :
  0 < a ≤ 8 → 0 ≤ lib_ring_buffer_align off a < 8.
Proof.
  intros Ha. unfold lib_ring_buffer_align, wrap_uint.
  pose proof (Z.mod_pos_bound (- off) a ltac:(lia)).
  rewrite Z.mod_small; lia.
Qed.

Lemma align_congr off off' a :
  0 < a → off mod a = off' mod a →
  lib_ring_buffer_align off a = lib_ring_buffer_align off' a.
Proof.
  intros Ha Heq. unfold lib_ring_buffer_align. f_equal.
  rewrite <- (Z.sub_0_l off), <- (Z.sub_0_l off').
  rewrite <- (Zminus_mod_idemp_r 0 off), <- (Zminus_mod_idemp_r 0 off').
  by rewrite Heq.
Qed.

Lemma alignof_uint_range : 0 < alignof_uint T ≤ 8.
Proof. destruct (alignof_uint_ok T HT) as [-> | [-> | ->]]; lia. Qed.

Lemma alignof_ulong_range : 0 < alignof_ulong T ≤ 8.
Proof. destruct (alignof_ulong_ok T HT) as [-> | [-> | [-> | ->]]]; lia. Qed.

Lemma sizeof_long_range : 4 ≤ sizeof_long T ≤ 8.
Proof. destruct (sizeof_long_ok T HT) as [-> | ->]; lia. Qed.

Lemma wrap_int_id x : INT_MIN ≤ x ≤ INT_MAX → wrap_int x = x.
Proof.
  unfold INT_MIN, INT_MAX, wrap_int. intros Hx.
  rewrite Z.mod_small; lia.
Qed.

Lemma length_le_bytes n v : length (le_bytes n v) = n.
Proof. revert v. induction n as [| n IH]; intros v; simpl; auto. Qed.

Lemma length_host_bytes n v : length (host_bytes T n v) = Z.to_nat n.
Proof.
  unfold host_bytes. destruct (big_endian T);
    rewrite ?length_reverse; apply length_le_bytes.
Qed.

Lemma length_words_bytes ws :
  Z.of_nat (length (words_bytes T ws))
  = sizeof_long T * Z.of_nat (length ws).
Proof.
  pose proof sizeof_long_range as Hw. unfold words_bytes.
  induction ws as [| w ws IH]; [simpl; lia |].
  rewrite bind_cons, length_app, length_host_bytes.
  rewrite Nat2Z.inj_add, IH, Z2Nat.id by lia.
  rewrite length_cons, Nat2Z.inj_succ. lia.
Qed.

Lemma words_bytes_app ws1 ws2 :
  words_bytes T (ws1 ++ ws2) = words_bytes T ws1 ++ words_bytes T ws2.
Proof. unfold words_bytes. apply bind_app. Qed.

Lemma words_bytes_singleton w :
  words_bytes T [w] = host_bytes T (sizeof_long T) w.
Proof. unfold words_bytes. simpl. apply app_nil_r. Qed.

Lemma empty_sequence_size_eq offset :
  empty_sequence_size T offset = empty_layout_size T offset.
Proof.
  unfold empty_sequence_size, empty_layout_size.
  pose proof (align_bounds offset _ alignof_uint_range) as H1.
  set (p1 := lib_ring_buffer_align offset (alignof_uint T)) in *.
  set (o2 := wrap_ulong T (wrap_ulong T (offset + p1) + sizeof_uint)).
  pose proof (align_bounds o2 _ alignof_ulong_range) as H2.
  set (p2 := lib_ring_buffer_align o2 (alignof_ulong T)) in *.
  subst o2. push_wrap.
  rewrite wrap_ulong_delta. apply wrap_ulong_small.
  unfold sizeof_uint. lia.
Qed.

Lemma empty_layout_size_range offset :
  sizeof_uint ≤ empty_layout_size T offset < 20.
Proof.
  unfold empty_layout_size.
  pose proof (align_bounds offset _ alignof_uint_range) as H1.
  set (p1 := lib_ring_buffer_align offset (alignof_uint T)) in *.
  set (o2 := wrap_ulong T (wrap_ulong T (offset + p1) + sizeof_uint)).
  pose proof (align_bounds o2 _ alignof_ulong_range) as H2.
  unfold sizeof_uint in *. lia.
Qed.

Lemma sequence_size_eq offset t :
  0 ≤ nr_entries t ≤ MAX_ENTRIES →
  sequence_size T offset t
  = empty_layout_size T offset + sizeof_long T * nr_entries t
    + (if decide (nr_entries t = max_entries t) then sizeof_long T else 0).
Proof.
  intros Hn. unfold MAX_ENTRIES in Hn.
  pose proof sizeof_long_range as Hw.
  unfold sequence_size, empty_layout_size.
  pose proof (align_bounds offset _ alignof_uint_range) as H1.
  set (p1 := lib_ring_buffer_align offset (alignof_uint T)) in *.
  set (o2 := wrap_ulong T (wrap_ulong T (offset + p1) + sizeof_uint)).
  pose proof (align_bounds o2 _ alignof_ulong_range) as H2.
  set (p2 := lib_ring_buffer_align o2 (alignof_ulong T)) in *.
  rewrite wrap_ulong_add_r.
  destruct (decide (nr_entries t = max_entries t)); subst o2; push_wrap;
    rewrite wrap_ulong_delta, ?Z.add_0_r; apply wrap_ulong_small;
    unfold sizeof_uint; nia.
Qed.
End Arithmetic.

(** ** What [lttng_callstack_record] lays down *)

Section Record.
Context (T : target) (HT : target_ok T).

Ltac push_wrap :=
  repeat (rewrite (wrap_ulong_add_l T) || rewrite <- Z.add_assoc).

Lemma length_wire_sequence offset count words :
  Z.of_nat (length (wire_sequence T offset count words))
  = empty_layout_size T offset + sizeof_long T * Z.of_nat (length words).
Proof.
  unfold wire_sequence, empty_layout_size.
  pose proof (align_bounds offset _ (alignof_uint_range T HT)) as H1.
  set (p1 := lib_ring_buffer_align offset (alignof_uint T)) in *.
  set (o2 := wrap_ulong T (wrap_ulong T (offset + p1) + sizeof_uint)).
  pose proof (align_bounds o2 _ (alignof_ulong_range T HT)) as H2.
  set (p2 := lib_ring_buffer_align o2 (alignof_ulong T)) in *.
  rewrite !length_app, !length_replicate, !length_fmap, length_host_bytes.
  rewrite !Nat2Z.inj_add, length_words_bytes by done.
  unfold sizeof_uint. lia.
Qed.

Lemma event_write_nil_write c l :
  event_write T (event_write T c l) [] = event_write T c l.
Proof.
  unfold event_write; simpl. rewrite app_nil_r, Z.add_0_r.
  f_equal. unfold wrap_ulong. by rewrite Zmod_mod.
Qed.

Lemma event_write_nil_align c a :
  event_write T (lib_ring_buffer_align_ctx T c a) []
  = lib_ring_buffer_align_ctx T c a.
Proof.
  unfold event_write, lib_ring_buffer_align_ctx; simpl.
  rewrite app_nil_r, Z.add_0_r.
  f_equal. unfold wrap_ulong. by rewrite Zmod_mod.
Qed.

(** The writes of the capture branch, put together. *)
Lemma record_writes ctx count ws tail :
  let c1 := lib_ring_buffer_align_ctx T ctx (alignof_uint T) in
  let c2 := event_write T c1 (host_bytes T sizeof_uint count) in
  let c3 := lib_ring_buffer_align_ctx T c2 (alignof_ulong T) in
  let c4 := event_write T (event_write T c3 (words_bytes T ws))
              (words_bytes T tail) in
  c4 = RbCtx (cpu ctx)
         (wrap_ulong T
            (buf_offset ctx
             + Z.of_nat (length (wire_sequence T (buf_offset ctx) count
                                   (ws ++ tail)))))
         (written ctx ++ wire_sequence T (buf_offset ctx) count (ws ++ tail)).
Proof.
  pose proof (length_wire_sequence (buf_offset ctx) count (ws ++ tail)) as HL.
  revert HL. unfold wire_sequence, empty_layout_size.
  unfold lib_ring_buffer_align_ctx, event_write; simpl.
  pose proof (align_bounds (buf_offset ctx) _ (alignof_uint_range T HT))
    as H1.
  set (p1 := lib_ring_buffer_align (buf_offset ctx) (alignof_uint T)) in *.
  rewrite length_host_bytes.
  change (Z.of_nat (Z.to_nat sizeof_uint)) with sizeof_uint.
  set (o2 := wrap_ulong T (wrap_ulong T (buf_offset ctx + p1) + sizeof_uint)).
  pose proof (align_bounds o2 _ (alignof_ulong_range T HT)) as H2.
  set (p2 := lib_ring_buffer_align o2 (alignof_ulong T)) in *.
  intros HL. f_equal.
  - rewrite HL. rewrite length_app, Nat2Z.inj_add, Z.mul_add_distr_l.
    rewrite <- !(length_words_bytes T HT).
    subst o2. by push_wrap.
  - rewrite words_bytes_app, fmap_app. by rewrite <- !app_assoc.
Qed.

Lemma record_capture field ctx s fdata p t :
  priv field ≫= (kmalloc_heap s !!.) = Some fdata →
  stack_trace_context fdata (cpu ctx) s = Some p →
  load_trace s p = Some t →
  0 ≤ nr_entries t ≤ Z.of_nat (length (entries t)) →
  let count :=
    if decide (nr_entries t = max_entries t)
    then wrap_uint (nr_entries t + 1) else nr_entries t in
  let words :=
    take (Z.to_nat (nr_entries t)) (entries t)
    ++ (if decide (nr_entries t = max_entries t)
        then [ULONG_MAX T] else []) in
  lttng_callstack_record T field ctx s
  = Some (RbCtx (cpu ctx)
            (wrap_ulong T
               (buf_offset ctx
                + Z.of_nat (length (wire_sequence T (buf_offset ctx)
                                      count words))))
            (written ctx ++ wire_sequence T (buf_offset ctx) count words)).
Proof.
  intros Hpriv Hsel Hload Hn count words.
  unfold lttng_callstack_record.
  destruct (priv field) as [a |]; simpl in Hpriv; [| done].
  simpl. rewrite Hpriv. simpl. rewrite Hsel, Hload. simpl.
  unfold read_words.
  destruct (decide (0 ≤ nr_entries t ≤ Z.of_nat (length (entries t))));
    [| done].
  simpl. subst count words.
  destruct (decide (nr_entries t = max_entries t)).
  - rewrite <- (words_bytes_singleton T (ULONG_MAX T)).
    f_equal. apply record_writes.
  - f_equal. rewrite <- event_write_nil_write.
    apply (record_writes ctx (nr_entries t)
             (take (Z.to_nat (nr_entries t)) (entries t)) []).
Qed.

Lemma record_skip field ctx s fdata :
  priv field ≫= (kmalloc_heap s !!.) = Some fdata →
  stack_trace_context fdata (cpu ctx) s = None →
  lttng_callstack_record T field ctx s
  = Some (RbCtx (cpu ctx)
            (wrap_ulong T
               (buf_offset ctx
                + Z.of_nat (length (wire_sequence T (buf_offset ctx) 0 []))))
            (written ctx ++ wire_sequence T (buf_offset ctx) 0 [])).
Proof.
  intros Hpriv Hsel. unfold lttng_callstack_record.
  destruct (priv field) as [a |]; simpl in Hpriv; [| done].
  simpl. rewrite Hpriv. simpl. rewrite Hsel. f_equal.
  etrans; [| apply (record_writes ctx 0 [] [])].
  change (words_bytes T []) with (@nil Z).
  by rewrite event_write_nil_write, event_write_nil_align.
Qed.
End Record.

(** ** Slot selection and the capture slots *)

Section Slots.
Context (T : target).

Lemma wrap_int_add_l x y : wrap_int (wrap_int x + y) = wrap_int (x + y).
Proof.
  unfold wrap_int. f_equal.
  replace ((x + 2 ^ 31) mod 2 ^ 32 - 2 ^ 31 + y + 2 ^ 31)
    with ((x + 2 ^ 31) mod 2 ^ 32 + y) by lia.
  rewrite Zplus_mod_idemp_l. f_equal. lia.
Qed.

Lemma stack_trace_context_in_event fdata c s p :
  in_event s c →
  stack_trace_context fdata c s = Some p →
  p = TracePtr (cs_percpu fdata) c (lib_ring_buffer_nesting s c - 1)
  ∧ 0 ≤ tp_index p < RING_BUFFER_MAX_NESTING.
Proof.
  unfold in_event, stack_trace_context. intros Hev Hsel.
  rewrite (wrap_int_id (lib_ring_buffer_nesting s c - 1)) in Hsel
    by (unfold INT_MIN, INT_MAX in *; lia).
  repeat case_decide; simplify_eq. simpl. split; [done | lia].
Qed.

(** The selection reads the two per-CPU counters of the CPU only. *)
Lemma stack_trace_context_ext fdata c s s' :
  callstack_user_nesting s' c = callstack_user_nesting s c →
  lib_ring_buffer_nesting s' c = lib_ring_buffer_nesting s c →
  stack_trace_context fdata c s' = stack_trace_context fdata c s.
Proof. unfold stack_trace_context. by intros -> ->. Qed.

Lemma load_trace_attached s field c fdata cs f p :
  attached s field c fdata cs f →
  in_event s c →
  stack_trace_context fdata c s = Some p →
  ∃ t0, load_trace s p = Some t0 ∧ slot_ok t0.
Proof.
  intros Hatt Hev Hsel.
  destruct (stack_trace_context_in_event _ _ _ _ Hev Hsel) as [-> Hidx].
  simpl in Hidx. unfold RING_BUFFER_MAX_NESTING in Hidx.
  pose proof (att_set _ _ _ _ _ _ Hatt) as Hset.
  pose proof (att_nesting _ _ _ _ _ _ Hatt) as Hlen.
  pose proof (att_slots _ _ _ _ _ _ Hatt) as Hslots.
  unfold capture_set in Hset. unfold load_trace. simpl.
  destruct (cs_percpu fdata) as [a |]; [| done]. simpl in *.
  destruct (percpu_heap s !! a) as [area |]; [| done]. simpl in *.
  rewrite Hset. simpl. unfold index. rewrite decide_True by lia.
  destruct (lookup_lt_is_Some_2 cs
              (Z.to_nat (lib_ring_buffer_nesting s c - 1))) as [t0 Ht0].
  { rewrite Hlen. unfold RING_BUFFER_MAX_NESTING. lia. }
  exists t0. split; [done |].
  by eapply Forall_lookup_1.
Qed.

Lemma store_trace_load s p t t0 :
  load_trace s p = Some t0 →
  ∃ s', store_trace s p t = Some s'
        ∧ load_trace s' p = Some t
        ∧ cs_types s' = cs_types s
        ∧ callstack_user_nesting s' = callstack_user_nesting s
        ∧ lib_ring_buffer_nesting s' = lib_ring_buffer_nesting s
        ∧ kmalloc_heap s' = kmalloc_heap s
        ∧ save_func_calls s' = save_func_calls s.
Proof.
  unfold load_trace, store_trace. intros Hload.
  destruct (tp_area p) as [a |]; [| done]. simpl in *.
  destruct (percpu_heap s !! a) as [area |] eqn:Harea; [| done].
  simpl in *.
  destruct (area !! tp_cpu p) as [cs |] eqn:Hcs; [| done]. simpl in *.
  rewrite Hload. simpl. eexists. split; [done |].
  split; [| done]. simpl.
  rewrite lookup_insert_eq. simpl.
  rewrite list_lookup_insert_eq by by eapply lookup_lt_Some. simpl.
  unfold index in *. case_decide; [| done].
  rewrite list_lookup_insert_eq by by eapply lookup_lt_Some. done.
Qed.

Lemma strip_delimiter_spec t :
  0 ≤ nr_entries t ≤ Z.of_nat (length (entries t)) →
  nr_entries t < 2 ^ 32 →
  ∃ t', strip_delimiter T t = Some t'
        ∧ entries t' = entries t
        ∧ max_entries t' = max_entries t
        ∧ nr_entries t'
          = (if decide (0 < nr_entries t
                        ∧ index (entries t) (nr_entries t - 1)
                          = Some (ULONG_MAX T))
             then nr_entries t - 1 else nr_entries t).
Proof.
  intros Hn Hu. unfold strip_delimiter.
  destruct (decide (0 < nr_entries t)) as [Hpos | Hzero].
  - destruct (lookup_lt_is_Some_2 (entries t)
                (Z.to_nat (nr_entries t - 1))) as [x Hx]; [lia |].
    assert (index (entries t) (nr_entries t - 1) = Some x) as Hix.
    { unfold index. by rewrite decide_True by lia. }
    rewrite Hix. simpl.
    destruct (decide (x = ULONG_MAX T)) as [-> | Hne].
    + eexists. split; [done |]. simpl.
      rewrite decide_True by done.
      unfold wrap_uint. rewrite Z.mod_small by lia. done.
    + eexists. split; [done |].
      rewrite decide_False by (intros [_ ?]; congruence). done.
  - eexists. split; [done |].
    rewrite decide_False by (intros [? _]; lia). done.
Qed.
End Slots.

(** ** What [lttng_callstack_get_size] computes and leaves behind *)

Section Measure.
Context (T : target) (HT : target_ok T).

(** The state once the unwinder has been called and has returned. *)
Lemma user_nesting_bracket m c s :
  user_nesting_typed s c →
  let s1 :=
    user_nesting_exit m c
      (count_save_func_call (user_nesting_enter m c s)) in
  cs_types s1 = cs_types s
  ∧ (∀ c', callstack_user_nesting s1 c' = callstack_user_nesting s c')
  ∧ lib_ring_buffer_nesting s1 = lib_ring_buffer_nesting s
  ∧ kmalloc_heap s1 = kmalloc_heap s
  ∧ percpu_heap s1 = percpu_heap s
  ∧ save_func_calls s1 = S (save_func_calls s).
Proof.
  intros Htyped. unfold user_nesting_exit, user_nesting_enter.
  destruct (decide (m = CALLSTACK_USER)); simpl; repeat split; try done.
  intros c'. destruct (decide (c = c')) as [<- | Hne].
  - rewrite !fn_lookup_insert.
    replace (wrap_int (callstack_user_nesting s c + 1) - 1)
      with (wrap_int (callstack_user_nesting s c + 1) + -1) by lia.
    rewrite wrap_int_add_l.
    replace (callstack_user_nesting s c + 1 + -1)
      with (callstack_user_nesting s c) by lia.
    by apply wrap_int_id.
  - by rewrite !fn_lookup_insert_ne.
Qed.

Lemma load_trace_ext s s' p :
  percpu_heap s' = percpu_heap s → load_trace s' p = load_trace s p.
Proof. unfold load_trace. by intros ->. Qed.

(** The measure, step by step, without the report of the run. *)
Lemma get_size_body offset field ctx s :
  lttng_callstack_get_size T offset field ctx s
  = (p ← priv field;
     fdata ← kmalloc_heap s !! p;
     match stack_trace_context fdata (cpu ctx) s with
     | None => Some (empty_sequence_size T offset, s)
     | Some trace =>
         t ← load_trace s trace;
         let t := StackTrace 0 (max_entries t) (entries t) in
         let s := user_nesting_enter (mode fdata) (cpu ctx) s in
         f ← save_func (cs_types s (mode fdata));
         let t := f t in
         let s := count_save_func_call s in
         let s := user_nesting_exit (mode fdata) (cpu ctx) s in
         t ← strip_delimiter T t;
         s ← store_trace s trace t;
         Some (sequence_size T offset t, s)
     end).
Proof.
  unfold lttng_callstack_get_size, lttng_callstack_get_size_run.
  destruct (priv field) as [a |]; [| done]. simpl.
  destruct (kmalloc_heap s !! a) as [fdata |]; [| done]. simpl.
  destruct (stack_trace_context fdata (cpu ctx) s) as [p |]; [| done].
  destruct (load_trace s p) as [t0 |]; [| done]. simpl.
  destruct (save_func _) as [f |]; [| done]. simpl.
  destruct (strip_delimiter T _) as [t' |]; [| done]. simpl.
  by destruct (store_trace _ p t') as [s' |].
Qed.

Lemma get_size_skip offset field ctx s fdata :
  priv field ≫= (kmalloc_heap s !!.) = Some fdata →
  stack_trace_context fdata (cpu ctx) s = None →
  lttng_callstack_get_size T offset field ctx s
  = Some (empty_sequence_size T offset, s).
Proof.
  intros Hpriv Hsel. rewrite get_size_body.
  destruct (priv field) as [a |]; simpl in Hpriv; [| done].
  simpl. rewrite Hpriv. simpl. by rewrite Hsel.
Qed.

Lemma get_size_capture offset field ctx s fdata cs f p t0 :
  attached s field (cpu ctx) fdata cs f →
  user_nesting_typed s (cpu ctx) →
  stack_trace_context fdata (cpu ctx) s = Some p →
  load_trace s p = Some t0 →
  slot_ok t0 →
  ∃ t' s',
    lttng_callstack_get_size T offset field ctx s
    = Some (sequence_size T offset t', s')
    ∧ strip_delimiter T (backend_result f t0) = Some t'
    ∧ load_trace s' p = Some t'
    ∧ slot_ok t'
    ∧ 0 ≤ nr_entries t' ≤ MAX_ENTRIES
    ∧ cs_types s' = cs_types s
    ∧ (∀ c', callstack_user_nesting s' c' = callstack_user_nesting s c')
    ∧ lib_ring_buffer_nesting s' = lib_ring_buffer_nesting s
    ∧ kmalloc_heap s' = kmalloc_heap s
    ∧ save_func_calls s' = S (save_func_calls s).
Proof.
  intros Hatt Htyped Hsel Hload Hok.
  pose proof (att_priv _ _ _ _ _ _ Hatt) as Hpriv.
  pose proof (att_bound _ _ _ _ _ _ Hatt) as Hbound.
  destruct (att_backend _ _ _ _ _ _ Hatt
              (StackTrace 0 (max_entries t0) (entries t0)))
    as [[Hmax Hlen] Hnr].
  { destruct Hok. by split. }
  simpl in Hnr. fold (backend_result f t0) in Hmax, Hlen, Hnr.
  destruct Hok as [Hmax0 Hlen0]. rewrite Hmax0 in Hnr.
  unfold MAX_ENTRIES in *.
  destruct (strip_delimiter_spec T (backend_result f t0))
    as (t' & Hstrip & Hent & Hmx & Hnr'); [lia | lia |].
  destruct (user_nesting_bracket (mode fdata) (cpu ctx) s Htyped)
    as (Hcs & Hguard & Hrb & Hkm & Hpc & Hcalls).
  set (s1 := user_nesting_exit (mode fdata) (cpu ctx)
               (count_save_func_call
                  (user_nesting_enter (mode fdata) (cpu ctx) s))) in *.
  destruct (store_trace_load s1 p t' t0)
    as (s' & Hstore & Hload' & Hcs' & Hguard' & Hrb' & Hkm' & Hcalls').
  { by rewrite (load_trace_ext s s1). }
  exists t', s'. split.
  - rewrite get_size_body.
    destruct (priv field) as [a |]; simpl in Hpriv; [| done].
    simpl. rewrite Hpriv. simpl. rewrite Hsel, Hload. simpl.
    assert (cs_types (user_nesting_enter (mode fdata) (cpu ctx) s)
            = cs_types s) as ->.
    { unfold user_nesting_enter.
      by destruct (decide (mode fdata = CALLSTACK_USER)). }
    rewrite Hbound. simpl.
    fold (backend_result f t0). rewrite Hstrip. simpl.
    fold s1. rewrite Hstore. done.
  - split; [done |]. split; [done |]. split.
    { split; [by rewrite Hmx | by rewrite Hent]. }
    split.
    { rewrite Hnr'. case_decide; lia. }
    split; [by rewrite Hcs' |].
    split; [intros c'; by rewrite Hguard' |].
    split; [by rewrite Hrb' |].
    split; [by rewrite Hkm' |].
    by rewrite Hcalls'.
Qed.
End Measure.

(** ** One event: the measure, then the write *)

Section Event.
Context (T : target) (HT : target_ok T).

(** The write reads the private data, the two counters of its CPU and
    the selected slot, and nothing else. *)
Lemma record_unchanged field ctx s s2 :
  slot_unchanged field (cpu ctx) s s2 →
  lttng_callstack_record T field ctx s2
  = lttng_callstack_record T field ctx s.
Proof.
  intros (Hpriv & Hguard & Hrb & Hslot).
  unfold lttng_callstack_record.
  destruct (priv field) as [a |]; [| done]. simpl in *.
  rewrite Hpriv.
  destruct (kmalloc_heap s !! a) as [fdata |] eqn:Hfd; [| done]. simpl.
  rewrite (stack_trace_context_ext fdata (cpu ctx) s s2 Hguard Hrb).
  destruct (stack_trace_context fdata (cpu ctx) s) as [p |] eqn:Hsel;
    [| done].
  by rewrite (Hslot fdata p).
Qed.

(** The capture branch of one event. *)
Lemma capture_event offset field ctx s fdata cs f p t0 :
  attached s field (cpu ctx) fdata cs f →
  user_nesting_typed s (cpu ctx) →
  stack_trace_context fdata (cpu ctx) s = Some p →
  load_trace s p = Some t0 →
  slot_ok t0 →
  ∃ t' s',
    lttng_callstack_get_size T offset field ctx s
    = Some (sequence_size T offset t', s')
    ∧ strip_delimiter T (backend_result f t0) = Some t'
    ∧ load_trace s' p = Some t'
    ∧ slot_ok t'
    ∧ 0 ≤ nr_entries t' ≤ MAX_ENTRIES
    ∧ lttng_callstack_record T field ctx s'
      = Some (RbCtx (cpu ctx)
                (wrap_ulong T
                   (buf_offset ctx
                    + Z.of_nat
                        (length
                           (wire_sequence T (buf_offset ctx)
                              (if decide (nr_entries t' = max_entries t')
                               then wrap_uint (nr_entries t' + 1)
                               else nr_entries t')
                              (take (Z.to_nat (nr_entries t')) (entries t')
                               ++ (if decide
                                        (nr_entries t' = max_entries t')
                                   then [ULONG_MAX T] else []))))))
                (written ctx
                 ++ wire_sequence T (buf_offset ctx)
                      (if decide (nr_entries t' = max_entries t')
                       then wrap_uint (nr_entries t' + 1)
                       else nr_entries t')
                      (take (Z.to_nat (nr_entries t')) (entries t')
                       ++ (if decide (nr_entries t' = max_entries t')
                           then [ULONG_MAX T] else [])))).
Proof.
  intros Hatt Htyped Hsel Hload Hok.
  destruct (get_size_capture T offset _ _ _ _ _ _ _ _
              Hatt Htyped Hsel Hload Hok)
    as (t' & s' & Hsize & Hstrip & Hload' & Hok' & Hnr & _ & Hguard
        & Hrb & Hkm & _).
  exists t', s'. repeat (split; [done |]).
  apply (record_capture T HT _ _ _ fdata p t').
  - rewrite Hkm. by apply (att_priv _ _ _ _ _ _ Hatt).
  - rewrite <- Hsel. apply stack_trace_context_ext; [done | by rewrite Hrb].
  - done.
  - destruct Hok' as [_ ->]. unfold MAX_ENTRIES in *. lia.
Qed.

Lemma empty_layout_size_congr offset offset' :
  offset mod alignof_uint T = offset' mod alignof_uint T →
  offset mod alignof_ulong T = offset' mod alignof_ulong T →
  empty_layout_size T offset = empty_layout_size T offset'.
Proof.
  intros H1 H2. unfold empty_layout_size.
  pose proof (alignof_uint_range T HT) as Ha1.
  pose proof (alignof_ulong_range T HT) as Ha2.
  rewrite (align_congr offset offset' (alignof_uint T)) by (done || lia).
  set (p1 := lib_ring_buffer_align offset' (alignof_uint T)).
  f_equal. apply align_congr; [lia |].
  rewrite !(wrap_ulong_mod T HT) by apply (alignof_ulong_ok T HT).
  rewrite (Z.add_mod (wrap_ulong T (offset + p1))),
    (Z.add_mod (wrap_ulong T (offset' + p1))) by lia.
  rewrite !(wrap_ulong_mod T HT) by apply (alignof_ulong_ok T HT).
  rewrite (Z.add_mod offset), (Z.add_mod offset') by lia.
  by rewrite H2.
Qed.
End Event.

(** ** The sample instances are well formed *)

Lemma x86_64_ok : target_ok x86_64.
Proof. split; simpl; auto. Qed.

Lemma frames_backend_ok fr : backend_ok (frames_backend fr).
Proof.
  intros t [Hmax Hlen]. unfold frames_backend, slot_ok. simpl.
  rewrite Hmax. unfold MAX_ENTRIES in *.
  pose proof (length_take fr (Z.to_nat 128)) as Htake.
  set (fr' := take (Z.to_nat 128) fr) in *.
  rewrite length_app, length_drop, Hlen. lia.
Qed.

Lemma sample_attached slot fr m guard d :
  slot_ok slot →
  attached (sample_state slot fr m guard d) (sample_field m) 0
    (sample_fdata m) (replicate 4 slot) (frames_backend fr).
Proof.
  intros Hslot. split; try done.
  - by apply Forall_replicate.
  - apply frames_backend_ok.
Qed.

Lemma idle_slot_ok : slot_ok idle_slot.
Proof. by split. Qed.

(** ** The claims of the design document *)

Section Claims.
Context (T : target) (HT : target_ok T).

(** C5: with the ring-buffer nesting depth [d] of the CPU at least 1,
    the invariant of the emission path under which the selection runs
    ([d - 1] being a value of the [int] that [buffer_nesting] holds),
    slot selection returns no slot exactly when the field is in user
    mode with the per-CPU user-nesting guard at least 1, or
    [d - 1 >= RING_BUFFER_MAX_NESTING]; in every other case it returns
    the slot at index [d - 1] of the CPU's capture set, and any
    returned index lies in [0, RING_BUFFER_MAX_NESTING). *)
Theorem stack_trace_context_selects fdata c s :
  in_event s c →
  (stack_trace_context fdata c s = None
   ↔ (mode fdata = CALLSTACK_USER ∧ 1 ≤ callstack_user_nesting s c)
     ∨ RING_BUFFER_MAX_NESTING ≤ lib_ring_buffer_nesting s c - 1)
  ∧ (∀ p, stack_trace_context fdata c s = Some p →
       p = TracePtr (cs_percpu fdata) c (lib_ring_buffer_nesting s c - 1)
       ∧ 0 ≤ tp_index p < RING_BUFFER_MAX_NESTING).
Proof.
  intros Hev. split.
  - unfold in_event in Hev. unfold stack_trace_context.
    rewrite (wrap_int_id (lib_ring_buffer_nesting s c - 1))
      by (unfold INT_MIN, INT_MAX in *; lia).
    repeat case_decide; split; try done; tauto.
  - intros p Hp. by apply stack_trace_context_in_event.
Qed.

(** C4: when slot selection yields no slot (none available, or the
    user-stack guard forbids capture), the measure returns the size of
    the empty sequence (padding to the alignment of [unsigned int], 4
    bytes, padding to machine-word alignment) and leaves the state as
    it was, the count of unwinder calls included; the write on that
    branch lays down a count of 0 and no element words. *)
Theorem no_slot_emits_empty_sequence offset field ctx s fdata :
  priv field ≫= (kmalloc_heap s !!.) = Some fdata →
  stack_trace_context fdata (cpu ctx) s = None →
  lttng_callstack_get_size T offset field ctx s
  = Some (lib_ring_buffer_align offset (alignof_uint T) + 4
          + lib_ring_buffer_align
              (wrap_ulong T
                 (wrap_ulong T
                    (offset + lib_ring_buffer_align offset (alignof_uint T))
                  + 4))
              (alignof_ulong T),
          s)
  ∧ ∃ ctx',
      lttng_callstack_record T field ctx s = Some ctx'
      ∧ written ctx' = written ctx ++ wire_sequence T (buf_offset ctx) 0 [].
Proof.
  intros Hpriv Hsel. split.
  - rewrite (get_size_skip T _ _ _ _ _ Hpriv Hsel).
    by rewrite (empty_sequence_size_eq T HT).
  - eexists. split; [by apply (record_skip T HT _ _ _ fdata) |]. done.
Qed.

(** C2: for a captured trace whose length after stripping equals
    [max_entries], the write emits the count [length + 1], the
    [length] frames and one more machine word equal to [ULONG_MAX];
    for a length below [max_entries] it emits the count [length] and
    the frames only. *)
Theorem record_count_and_marker field ctx s fdata p t :
  priv field ≫= (kmalloc_heap s !!.) = Some fdata →
  stack_trace_context fdata (cpu ctx) s = Some p →
  load_trace s p = Some t →
  slot_ok t →
  0 ≤ nr_entries t ≤ max_entries t →
  ∃ ctx',
    lttng_callstack_record T field ctx s = Some ctx'
    ∧ (nr_entries t = max_entries t →
       written ctx'
       = written ctx
         ++ wire_sequence T (buf_offset ctx) (nr_entries t + 1)
              (take (Z.to_nat (nr_entries t)) (entries t)
               ++ [ULONG_MAX T]))
    ∧ (nr_entries t < max_entries t →
       written ctx'
       = written ctx
         ++ wire_sequence T (buf_offset ctx) (nr_entries t)
              (take (Z.to_nat (nr_entries t)) (entries t))).
Proof.
  intros Hpriv Hsel Hload [Hmax Hlen] Hn.
  rewrite Hmax in *. unfold MAX_ENTRIES in *.
  eexists. split.
  { apply (record_capture T HT _ _ _ _ _ _ Hpriv Hsel Hload). lia. }
  simpl. rewrite Hmax. split; intros Hcase.
  - rewrite decide_True by done. rewrite decide_True by done.
    unfold wrap_uint. rewrite Z.mod_small by lia. done.
  - rewrite decide_False by lia. rewrite decide_False by lia.
    by rewrite app_nil_r.
Qed.

(** C1: for every event, the bytes the write emits are as many as the
    measure returned for it, when both start at the same alignment and
    the selected slot of the CPU is unchanged between the two calls. *)
Theorem record_emits_measured_size offset field ctx s fdata cs f :
  attached s field (cpu ctx) fdata cs f →
  in_event s (cpu ctx) →
  user_nesting_typed s (cpu ctx) →
  offset mod alignof_uint T = buf_offset ctx mod alignof_uint T →
  offset mod alignof_ulong T = buf_offset ctx mod alignof_ulong T →
  ∃ sz s',
    lttng_callstack_get_size T offset field ctx s = Some (sz, s')
    ∧ ∀ s2, slot_unchanged field (cpu ctx) s' s2 →
        ∃ ctx',
          lttng_callstack_record T field ctx s2 = Some ctx'
          ∧ Z.of_nat (length (written ctx'))
            = Z.of_nat (length (written ctx)) + sz
          ∧ buf_offset ctx' = wrap_ulong T (buf_offset ctx + sz).
Proof.
  intros Hatt Hev Htyped Ha1 Ha2.
  pose proof (att_priv _ _ _ _ _ _ Hatt) as Hpriv.
  pose proof (empty_layout_size_congr T HT _ _ Ha1 Ha2) as Hcongr.
  destruct (stack_trace_context fdata (cpu ctx) s) as [p |] eqn:Hsel.
  - destruct (load_trace_attached _ _ _ _ _ _ _ Hatt Hev Hsel)
      as (t0 & Hload & Hok).
    destruct (capture_event T HT offset _ _ _ _ _ _ _ _
                Hatt Htyped Hsel Hload Hok)
      as (t' & s' & Hsize & _ & _ & [Hmax Hlen] & Hnr & Hrec).
    exists (sequence_size T offset t'), s'. split; [done |].
    intros s2 Hs2. rewrite (record_unchanged T _ _ _ _ Hs2), Hrec.
    eexists. split; [done |]. simpl.
    rewrite (sequence_size_eq T HT) by done.
    rewrite length_app, Nat2Z.inj_add.
    rewrite (length_wire_sequence T HT), <- Hcongr.
    rewrite length_app, length_take, Hlen, Nat2Z.inj_add.
    unfold MAX_ENTRIES in *.
    rewrite Nat.min_l, Z2Nat.id by lia.
    destruct (decide (nr_entries t' = max_entries t')); simpl;
      (split; [| f_equal]); nia.
  - exists (empty_sequence_size T offset), s.
    split; [by apply (get_size_skip T _ _ _ _ fdata) |].
    intros s2 Hs2. rewrite (record_unchanged T _ _ _ _ Hs2).
    rewrite (record_skip T HT _ _ _ fdata) by done.
    eexists. split; [done |]. simpl.
    rewrite (empty_sequence_size_eq T HT).
    rewrite length_app, Nat2Z.inj_add.
    rewrite (length_wire_sequence T HT), <- Hcongr. simpl.
    split; [| f_equal]; lia.
Qed.

(** C3: in the measure, once the unwinder has returned, a trace of
    length greater than zero whose last entry equals [ULONG_MAX] has
    its length decremented by exactly one; in every other case the
    length the unwinder returned is kept.  The entries and the capacity
    are kept in both cases. *)
Theorem get_size_strips_final_delimiter offset field ctx s fdata cs f p t0 :
  attached s field (cpu ctx) fdata cs f →
  in_event s (cpu ctx) →
  user_nesting_typed s (cpu ctx) →
  stack_trace_context fdata (cpu ctx) s = Some p →
  load_trace s p = Some t0 →
  ∃ sz s' t',
    lttng_callstack_get_size T offset field ctx s = Some (sz, s')
    ∧ load_trace s' p = Some t'
    ∧ entries t' = entries (backend_result f t0)
    ∧ max_entries t' = max_entries (backend_result f t0)
    ∧ (0 < nr_entries (backend_result f t0)
       ∧ index (entries (backend_result f t0))
           (nr_entries (backend_result f t0) - 1) = Some (ULONG_MAX T) →
       nr_entries t' = nr_entries (backend_result f t0) - 1)
    ∧ (¬ (0 < nr_entries (backend_result f t0)
          ∧ index (entries (backend_result f t0))
              (nr_entries (backend_result f t0) - 1) = Some (ULONG_MAX T)) →
       nr_entries t' = nr_entries (backend_result f t0)).
Proof.
  intros Hatt Hev Htyped Hsel Hload.
  destruct (load_trace_attached _ _ _ _ _ _ _ Hatt Hev Hsel)
    as (t0' & Hload0 & Hok).
  assert (t0' = t0) as -> by congruence.
  destruct (get_size_capture T offset _ _ _ _ _ _ _ _
              Hatt Htyped Hsel Hload Hok)
    as (t' & s' & Hsize & Hstrip & Hload' & _).
  destruct (att_backend _ _ _ _ _ _ Hatt
              (StackTrace 0 (max_entries t0) (entries t0)))
    as [[Hmax Hlen] Hnr].
  { destruct Hok. by split. }
  simpl in Hnr. fold (backend_result f t0) in Hmax, Hlen, Hnr.
  destruct Hok as [Hmax0 _]. rewrite Hmax0 in Hnr.
  unfold MAX_ENTRIES in *.
  destruct (strip_delimiter_spec T (backend_result f t0))
    as (t'' & Hstrip' & Hent & Hmx & Hnr'); [lia | lia |].
  assert (t'' = t') as -> by congruence.
  exists (sequence_size T offset t'), s', t'.
  repeat (split; [done |]).
  rewrite Hnr'. split; intros Hcase.
  - by rewrite decide_True.
  - by rewrite decide_False.
Qed.

(** The capture branch of one event, in terms of what the unwinder
    returned. *)
Lemma capture_event_result offset field ctx s fdata cs f p t0 :
  attached s field (cpu ctx) fdata cs f →
  in_event s (cpu ctx) →
  user_nesting_typed s (cpu ctx) →
  stack_trace_context fdata (cpu ctx) s = Some p →
  load_trace s p = Some t0 →
  ∃ sz s' t' ctx',
    lttng_callstack_get_size T offset field ctx s = Some (sz, s')
    ∧ load_trace s' p = Some t'
    ∧ lttng_callstack_record T field ctx s' = Some ctx'
    ∧ entries t' = entries (backend_result f t0)
    ∧ length (entries t') = Z.to_nat MAX_ENTRIES
    ∧ max_entries t' = MAX_ENTRIES
    ∧ 0 ≤ nr_entries (backend_result f t0) ≤ MAX_ENTRIES
    ∧ nr_entries t'
      = (if decide (0 < nr_entries (backend_result f t0)
                    ∧ index (entries (backend_result f t0))
                        (nr_entries (backend_result f t0) - 1)
                      = Some (ULONG_MAX T))
         then nr_entries (backend_result f t0) - 1
         else nr_entries (backend_result f t0))
    ∧ written ctx'
      = written ctx
        ++ wire_sequence T (buf_offset ctx)
             (if decide (nr_entries t' = MAX_ENTRIES)
              then nr_entries t' + 1 else nr_entries t')
             (take (Z.to_nat (nr_entries t')) (entries t')
              ++ (if decide (nr_entries t' = MAX_ENTRIES)
                  then [ULONG_MAX T] else [])).
Proof.
  intros Hatt Hev Htyped Hsel Hload.
  destruct (load_trace_attached _ _ _ _ _ _ _ Hatt Hev Hsel)
    as (t0' & Hload0 & Hok).
  assert (t0' = t0) as -> by congruence.
  destruct (capture_event T HT offset _ _ _ _ _ _ _ _
              Hatt Htyped Hsel Hload Hok)
    as (t' & s' & Hsize & Hstrip & Hload' & [Hmax' Hlen'] & Hnr1 & Hrec).
  destruct (att_backend _ _ _ _ _ _ Hatt
              (StackTrace 0 (max_entries t0) (entries t0)))
    as [[Hmax Hlen] Hnr].
  { destruct Hok. by split. }
  simpl in Hnr. fold (backend_result f t0) in Hmax, Hlen, Hnr.
  destruct Hok as [Hmax0 _]. rewrite Hmax0 in Hnr.
  destruct (strip_delimiter_spec T (backend_result f t0))
    as (t'' & Hstrip' & Hent & Hmx & Hnr');
    [unfold MAX_ENTRIES in *; lia | unfold MAX_ENTRIES in *; lia |].
  assert (t'' = t') as -> by congruence.
  eexists _, s', t', _. repeat (split; [done |]). simpl.
  rewrite Hmax'.
  destruct (decide (nr_entries t' = MAX_ENTRIES)) as [-> |]; [| done].
  done.
Qed.

(** C6: across an invocation of the measure, whatever the mode and
    the branch, the user-unwind nesting counter of every CPU has the
    same value after the invocation as before.  On the capture branch
    the unwinder is called once and finds, while it runs, the counter
    of the calling CPU one above its value before for a user-mode
    field and every other counter as before; the skip branches call no
    unwinder and leave the state as it is.  So a counter that is
    non-negative before the invocation is non-negative while the
    unwinder runs and after the invocation.  On an attached field
    inside an event the invocation does return. *)
Theorem get_size_balances_user_nesting offset field ctx s :
  user_nesting_typed s (cpu ctx) →
  (∀ sz s' during,
     lttng_callstack_get_size_run T offset field ctx s
     = Some (sz, s', during) →
     lttng_callstack_get_size T offset field ctx s = Some (sz, s')
     ∧ (∀ c, callstack_user_nesting s' c = callstack_user_nesting s c)
     ∧ (∀ c, 0 ≤ callstack_user_nesting s c →
             0 ≤ callstack_user_nesting s' c
             ∧ ∀ g, during = Some g → 0 ≤ g c)
     ∧ match during with
       | Some g =>
           ∃ fdata,
             priv field ≫= (kmalloc_heap s !!.) = Some fdata
             ∧ is_Some (stack_trace_context fdata (cpu ctx) s)
             ∧ save_func_calls s' = S (save_func_calls s)
             ∧ ∀ c, g c
                    = if decide (mode fdata = CALLSTACK_USER ∧ c = cpu ctx)
                      then callstack_user_nesting s c + 1
                      else callstack_user_nesting s c
       | None => s' = s
       end)
  ∧ (∀ sz s',
       lttng_callstack_get_size T offset field ctx s = Some (sz, s') →
       ∃ during,
         lttng_callstack_get_size_run T offset field ctx s
         = Some (sz, s', during))
  ∧ (∀ fdata cs f,
       attached s field (cpu ctx) fdata cs f →
       in_event s (cpu ctx) →
       is_Some (lttng_callstack_get_size_run T offset field ctx s)).
Proof.
  intros Htyped. split; [| split].
  - intros sz s' during Hrun.
    split; [unfold lttng_callstack_get_size; by rewrite Hrun |].
    revert Hrun. unfold lttng_callstack_get_size_run.
    destruct (priv field) as [a |]; [| done]. simpl.
    destruct (kmalloc_heap s !! a) as [fdata |] eqn:Hfd; [| done]. simpl.
    destruct (stack_trace_context fdata (cpu ctx) s) as [p |] eqn:Hsel;
      [| intros [= _ <- <-]; repeat split; done].
    destruct (load_trace s p) as [t0 |] eqn:Hload; [| done]. simpl.
    destruct (save_func _) as [f |]; [| done]. simpl.
    destruct (strip_delimiter T _) as [t' |]; [| done]. simpl.
    destruct (user_nesting_bracket (mode fdata) (cpu ctx) s Htyped)
      as (_ & Hguard & _ & _ & Hpc & Hcalls).
    set (s1 := user_nesting_exit (mode fdata) (cpu ctx)
                 (count_save_func_call
                    (user_nesting_enter (mode fdata) (cpu ctx) s))) in *.
    destruct (store_trace_load s1 p t' t0)
      as (s'' & Hstore & _ & _ & Hguard' & _ & _ & Hcalls').
    { by rewrite (load_trace_ext s s1). }
    rewrite Hstore. simpl. intros [= _ <- <-].
    assert (∀ c, callstack_user_nesting
                   (user_nesting_enter (mode fdata) (cpu ctx) s) c
                 = if decide (mode fdata = CALLSTACK_USER ∧ c = cpu ctx)
                   then callstack_user_nesting s c + 1
                   else callstack_user_nesting s c) as Hduring.
    { intros c. unfold user_nesting_enter.
      destruct (decide (mode fdata = CALLSTACK_USER)) as [Hm | Hm]; simpl.
      - destruct (decide (cpu ctx = c)) as [<- | Hne].
        + rewrite fn_lookup_insert, decide_True by done.
          apply wrap_int_id.
          unfold stack_trace_context in Hsel.
          destruct (decide (mode fdata = CALLSTACK_USER
                            ∧ 1 ≤ callstack_user_nesting s (cpu ctx)))
            as [| Hskip]; [done |].
          unfold user_nesting_typed, INT_MIN, INT_MAX in *.
          destruct (decide (1 ≤ callstack_user_nesting s (cpu ctx)));
            [tauto | lia].
        + rewrite fn_lookup_insert_ne by done.
          rewrite decide_False; [done | intros [_ ->]; done].
      - rewrite decide_False; [done | tauto]. }
    split; [intros c; by rewrite Hguard' |].
    split.
    + intros c Hpos. split; [by rewrite Hguard', Hguard |].
      intros g [= <-]. rewrite Hduring.
      destruct (decide (mode fdata = CALLSTACK_USER ∧ c = cpu ctx)); lia.
    + exists fdata. split; [done |]. split; [done |].
      split; [by rewrite Hcalls' | done].
  - unfold lttng_callstack_get_size. intros sz s' Hsize.
    destruct (lttng_callstack_get_size_run T offset field ctx s)
      as [[[sz0 s0] during] |]; [| done].
    simpl in Hsize. exists during. congruence.
  - intros fdata cs f Hatt Hev.
    assert (is_Some (lttng_callstack_get_size T offset field ctx s))
      as [r Hr].
    { destruct (stack_trace_context fdata (cpu ctx) s) as [p |] eqn:Hsel.
      + destruct (load_trace_attached _ _ _ _ _ _ _ Hatt Hev Hsel)
          as (t0 & Hload & Hok).
        destruct (get_size_capture T offset _ _ _ _ _ _ _ _
                    Hatt Htyped Hsel Hload Hok)
          as (t' & s' & -> & _).
        by eexists.
      + rewrite (get_size_skip T offset _ _ _ fdata); [by eexists | | done].
        by apply (att_priv _ _ _ _ _ _ Hatt). }
    unfold lttng_callstack_get_size in Hr.
    by destruct (lttng_callstack_get_size_run T offset field ctx s).
Qed.

(** C8, as the code has it: an unwinder result of length 0 and an
    unwinder result of length 1 whose only entry equals [ULONG_MAX]
    serialize alike, as a count of 0 and no element words. *)
Theorem empty_and_lone_delimiter_alike offset field ctx s fdata cs f p t0 :
  attached s field (cpu ctx) fdata cs f →
  in_event s (cpu ctx) →
  user_nesting_typed s (cpu ctx) →
  stack_trace_context fdata (cpu ctx) s = Some p →
  load_trace s p = Some t0 →
  nr_entries (backend_result f t0) = 0
  ∨ (nr_entries (backend_result f t0) = 1
     ∧ index (entries (backend_result f t0)) 0 = Some (ULONG_MAX T)) →
  ∃ sz s' ctx',
    lttng_callstack_get_size T offset field ctx s = Some (sz, s')
    ∧ lttng_callstack_record T field ctx s' = Some ctx'
    ∧ written ctx' = written ctx ++ wire_sequence T (buf_offset ctx) 0 [].
Proof.
  intros Hatt Hev Htyped Hsel Hload Hcase.
  destruct (capture_event_result offset _ _ _ _ _ _ _ _
              Hatt Hev Htyped Hsel Hload)
    as (sz & s' & t' & ctx' & Hsize & _ & Hrec & _ & _ & _ & _ & Hnr
        & Hout).
  exists sz, s', ctx'. repeat (split; [done |]).
  assert (nr_entries t' = 0) as Hzero.
  { rewrite Hnr. destruct Hcase as [-> | [-> Hlast]].
    - by rewrite decide_False by lia.
    - by rewrite decide_True. }
  rewrite Hout, Hzero. by rewrite decide_False.
Qed.

(** C9: stripping the final delimiter and appending the truncation
    marker exclude each other for one event.  When the unwinder fills
    the slot to [MAX_ENTRIES] frames and the last one equals
    [ULONG_MAX], the delimiter is stripped first: the count is
    [MAX_ENTRIES - 1] and no marker follows the frames.  The marker is
    appended (the stored length equals the capacity) exactly when the
    unwinder returned [MAX_ENTRIES] frames whose last is not
    [ULONG_MAX]; the count is then [MAX_ENTRIES + 1]. *)
Theorem delimiter_and_marker_exclusive offset field ctx s fdata cs f p t0 :
  attached s field (cpu ctx) fdata cs f →
  in_event s (cpu ctx) →
  user_nesting_typed s (cpu ctx) →
  stack_trace_context fdata (cpu ctx) s = Some p →
  load_trace s p = Some t0 →
  ∃ sz s' t' ctx',
    lttng_callstack_get_size T offset field ctx s = Some (sz, s')
    ∧ load_trace s' p = Some t'
    ∧ lttng_callstack_record T field ctx s' = Some ctx'
    ∧ (nr_entries (backend_result f t0) = MAX_ENTRIES
       ∧ index (entries (backend_result f t0)) (MAX_ENTRIES - 1)
         = Some (ULONG_MAX T) →
       nr_entries t' = MAX_ENTRIES - 1
       ∧ written ctx'
         = written ctx
           ++ wire_sequence T (buf_offset ctx) (MAX_ENTRIES - 1)
                (take (Z.to_nat (MAX_ENTRIES - 1))
                   (entries (backend_result f t0))))
    ∧ (nr_entries t' = max_entries t'
       ↔ nr_entries (backend_result f t0) = MAX_ENTRIES
         ∧ index (entries (backend_result f t0)) (MAX_ENTRIES - 1)
           ≠ Some (ULONG_MAX T))
    ∧ (nr_entries t' = max_entries t' →
       written ctx'
       = written ctx
         ++ wire_sequence T (buf_offset ctx) (MAX_ENTRIES + 1)
              (take (Z.to_nat MAX_ENTRIES) (entries (backend_result f t0))
               ++ [ULONG_MAX T]))
    ∧ (nr_entries t' ≠ max_entries t' →
       written ctx'
       = written ctx
         ++ wire_sequence T (buf_offset ctx) (nr_entries t')
              (take (Z.to_nat (nr_entries t'))
                 (entries (backend_result f t0)))).
Proof.
  intros Hatt Hev Htyped Hsel Hload.
  destruct (capture_event_result offset _ _ _ _ _ _ _ _
              Hatt Hev Htyped Hsel Hload)
    as (sz & s' & t' & ctx' & Hsize & Hload' & Hrec & Hent & _ & Hmax
        & Hr & Hnr & Hout).
  exists sz, s', t', ctx'. repeat (split; [done |]).
  rewrite Hmax, Hout, Hent. clear Hout.
  set (r := backend_result f t0) in *.
  unfold MAX_ENTRIES in *.
  split; [| split; [| split]].
  - intros [Hfull Hlast].
    assert (nr_entries t' = 128 - 1) as Hn.
    { rewrite Hnr, Hfull. by rewrite decide_True. }
    split; [done |]. rewrite Hn.
    rewrite decide_False by lia. by rewrite app_nil_r.
  - rewrite Hnr. split.
    + destruct (decide (0 < nr_entries r
                        ∧ index (entries r) (nr_entries r - 1)
                          = Some (ULONG_MAX T))) as [| Hno];
        [lia |].
      intros Hfull. split; [done |].
      intros Hlast. apply Hno. rewrite Hfull. split; [lia | done].
    + intros [Hfull Hlast]. rewrite Hfull.
      by rewrite decide_False by (intros [_ ?]; done).
  - intros Hfull. rewrite Hfull. by rewrite decide_True.
  - intros Hpart.
    destruct (decide (nr_entries t' = 128)); [done | by rewrite app_nil_r].
Qed.

(** C10: what the write emits depends on the slot only through its
    counters and the entries below [nr_entries].  Two runs of the write
    whose selected slots agree on [nr_entries], on the capacity and on
    [entries[0 .. nr_entries)] produce the same output, whatever the
    arrays hold beyond; and the measure hands the unwinder the slot
    with [nr_entries] reset to zero and the array as it was, the stored
    result being what the unwinder returned for it, delimiter
    stripped. *)
Theorem record_ignores_stale_entries offset field ctx s1 s2 fdata cs f
    p1 p2 t1 t2 :
  attached s1 field (cpu ctx) fdata cs f →
  in_event s1 (cpu ctx) →
  user_nesting_typed s1 (cpu ctx) →
  priv field ≫= (kmalloc_heap s2 !!.) = Some fdata →
  stack_trace_context fdata (cpu ctx) s1 = Some p1 →
  stack_trace_context fdata (cpu ctx) s2 = Some p2 →
  load_trace s1 p1 = Some t1 →
  load_trace s2 p2 = Some t2 →
  nr_entries t1 = nr_entries t2 →
  max_entries t1 = max_entries t2 →
  length (entries t1) = length (entries t2) →
  take (Z.to_nat (nr_entries t1)) (entries t1)
  = take (Z.to_nat (nr_entries t1)) (entries t2) →
  lttng_callstack_record T field ctx s1
  = lttng_callstack_record T field ctx s2
  ∧ ∃ sz s' t',
      lttng_callstack_get_size T offset field ctx s1 = Some (sz, s')
      ∧ load_trace s' p1 = Some t'
      ∧ strip_delimiter T
          (f (StackTrace 0 (max_entries t1) (entries t1))) = Some t'.
Proof.
  intros Hatt Hev Htyped Hpriv2 Hsel1 Hsel2 Hload1 Hload2 Hnr Hmax Hlen
    Htake.
  pose proof (att_priv _ _ _ _ _ _ Hatt) as Hpriv1.
  split.
  - unfold lttng_callstack_record.
    destruct (priv field) as [a |]; [| done]. simpl in *.
    rewrite Hpriv1, Hpriv2. simpl.
    rewrite Hsel1, Hsel2, Hload1, Hload2. simpl.
    unfold read_words. rewrite <- Hnr, <- Hmax, <- Hlen, <- Htake.
    done.
  - destruct (load_trace_attached _ _ _ _ _ _ _ Hatt Hev Hsel1)
      as (t0 & Hload0 & Hok).
    assert (t0 = t1) as -> by congruence.
    destruct (get_size_capture T offset _ _ _ _ _ _ _ _
                Hatt Htyped Hsel1 Hload1 Hok)
      as (t' & s' & Hsize & Hstrip & Hload' & _).
    by exists (sequence_size T offset t'), s', t'.
Qed.
End Claims.

(** ** Attachment *)

Section AttachProofs.
Context (T : target) (HT : target_ok T).
Context (kallsyms_lookup_funcptr : string → option save_func_t).

Lemma foldl_alter_seq {A} (f : A → A) (l pre : list A) :
  foldl (λ l i, alter f i l) (pre ++ l) (seq (length pre) (length l))
  = pre ++ (f <$> l).
Proof.
  revert pre. induction l as [| x l IH]; intros pre; [done |].
  simpl. rewrite <- (Nat.add_0_r (length pre)) at 1.
  rewrite alter_app_r. simpl.
  replace (S (length pre)) with (length (pre ++ [f x]))
    by (rewrite length_app; simpl; lia).
  rewrite (cons_middle (f x) pre l), app_assoc, IH.
  by rewrite <- app_assoc.
Qed.

Lemma init_cs_set_created :
  init_cs_set T (replicate (nr_possible_cpus T) zeroed_cs)
  = created_cs_set T.
Proof.
  unfold init_cs_set.
  pose proof (foldl_alter_seq init_cs
                (replicate (nr_possible_cpus T) zeroed_cs) []) as H.
  simpl in H. rewrite length_replicate in H. rewrite H.
  by rewrite fmap_replicate.
Qed.

Lemma find_context_append_blank ctx ctx_name :
  lttng_find_context (ctx ++ [blank_field]) ctx_name
  = lttng_find_context ctx ctx_name.
Proof.
  unfold lttng_find_context. apply bool_decide_ext.
  rewrite Exists_app, Exists_cons, Exists_nil. simpl.
  split; [| by left]. by intros [? | [? | ?]].
Qed.

Lemma remove_appended_field (ctx : lttng_ctx) field :
  lttng_remove_context_field (ctx ++ [field]) (length ctx) = ctx.
Proof.
  unfold lttng_remove_context_field.
  by rewrite delete_middle, app_nil_r.
Qed.

Lemma populate_appended_field (ctx : lttng_ctx) field field' :
  <[length ctx := field']> (ctx ++ [field]) = ctx ++ [field'].
Proof.
  rewrite <- (Nat.add_0_r (length ctx)). by rewrite insert_app_r.
Qed.

Lemma field_data_create_spec o m s :
  (kzalloc_succeeds o = true ∧ alloc_percpu_succeeds o = true
   ∧ ∃ fdata a s',
       field_data_create T o m s = Some (Some fdata, s')
       ∧ kmalloc_heap s !! fdata = None
       ∧ percpu_heap s !! a = None
       ∧ kmalloc_heap s' = <[fdata := FieldData (Some a) m]> (kmalloc_heap s)
       ∧ percpu_heap s' = <[a := created_cs_set T]> (percpu_heap s)
       ∧ cs_types s' = cs_types s)
  ∨ ((kzalloc_succeeds o = false ∨ alloc_percpu_succeeds o = false)
     ∧ ∃ s',
         field_data_create T o m s = Some (None, s')
         ∧ kmalloc_heap s' = kmalloc_heap s
         ∧ percpu_heap s' = percpu_heap s).
Proof.
  unfold field_data_create.
  pose proof (is_fresh (dom (kmalloc_heap s))) as Hfd.
  apply not_elem_of_dom in Hfd.
  pose proof (is_fresh (dom (percpu_heap s))) as Ha.
  apply not_elem_of_dom in Ha.
  set (fdata := fresh (dom (kmalloc_heap s))) in *.
  set (a := fresh (dom (percpu_heap s))) in *.
  destruct (kzalloc_succeeds o); [| right; split; [by left | by eexists]].
  destruct (alloc_percpu_succeeds o).
  - left. repeat (split; [done |]).
    exists fdata, a. eexists. split; [done |].
    repeat (split; [done |]). simpl. split; [| split; [| done]].
    + by rewrite !alter_insert_eq.
    + by rewrite alter_insert_eq, init_cs_set_created.
  - right. split; [by right |].
    unfold field_data_free. simpl. rewrite lookup_insert_eq. simpl.
    eexists. split; [done |]. simpl.
    by rewrite delete_insert_id.
Qed.

Lemma add_callstack_generic_spec o (ctx : lttng_ctx) m s :
  ∃ ret ctx' s',
    __lttng_add_callstack_generic T kallsyms_lookup_funcptr o ctx m s
    = Some (ret, ctx', s')
    ∧ (symbol_missing kallsyms_lookup_funcptr s m → ret = - EINVAL)
    ∧ (¬ symbol_missing kallsyms_lookup_funcptr s m →
       (append_succeeds o = false → ret = - ENOMEM)
       ∧ (append_succeeds o = true →
          (lttng_find_context ctx (name (cs_types s m)) = true →
           ret = - EEXIST)
          ∧ (lttng_find_context ctx (name (cs_types s m)) = false →
             (kzalloc_succeeds o = false ∨ alloc_percpu_succeeds o = false →
              ret = - ENOMEM)
             ∧ (kzalloc_succeeds o = true ∧ alloc_percpu_succeeds o = true →
                ret = 0
                ∧ ∃ fdata a,
                    kmalloc_heap s !! fdata = None
                    ∧ percpu_heap s !! a = None
                    ∧ ctx' = ctx ++ [callstack_field T (name (cs_types s m))
                                       fdata]
                    ∧ kmalloc_heap s'
                      = <[fdata := FieldData (Some a) m]> (kmalloc_heap s)
                    ∧ percpu_heap s'
                      = <[a := created_cs_set T]> (percpu_heap s)
                    ∧ save_func (cs_types s' m)
                      = bound_unwinder kallsyms_lookup_funcptr s m))))
    ∧ (ret ≠ 0 →
       ctx' = ctx
       ∧ kmalloc_heap s' = kmalloc_heap s
       ∧ percpu_heap s' = percpu_heap s).
Proof.
  unfold __lttng_add_callstack_generic, symbol_missing.
  assert (∃ ret s1,
            init_type kallsyms_lookup_funcptr m s = (ret, s1)
            ∧ kmalloc_heap s1 = kmalloc_heap s
            ∧ percpu_heap s1 = percpu_heap s
            ∧ ((ret = - EINVAL ∧ s1 = s
                ∧ save_func (cs_types s m) = None
                ∧ kallsyms_lookup_funcptr (save_func_name (cs_types s m))
                  = None)
               ∨ (ret = 0
                  ∧ save_func (cs_types s1 m)
                    = bound_unwinder kallsyms_lookup_funcptr s m
                  ∧ ¬ (save_func (cs_types s m) = None
                       ∧ kallsyms_lookup_funcptr
                           (save_func_name (cs_types s m)) = None))))
    as (ret & s1 & -> & Hkm & Hpc & Hinit).
  { unfold init_type, bound_unwinder.
    destruct (save_func (cs_types s m)) as [f |] eqn:Hf.
    - eexists _, _. repeat (split; [done |]). right.
      split; [done |]. split; [done |]. by intros [? _].
    - destruct (kallsyms_lookup_funcptr _) as [f |] eqn:Hsym.
      + eexists _, _. repeat (split; [done |]). right.
        split; [done |]. split; [| by intros [_ ?]].
        simpl. by rewrite fn_lookup_insert.
      + eexists _, _. repeat (split; [done |]). by left. }
  destruct Hinit as [(-> & -> & Hf & Hsym) | (-> & Hbind & Hbound)].
  { rewrite decide_True by done. eexists _, _, _. split; [done |].
    split; [done |]. split; [| done].
    intros Hno. exfalso. by apply Hno. }
  rewrite decide_False by (intros Hne; by apply Hne).
  unfold lttng_append_context.
  destruct (append_succeeds o).
  2:{ eexists _, _, _. split; [done |]. split; [done |].
      split; [| by rewrite Hkm, Hpc]. intros _. split; [done |].
      by intros [=]. }
  rewrite find_context_append_blank.
  destruct (lttng_find_context ctx (name (cs_types s m))).
  { rewrite remove_appended_field.
    eexists _, _, _. split; [done |]. split; [done |].
    split; [| by rewrite Hkm, Hpc]. intros _. split; [by intros [=] |].
    intros _. split; [done |]. by intros [=]. }
  destruct (field_data_create_spec o m s1)
    as [(Hk & Ha & fdata & a & s' & -> & Hfresh & Hfresh' & Hkm' & Hpc'
         & Hcs')
       | (Hfail & s' & -> & Hkm' & Hpc')]; simpl.
  - rewrite populate_appended_field.
    eexists _, _, _. split; [done |]. split; [done |].
    split; [| done]. intros _. split; [by intros [=] |].
    intros _. split; [by intros [=] |]. intros _. split.
    { intros [Hno | Hno]; congruence. }
    intros _. split; [done |]. exists fdata, a.
    rewrite Hkm, Hpc in *. rewrite Hcs'. done.
  - rewrite remove_appended_field.
    eexists _, _, _. split; [done |]. split; [done |].
    split; [| by rewrite Hkm', Hpc', Hkm, Hpc]. intros _.
    split; [by intros [=] |]. intros _. split; [by intros [=] |].
    intros _. split; [done |].
    intros [Hk Ha]. destruct Hfail; congruence.
Qed.

(** A successful attachment establishes what the hooks rely on: on every
    possible CPU the new field is attached, with empty slots of capacity
    [MAX_ENTRIES] and the unwinder that binding yields. *)
Lemma attached_after_attach o (ctx : lttng_ctx) type m s ctx' s' f :
  supported T type m →
  bound_unwinder kallsyms_lookup_funcptr s m = Some f →
  backend_ok f →
  lttng_add_callstack_to_ctx T kallsyms_lookup_funcptr o ctx type s
  = Some (0, ctx', s') →
  ∃ fdata a,
    ctx' = ctx ++ [callstack_field T (name (cs_types s m)) fdata]
    ∧ ∀ c, (c < nr_possible_cpus T)%nat →
        attached s' (callstack_field T (name (cs_types s m)) fdata) c
          (FieldData (Some a) m)
          (replicate (Z.to_nat RING_BUFFER_MAX_NESTING)
             (StackTrace 0 MAX_ENTRIES (replicate (Z.to_nat MAX_ENTRIES) 0)))
          f.
Proof.
  intros Hsup Hbind Hf Hrun.
  pose proof (context_types_ok T HT) as Hdistinct.
  assert (__lttng_add_callstack_generic T kallsyms_lookup_funcptr o ctx m s
          = Some (0, ctx', s')) as Hgen.
  { rewrite <- Hrun. unfold lttng_add_callstack_to_ctx.
    destruct Hsup as [[-> ->] | (Hx & -> & ->)].
    - by rewrite decide_True.
    - rewrite decide_False by congruence. by rewrite decide_True. }
  destruct (add_callstack_generic_spec o ctx m s)
    as (ret & ctx0 & s0 & Hrun0 & _ & Hrest & _).
  rewrite Hgen in Hrun0. injection Hrun0 as <- <- <-.
  destruct Hrest as [Happend Hfind].
  { unfold symbol_missing. intros [H1 H2].
    unfold bound_unwinder in Hbind. by rewrite H1, H2 in Hbind. }
  destruct (append_succeeds o); [| by specialize (Happend eq_refl)].
  destruct (Hfind eq_refl) as [Hdup Hnew].
  destruct (lttng_find_context ctx (name (cs_types s m)));
    [by specialize (Hdup eq_refl) |].
  destruct (Hnew eq_refl) as [Hfail Hok].
  destruct (kzalloc_succeeds o); [| by specialize (Hfail (or_introl eq_refl))].
  destruct (alloc_percpu_succeeds o);
    [| by specialize (Hfail (or_intror eq_refl))].
  destruct (Hok (conj eq_refl eq_refl))
    as (_ & fdata & a & _ & _ & -> & Hkm & Hpc & Hcs).
  exists fdata, a. split; [done |]. intros c Hc. split.
  - simpl. by rewrite Hkm, lookup_insert_eq.
  - unfold capture_set. simpl. rewrite Hpc, lookup_insert_eq. simpl.
    unfold created_cs_set. by apply lookup_replicate_2.
  - by rewrite length_replicate.
  - apply Forall_replicate. by split.
  - simpl. by rewrite Hcs.
  - done.
Qed.

(** C7: the attachment entry point returns 0 on success, [-EINVAL]
    when the type selector is unsupported or the unwinder's symbol is
    missing, [-ENOMEM] when an allocation it attempts fails, and
    [-EEXIST] when the set already has a field with the display name
    of the mode; on every error return the context set is the one the
    call started with (the appended field is gone) and so are the
    [kzalloc] and per-CPU heaps (what was allocated is freed).  On
    success the set ends with the new field, whose private data owns
    a fresh per-CPU area of slots of capacity [MAX_ENTRIES], and the
    unwinder of the mode is bound. *)
Theorem attach_return_codes o (ctx : lttng_ctx) type s :
  ∃ ret ctx' s',
    lttng_add_callstack_to_ctx T kallsyms_lookup_funcptr o ctx type s
    = Some (ret, ctx', s')
    ∧ ((∀ m, ¬ supported T type m) → ret = - EINVAL)
    ∧ (∀ m, supported T type m →
         (symbol_missing kallsyms_lookup_funcptr s m → ret = - EINVAL)
         ∧ (¬ symbol_missing kallsyms_lookup_funcptr s m →
            (append_succeeds o = false → ret = - ENOMEM)
            ∧ (append_succeeds o = true →
               (lttng_find_context ctx (name (cs_types s m)) = true →
                ret = - EEXIST)
               ∧ (lttng_find_context ctx (name (cs_types s m)) = false →
                  (kzalloc_succeeds o = false
                   ∨ alloc_percpu_succeeds o = false →
                   ret = - ENOMEM)
                  ∧ (kzalloc_succeeds o = true
                     ∧ alloc_percpu_succeeds o = true →
                     ret = 0
                     ∧ ∃ fdata a,
                         kmalloc_heap s !! fdata = None
                         ∧ percpu_heap s !! a = None
                         ∧ ctx'
                           = ctx ++ [callstack_field T
                                       (name (cs_types s m)) fdata]
                         ∧ kmalloc_heap s'
                           = <[fdata := FieldData (Some a) m]>
                               (kmalloc_heap s)
                         ∧ percpu_heap s'
                           = <[a := created_cs_set T]> (percpu_heap s)
                         ∧ save_func (cs_types s' m)
                           = bound_unwinder kallsyms_lookup_funcptr s m)))))
    ∧ (ret ≠ 0 →
       ctx' = ctx
       ∧ kmalloc_heap s' = kmalloc_heap s
       ∧ percpu_heap s' = percpu_heap s).
Proof.
  pose proof (context_types_ok T HT) as Hdistinct.
  unfold lttng_add_callstack_to_ctx, supported.
  destruct (decide (type = LTTNG_KERNEL_CONTEXT_CALLSTACK_KERNEL T))
    as [Hk | Hk].
  - destruct (add_callstack_generic_spec o ctx CALLSTACK_KERNEL s)
      as (ret & ctx' & s' & Hrun & Hmiss & Hrest & Hclean).
    exists ret, ctx', s'. split; [done |]. split; [| split; [| done]].
    + intros Hno. exfalso. apply (Hno CALLSTACK_KERNEL). by left.
    + intros m [[_ ->] | (_ & Hu & _)]; [done | congruence].
  - destruct (decide (CONFIG_X86 T = true
                      ∧ type = LTTNG_KERNEL_CONTEXT_CALLSTACK_USER T))
      as [[Hx Hu] | Hu].
    + destruct (add_callstack_generic_spec o ctx CALLSTACK_USER s)
        as (ret & ctx' & s' & Hrun & Hmiss & Hrest & Hclean).
      exists ret, ctx', s'. split; [done |]. split; [| split; [| done]].
      * intros Hno. exfalso. apply (Hno CALLSTACK_USER). by right.
      * intros m [[? _] | (_ & _ & ->)]; [done | done].
    + eexists _, _, _. split; [done |]. split; [done |].
      split; [| done]. intros m [[? _] | (? & ? & _)]; [done | tauto].
Qed.
End AttachProofs.

(** * Further properties of the code *)

(** ** Binding, creation and release *)

Section Lifecycle.
Context (T : target) (HT : target_ok T).
Context (kallsyms_lookup_funcptr : string → option save_func_t).

(** What [init_type] leaves alone. *)
Lemma init_type_state m s :
  callstack_user_nesting (init_type kallsyms_lookup_funcptr m s).2
  = callstack_user_nesting s
  ∧ lib_ring_buffer_nesting (init_type kallsyms_lookup_funcptr m s).2
    = lib_ring_buffer_nesting s
  ∧ kmalloc_heap (init_type kallsyms_lookup_funcptr m s).2 = kmalloc_heap s
  ∧ percpu_heap (init_type kallsyms_lookup_funcptr m s).2 = percpu_heap s
  ∧ save_func_calls (init_type kallsyms_lookup_funcptr m s).2
    = save_func_calls s
  ∧ (∀ m', name (cs_types (init_type kallsyms_lookup_funcptr m s).2 m')
           = name (cs_types s m')
           ∧ save_func_name
               (cs_types (init_type kallsyms_lookup_funcptr m s).2 m')
             = save_func_name (cs_types s m'))
  ∧ (∀ m' f, save_func (cs_types s m') = Some f →
       save_func (cs_types (init_type kallsyms_lookup_funcptr m s).2 m')
       = Some f)
  ∧ (∀ m', m' ≠ m →
       cs_types (init_type kallsyms_lookup_funcptr m s).2 m' = cs_types s m').
Proof.
  unfold init_type.
  destruct (save_func (cs_types s m)) as [f |] eqn:Hf; [done |].
  destruct (kallsyms_lookup_funcptr _) as [f |]; [| done].
  simpl. repeat (split; [done |]). split; [| split].
  - intros m'. destruct (decide (m = m')) as [<- | Hne].
    + by rewrite fn_lookup_insert.
    + by rewrite fn_lookup_insert_ne.
  - intros m' f' Hf'. destruct (decide (m = m')) as [<- | Hne].
    + congruence.
    + by rewrite fn_lookup_insert_ne.
  - intros m' Hne. by rewrite fn_lookup_insert_ne.
Qed.

(** The two outcomes of [init_type]. *)
Lemma init_type_outcome m s :
  (init_type kallsyms_lookup_funcptr m s).1 = 0
  ∧ save_func (cs_types (init_type kallsyms_lookup_funcptr m s).2 m)
    = bound_unwinder kallsyms_lookup_funcptr s m
  ∧ is_Some (bound_unwinder kallsyms_lookup_funcptr s m)
  ∨ (init_type kallsyms_lookup_funcptr m s).1 = - EINVAL
    ∧ symbol_missing kallsyms_lookup_funcptr s m
    ∧ (init_type kallsyms_lookup_funcptr m s).2 = s.
Proof.
  unfold init_type, bound_unwinder, symbol_missing.
  destruct (save_func (cs_types s m)) as [f |] eqn:Hf; simpl.
  - left. by eauto.
  - destruct (kallsyms_lookup_funcptr _) as [f |] eqn:Hk; simpl.
    + left. rewrite fn_lookup_insert. by eauto.
    + by right.
Qed.

(** X1: the unwinder table only grows.  Whatever the symbol table, a call
    of [init_type] keeps every unwinder that is bound, the two names of
    every mode and the entry of the other mode; it returns 0 or
    [-EINVAL], the latter exactly when the unwinder is neither bound nor
    known to the host, and then changes nothing; once it has returned 0,
    a further call returns 0 and changes nothing, under any symbol
    table. *)
Theorem init_type_binds_once m s :
  (∀ m' f, save_func (cs_types s m') = Some f →
     save_func (cs_types (init_type kallsyms_lookup_funcptr m s).2 m')
     = Some f)
  ∧ (∀ m', name (cs_types (init_type kallsyms_lookup_funcptr m s).2 m')
           = name (cs_types s m')
           ∧ save_func_name
               (cs_types (init_type kallsyms_lookup_funcptr m s).2 m')
             = save_func_name (cs_types s m'))
  ∧ (∀ m', m' ≠ m →
       cs_types (init_type kallsyms_lookup_funcptr m s).2 m' = cs_types s m')
  ∧ ((init_type kallsyms_lookup_funcptr m s).1 = 0
     ∧ save_func (cs_types (init_type kallsyms_lookup_funcptr m s).2 m)
       = bound_unwinder kallsyms_lookup_funcptr s m
     ∧ is_Some (bound_unwinder kallsyms_lookup_funcptr s m)
     ∨ (init_type kallsyms_lookup_funcptr m s).1 = - EINVAL
       ∧ symbol_missing kallsyms_lookup_funcptr s m
       ∧ (init_type kallsyms_lookup_funcptr m s).2 = s)
  ∧ (∀ other_symbols,
       (init_type kallsyms_lookup_funcptr m s).1 = 0 →
       init_type other_symbols m (init_type kallsyms_lookup_funcptr m s).2
       = (0, (init_type kallsyms_lookup_funcptr m s).2)).
Proof.
  destruct (init_type_state m s) as (_ & _ & _ & _ & _ & Hnames & Hkeep & Hother).
  repeat (split; [done |]). split; [apply init_type_outcome |].
  intros other_symbols Hret.
  destruct (init_type_outcome m s) as [(_ & Hbound & [f Hf]) | (Hfail & _)];
    [| rewrite Hfail in Hret; done].
  rewrite Hf in Hbound. unfold init_type at 1. by rewrite Hbound.
Qed.
End Lifecycle.

Section Creation.
Context (T : target).

Lemma load_created_slot (s : kstate) a c i :
  percpu_heap s !! a = Some (created_cs_set T) →
  load_trace s (TracePtr (Some a) c i)
  = (if decide ((c < nr_possible_cpus T)%nat ∧ 0 ≤ i < RING_BUFFER_MAX_NESTING)
     then Some (StackTrace 0 MAX_ENTRIES (replicate (Z.to_nat MAX_ENTRIES) 0))
     else None).
Proof.
  intros Ha. unfold load_trace. cbn -[replicate Z.to_nat]. rewrite Ha.
  cbn -[replicate Z.to_nat].
  unfold created_cs_set, index, RING_BUFFER_MAX_NESTING.
  destruct (decide (c < nr_possible_cpus T)%nat) as [Hc | Hc].
  - rewrite lookup_replicate_2 by done. cbn -[replicate Z.to_nat].
    destruct (decide (0 ≤ i)) as [Hi | Hi].
    + destruct (decide (i < 4)) as [Hi4 | Hi4].
      * rewrite lookup_replicate_2 by lia. by rewrite decide_True.
      * rewrite decide_False by lia.
        apply lookup_replicate_None. lia.
    + by rewrite decide_False by lia.
  - rewrite decide_False by tauto.
    assert (replicate (nr_possible_cpus T)
              (replicate (Z.to_nat 4)
                 (StackTrace 0 MAX_ENTRIES (replicate (Z.to_nat MAX_ENTRIES) 0)))
            !! c = None) as ->; [| done].
    apply lookup_replicate_None. lia.
Qed.

(** X2: a successful [field_data_create] returns private data at a fresh
    address, of the requested mode, owning a fresh per-CPU area in which
    every possible CPU has [RING_BUFFER_MAX_NESTING] empty slots of
    capacity [MAX_ENTRIES] and no slot exists beyond those; every other
    allocation is as it was. *)
Theorem field_data_create_slots o m s fdata s' :
  field_data_create T o m s = Some (Some fdata, s') →
  kmalloc_heap s !! fdata = None
  ∧ ∃ a,
      percpu_heap s !! a = None
      ∧ kmalloc_heap s' !! fdata = Some (FieldData (Some a) m)
      ∧ (∀ c i,
           load_trace s' (TracePtr (Some a) c i)
           = (if decide ((c < nr_possible_cpus T)%nat
                         ∧ 0 ≤ i < RING_BUFFER_MAX_NESTING)
              then Some (StackTrace 0 MAX_ENTRIES
                           (replicate (Z.to_nat MAX_ENTRIES) 0))
              else None))
      ∧ (∀ p, p ≠ fdata → kmalloc_heap s' !! p = kmalloc_heap s !! p)
      ∧ (∀ a', a' ≠ a → percpu_heap s' !! a' = percpu_heap s !! a').
Proof.
  intros Hrun.
  destruct (field_data_create_spec T o m s)
    as [(_ & _ & fdata' & a & s'' & Hrun' & Hfd & Ha & Hkm & Hpc & _)
       | (_ & s'' & Hrun' & _)]; rewrite Hrun in Hrun'; [| done].
  injection Hrun' as <- <-.
  split; [done |]. exists a. split; [done |].
  split; [by rewrite Hkm, lookup_insert_eq |].
  split; [| split].
  - intros c i. apply load_created_slot. by rewrite Hpc, lookup_insert_eq.
  - intros p Hp. by rewrite Hkm, lookup_insert_ne.
  - intros a' Ha'. by rewrite Hpc, lookup_insert_ne.
Qed.

(** X3: [field_data_create] returns a null pointer exactly when [kzalloc]
    or [alloc_percpu] fails, and then both heaps are as they were: the
    private data allocated before a failing [alloc_percpu] is freed. *)
Theorem field_data_create_failure o m s :
  ∃ r s',
    field_data_create T o m s = Some (r, s')
    ∧ (r = None
       ↔ kzalloc_succeeds o = false ∨ alloc_percpu_succeeds o = false)
    ∧ (r = None →
       kmalloc_heap s' = kmalloc_heap s ∧ percpu_heap s' = percpu_heap s).
Proof.
  destruct (field_data_create_spec T o m s)
    as [(Hk & Ha & fdata' & a & s'' & Hrun' & _)
       | (Hfail & s'' & Hrun' & Hkm & Hpc)].
  - eexists _, _. split; [done |]. split; [| done].
    split; [done |]. intros [? | ?]; congruence.
  - eexists _, _. split; [done |]. split; [| done]. done.
Qed.
End Creation.

Section AttachLifecycle.
Context (T : target) (HT : target_ok T).
Context (kallsyms_lookup_funcptr : string → option save_func_t).

Lemma field_data_create_state o m s r s' :
  field_data_create T o m s = Some (r, s') →
  cs_types s' = cs_types s
  ∧ callstack_user_nesting s' = callstack_user_nesting s
  ∧ lib_ring_buffer_nesting s' = lib_ring_buffer_nesting s
  ∧ save_func_calls s' = save_func_calls s.
Proof.
  unfold field_data_create, field_data_free.
  destruct (kzalloc_succeeds o); [| by intros [= _ <-]].
  destruct (alloc_percpu_succeeds o); [by intros [= _ <-] |].
  simpl. rewrite lookup_insert_eq. simpl. by intros [= _ <-].
Qed.

(** Outside the two heaps, an attachment changes the state as its
    [init_type] does. *)
Lemma add_callstack_generic_state o (ctx : lttng_ctx) m s ret ctx' s' :
  __lttng_add_callstack_generic T kallsyms_lookup_funcptr o ctx m s
  = Some (ret, ctx', s') →
  cs_types s' = cs_types (init_type kallsyms_lookup_funcptr m s).2
  ∧ callstack_user_nesting s' = callstack_user_nesting s
  ∧ lib_ring_buffer_nesting s' = lib_ring_buffer_nesting s
  ∧ save_func_calls s' = save_func_calls s.
Proof.
  destruct (init_type_state kallsyms_lookup_funcptr m s)
    as (Hguard & Hrb & _ & _ & Hcalls & _).
  unfold __lttng_add_callstack_generic.
  destruct (init_type kallsyms_lookup_funcptr m s) as [r s1]. simpl in *.
  destruct (decide (r ≠ 0)); [by intros [= _ _ <-] |].
  unfold lttng_append_context.
  destruct (append_succeeds o); [| by intros [= _ _ <-]].
  destruct (lttng_find_context _ _); [by intros [= _ _ <-] |].
  destruct (field_data_create T o m s1) as [[r' s2] |] eqn:Hcreate; [| done].
  destruct (field_data_create_state _ _ _ _ _ Hcreate)
    as (Hcs & Hguard' & Hrb' & Hcalls').
  simpl. destruct r'; simpl; intros [= _ _ <-];
    by rewrite Hcs, Hguard', Hrb', Hcalls'.
Qed.

(** The mode a recognized selector stands for. *)
Lemma attach_dispatch o (ctx : lttng_ctx) type s :
  (∃ m, supported T type m
        ∧ lttng_add_callstack_to_ctx T kallsyms_lookup_funcptr o ctx type s
          = __lttng_add_callstack_generic T kallsyms_lookup_funcptr o ctx m s)
  ∨ ((∀ m, ¬ supported T type m)
     ∧ lttng_add_callstack_to_ctx T kallsyms_lookup_funcptr o ctx type s
       = Some (- EINVAL, ctx, s)).
Proof.
  pose proof (context_types_ok T HT) as Hdistinct.
  unfold lttng_add_callstack_to_ctx, supported.
  destruct (decide (type = LTTNG_KERNEL_CONTEXT_CALLSTACK_KERNEL T)) as [-> |].
  { left. exists CALLSTACK_KERNEL. split; [by left | done]. }
  destruct (decide (CONFIG_X86 T = true
                    ∧ type = LTTNG_KERNEL_CONTEXT_CALLSTACK_USER T))
    as [[Hx ->] |].
  { left. exists CALLSTACK_USER. split; [by right | done]. }
  right. split; [| done]. intros m [[? _] | (? & ? & _)]; tauto.
Qed.

(** What a return of 0 tells. *)
Lemma attach_success_inv o (ctx : lttng_ctx) type s ctx' s' :
  lttng_add_callstack_to_ctx T kallsyms_lookup_funcptr o ctx type s
  = Some (0, ctx', s') →
  ∃ m fdata a f,
    supported T type m
    ∧ kmalloc_heap s !! fdata = None
    ∧ percpu_heap s !! a = None
    ∧ ctx' = ctx ++ [callstack_field T (name (cs_types s m)) fdata]
    ∧ lttng_find_context ctx (name (cs_types s m)) = false
    ∧ kmalloc_heap s' = <[fdata := FieldData (Some a) m]> (kmalloc_heap s)
    ∧ percpu_heap s' = <[a := created_cs_set T]> (percpu_heap s)
    ∧ cs_types s' = cs_types (init_type kallsyms_lookup_funcptr m s).2
    ∧ bound_unwinder kallsyms_lookup_funcptr s m = Some f
    ∧ save_func (cs_types s' m) = Some f.
Proof.
  intros Hrun.
  destruct (attach_dispatch o ctx type s) as [(m & Hsup & Hgen) | [_ Hno]];
    [| by rewrite Hno in Hrun].
  rewrite Hgen in Hrun.
  destruct (add_callstack_generic_state _ _ _ _ _ _ _ Hrun) as (Hcs & _).
  destruct (add_callstack_generic_spec T kallsyms_lookup_funcptr o ctx m s)
    as (ret & ctx0 & s0 & Hrun0 & Hmiss & Hrest & _).
  rewrite Hrun in Hrun0. injection Hrun0 as <- <- <-.
  destruct (bound_unwinder kallsyms_lookup_funcptr s m) as [f |] eqn:Hbind.
  2:{ exfalso. unfold bound_unwinder in Hbind.
      assert (0 = - EINVAL) as Hz; [| done].
      apply Hmiss. unfold symbol_missing.
      destruct (save_func (cs_types s m)); [done |]. by split. }
  destruct Hrest as [Happend Hfind].
  { unfold symbol_missing. intros [H1 H2].
    unfold bound_unwinder in Hbind. by rewrite H1, H2 in Hbind. }
  destruct (append_succeeds o); [| by specialize (Happend eq_refl)].
  destruct (Hfind eq_refl) as [Hdup Hnew].
  destruct (lttng_find_context ctx (name (cs_types s m))) eqn:Hfound;
    [by specialize (Hdup eq_refl) |].
  destruct (Hnew eq_refl) as [Hfail Hok].
  destruct (kzalloc_succeeds o); [| by specialize (Hfail (or_introl eq_refl))].
  destruct (alloc_percpu_succeeds o);
    [| by specialize (Hfail (or_intror eq_refl))].
  destruct (Hok (conj eq_refl eq_refl))
    as (_ & fdata & a & Hfd & Ha & -> & Hkm & Hpc & Hsf).
  by exists m, fdata, a, f.
Qed.

(** X4: what an attachment acquires, the field's [destroy] hook releases.
    After a successful attachment, [lttng_callstack_destroy] on the field
    that was appended returns the [kzalloc] heap and the per-CPU heap to
    what they were before the attachment. *)
Theorem destroy_releases_attachment o (ctx : lttng_ctx) type s ctx' s' :
  lttng_add_callstack_to_ctx T kallsyms_lookup_funcptr o ctx type s
  = Some (0, ctx', s') →
  ∃ field s'',
    ctx' = ctx ++ [field]
    ∧ lttng_callstack_destroy field s' = Some s''
    ∧ kmalloc_heap s'' = kmalloc_heap s
    ∧ percpu_heap s'' = percpu_heap s.
Proof.
  intros Hrun.
  destruct (attach_success_inv _ _ _ _ _ _ Hrun)
    as (m & fdata & a & f & _ & Hfd & Ha & -> & _ & Hkm & Hpc & _).
  eexists _, _. split; [done |].
  unfold lttng_callstack_destroy, field_data_free. simpl.
  rewrite Hkm, lookup_insert_eq. simpl. split; [done |]. simpl.
  rewrite Hkm, Hpc. by rewrite !delete_insert_id.
Qed.

(** X5: a context set takes one callstack field per mode.  After a
    successful attachment, attaching the same type again, under any
    symbol table and whatever the allocations do, does not return 0: it
    returns [-EEXIST], or [-ENOMEM] when the field cannot be appended,
    and the set and the heaps stay as the first attachment left them. *)
Theorem second_attach_rejected o o2 other_symbols (ctx : lttng_ctx) type s
    ctx' s' :
  lttng_add_callstack_to_ctx T kallsyms_lookup_funcptr o ctx type s
  = Some (0, ctx', s') →
  ∃ s'',
    lttng_add_callstack_to_ctx T other_symbols o2 ctx' type s'
    = Some (if append_succeeds o2 then - EEXIST else - ENOMEM, ctx', s'')
    ∧ kmalloc_heap s'' = kmalloc_heap s'
    ∧ percpu_heap s'' = percpu_heap s'.
Proof.
  intros Hrun.
  destruct (attach_success_inv _ _ _ _ _ _ Hrun)
    as (m & fdata & a & f & Hsup & _ & _ & -> & _ & _ & _ & Hcs & _ & Hsf).
  destruct (init_type_state kallsyms_lookup_funcptr m s)
    as (_ & _ & _ & _ & _ & Hnames & _).
  set (ctx' := ctx ++ [callstack_field T (name (cs_types s m)) fdata]) in *.
  assert (lttng_add_callstack_to_ctx T other_symbols o2 ctx' type s'
          = __lttng_add_callstack_generic T other_symbols o2 ctx' m s')
    as ->.
  { pose proof (context_types_ok T HT) as Hdistinct.
    unfold lttng_add_callstack_to_ctx.
    destruct Hsup as [[-> ->] | (Hx & -> & ->)].
    - by rewrite decide_True.
    - rewrite decide_False by congruence. by rewrite decide_True. }
  destruct (add_callstack_generic_spec T other_symbols o2 ctx' m s')
    as (ret & ctx0 & s0 & Hrun0 & _ & Hrest & Hclean).
  destruct Hrest as [Happend Hfind].
  { unfold symbol_missing. rewrite Hsf. by intros [? _]. }
  assert (lttng_find_context ctx' (name (cs_types s' m)) = true) as Hfound.
  { unfold lttng_find_context. apply bool_decide_eq_true. subst ctx'.
    apply Exists_app. right. apply Exists_cons. left. simpl.
    rewrite Hcs. by destruct (Hnames m) as [-> _]. }
  assert (ret = (if append_succeeds o2 then - EEXIST else - ENOMEM)) as ->.
  { destruct (append_succeeds o2); [| by apply Happend].
    destruct (Hfind eq_refl) as [Hdup _]. by apply Hdup. }
  destruct Hclean as (-> & Hkm & Hpc).
  { by destruct (append_succeeds o2). }
  by exists s0.
Qed.

(** X6: what a failed attachment leaves behind.  On every non-zero return
    the context set, both heaps and the per-CPU counters are as before.
    A return of [-EINVAL] leaves the whole state untouched; a return of
    [-ENOMEM] or [-EEXIST] comes after the unwinder of the mode was
    bound, and the binding stays. *)
Theorem failed_attach_keeps_binding o (ctx : lttng_ctx) type s ret ctx' s' :
  lttng_add_callstack_to_ctx T kallsyms_lookup_funcptr o ctx type s
  = Some (ret, ctx', s') →
  ret ≠ 0 →
  ctx' = ctx
  ∧ kmalloc_heap s' = kmalloc_heap s
  ∧ percpu_heap s' = percpu_heap s
  ∧ callstack_user_nesting s' = callstack_user_nesting s
  ∧ lib_ring_buffer_nesting s' = lib_ring_buffer_nesting s
  ∧ (ret = - EINVAL ∧ s' = s
     ∨ (ret = - ENOMEM ∨ ret = - EEXIST)
       ∧ ∃ m f,
           supported T type m
           ∧ bound_unwinder kallsyms_lookup_funcptr s m = Some f
           ∧ save_func (cs_types s' m) = Some f).
Proof.
  intros Hrun Hret.
  destruct (attach_dispatch o ctx type s) as [(m & Hsup & Hgen) | [_ Hno]].
  2:{ rewrite Hno in Hrun. injection Hrun as <- <- <-.
      repeat (split; [done |]). by left. }
  rewrite Hgen in Hrun.
  destruct (add_callstack_generic_state _ _ _ _ _ _ _ Hrun)
    as (Hcs & Hguard & Hrb & _).
  destruct (add_callstack_generic_spec T kallsyms_lookup_funcptr o ctx m s)
    as (ret0 & ctx0 & s0 & Hrun0 & Hmiss & Hrest & Hclean).
  rewrite Hrun in Hrun0. injection Hrun0 as <- <- <-.
  destruct (Hclean Hret) as (-> & Hkm & Hpc).
  repeat (split; [done |]).
  destruct (init_type_outcome kallsyms_lookup_funcptr m s)
    as [(Hzero & Hbound & [f Hf]) | (Hfail & Hmissing & Hsame)].
  - right. split.
    + destruct Hrest as [Happend Hfind].
      { unfold symbol_missing. intros [H1 H2].
        unfold bound_unwinder in Hf. by rewrite H1, H2 in Hf. }
      destruct (append_succeeds o); [| left; by apply Happend].
      destruct (Hfind eq_refl) as [Hdup Hnew].
      destruct (lttng_find_context ctx (name (cs_types s m)));
        [right; by apply Hdup |].
      destruct (Hnew eq_refl) as [Hfail Hok].
      destruct (kzalloc_succeeds o);
        [| left; apply Hfail; by left].
      destruct (alloc_percpu_succeeds o);
        [| left; apply Hfail; by right].
      by destruct (Hok (conj eq_refl eq_refl)) as [? _].
    + exists m, f. split; [done |]. split; [done |].
      by rewrite Hcs, Hbound.
  - left. split; [by apply Hmiss |].
    revert Hrun. unfold __lttng_add_callstack_generic.
    destruct (init_type kallsyms_lookup_funcptr m s) as [r s1].
    simpl in *. subst r s1. rewrite decide_True by done.
    intros Hsame. congruence.
Qed.

(** X7: attaching a field does not disturb the fields that are attached.
    Whatever an attachment returns, a field that was attached on a CPU
    before the call is attached after it, with the same private data,
    the same capture set and the same unwinder. *)
Theorem attach_preserves_attached o (ctx : lttng_ctx) type s ret ctx' s'
    field1 c fdata1 cs1 f1 :
  attached s field1 c fdata1 cs1 f1 →
  lttng_add_callstack_to_ctx T kallsyms_lookup_funcptr o ctx type s
  = Some (ret, ctx', s') →
  attached s' field1 c fdata1 cs1 f1.
Proof.
  intros Hatt Hrun.
  destruct (decide (ret = 0)) as [-> | Hret].
  - destruct (attach_success_inv _ _ _ _ _ _ Hrun)
      as (m & fdata & a & f & _ & Hfd & Ha & _ & _ & Hkm & Hpc & Hcs & _).
    destruct (init_type_state kallsyms_lookup_funcptr m s)
      as (_ & _ & _ & _ & _ & _ & Hkeep & _).
    destruct Hatt as [Hpriv Hset Hlen Hslots Hbound Hbackend].
    split; try done.
    + destruct (priv field1) as [p |]; [| done]. simpl in *.
      rewrite Hkm, lookup_insert_ne; [done |]. intros <-. congruence.
    + unfold capture_set in *.
      destruct (cs_percpu fdata1) as [a1 |]; [| done]. simpl in *.
      rewrite Hpc, lookup_insert_ne; [done |]. intros <-.
      by rewrite Ha in Hset.
    + rewrite Hcs. by apply Hkeep.
  - destruct (attach_dispatch o ctx type s) as [(m & Hsup & Hgen) | [_ Hno]].
    2:{ rewrite Hno in Hrun. by injection Hrun as <- <- <-. }
    rewrite Hgen in Hrun.
    destruct (add_callstack_generic_state _ _ _ _ _ _ _ Hrun) as (Hcs & _).
    destruct (add_callstack_generic_spec T kallsyms_lookup_funcptr o ctx m s)
      as (ret0 & ctx0 & s0 & Hrun0 & _ & _ & Hclean).
    rewrite Hrun in Hrun0. injection Hrun0 as <- <- <-.
    destruct (Hclean Hret) as (_ & Hkm & Hpc).
    destruct (init_type_state kallsyms_lookup_funcptr m s)
      as (_ & _ & _ & _ & _ & _ & Hkeep & _).
    destruct Hatt as [Hpriv Hset Hlen Hslots Hbound Hbackend].
    split; try done.
    + by rewrite Hkm.
    + unfold capture_set in *. by rewrite Hpc.
    + rewrite Hcs. by apply Hkeep.
Qed.
End AttachLifecycle.

(** ** Isolation of the capture slots *)

Section Isolation.
Context (T : target).

Lemma store_trace_frame s p t s' p' :
  store_trace s p t = Some s' →
  p' ≠ p →
  load_trace s' p' = load_trace s p'.
Proof.
  unfold store_trace, load_trace. intros Hstore Hne.
  destruct p as [ar c i], p' as [ar' c' i']. simpl in *.
  destruct ar as [a |]; [| done]. simpl in *.
  destruct (percpu_heap s !! a) as [area |] eqn:Harea; [| done].
  simpl in *.
  destruct (area !! c) as [cs |] eqn:Hcs; [| done]. simpl in *.
  destruct (index cs i) as [t0 |] eqn:Hidx; [| done]. simpl in *.
  injection Hstore as <-. simpl.
  destruct ar' as [a' |]; [| done]. simpl.
  destruct (decide (a = a')) as [<- | Ha];
    [| by rewrite lookup_insert_ne].
  rewrite lookup_insert_eq, Harea. simpl.
  destruct (decide (c = c')) as [<- | Hc];
    [| by rewrite list_lookup_insert_ne].
  rewrite list_lookup_insert_eq by by eapply lookup_lt_Some.
  rewrite Hcs. simpl.
  unfold index in *. destruct (decide (0 ≤ i)) as [Hi |]; [| done].
  destruct (decide (0 ≤ i')) as [Hi' |]; [| done].
  apply list_lookup_insert_ne. intros Heq.
  apply Hne. f_equal. lia.
Qed.

(** What a returning measure read and what it left as it was. *)
Lemma get_size_inv offset field ctx s sz s' :
  lttng_callstack_get_size T offset field ctx s = Some (sz, s') →
  ∃ fdata,
    priv field ≫= (kmalloc_heap s !!.) = Some fdata
    ∧ cs_types s' = cs_types s
    ∧ lib_ring_buffer_nesting s' = lib_ring_buffer_nesting s
    ∧ kmalloc_heap s' = kmalloc_heap s
    ∧ (user_nesting_typed s (cpu ctx) →
       ∀ c, callstack_user_nesting s' c = callstack_user_nesting s c)
    ∧ (∀ p', stack_trace_context fdata (cpu ctx) s ≠ Some p' →
         load_trace s' p' = load_trace s p').
Proof.
  rewrite get_size_body.
  destruct (priv field) as [a |]; [| done]. simpl.
  destruct (kmalloc_heap s !! a) as [fdata |]; [| done]. simpl.
  intros Hsize. exists fdata. split; [done |]. revert Hsize.
  destruct (stack_trace_context fdata (cpu ctx) s) as [p |];
    [| by intros [= _ <-]].
  destruct (load_trace s p) as [t0 |] eqn:Hload; [| done]. simpl.
  destruct (save_func _) as [f |]; [| done]. simpl.
  destruct (strip_delimiter T _) as [t' |]; [| done]. simpl.
  set (s1 := user_nesting_exit (mode fdata) (cpu ctx)
               (count_save_func_call
                  (user_nesting_enter (mode fdata) (cpu ctx) s))).
  assert (cs_types s1 = cs_types s
          ∧ lib_ring_buffer_nesting s1 = lib_ring_buffer_nesting s
          ∧ kmalloc_heap s1 = kmalloc_heap s
          ∧ percpu_heap s1 = percpu_heap s) as (Hcs & Hrb & Hkm & Hpc).
  { subst s1. unfold user_nesting_exit, user_nesting_enter.
    by destruct (decide (mode fdata = CALLSTACK_USER)). }
  destruct (store_trace s1 p t') as [s'' |] eqn:Hstore; [| done].
  simpl. intros [= _ <-].
  destruct (store_trace_load s1 p t' t0)
    as (s3 & Hstore' & _ & Hcs' & Hguard' & Hrb' & Hkm' & _).
  { by rewrite (load_trace_ext s s1). }
  rewrite Hstore in Hstore'. injection Hstore' as <-.
  split; [by rewrite Hcs' |]. split; [by rewrite Hrb' |].
  split; [by rewrite Hkm' |]. split.
  - intros Htyped c. rewrite Hguard'.
    by destruct (user_nesting_bracket (mode fdata) (cpu ctx) s Htyped)
      as (_ & Hguard & _).
  - intros p' Hp'. rewrite (store_trace_frame _ _ _ _ p' Hstore) by congruence.
    by apply load_trace_ext.
Qed.

(** X8: the measure writes one slot.  A returning measure leaves the
    unwinder table, the ring buffer's nesting counters and the private
    data of every field as they were, and among the capture slots it
    changes at most the one of its own field, CPU and nesting level:
    the slots of other fields, of other CPUs and of other nesting levels
    read as before. *)
Theorem get_size_writes_one_slot offset field ctx s sz s' :
  lttng_callstack_get_size T offset field ctx s = Some (sz, s') →
  cs_types s' = cs_types s
  ∧ lib_ring_buffer_nesting s' = lib_ring_buffer_nesting s
  ∧ kmalloc_heap s' = kmalloc_heap s
  ∧ ∀ fdata p',
      priv field ≫= (kmalloc_heap s !!.) = Some fdata →
      tp_area p' ≠ cs_percpu fdata
      ∨ tp_cpu p' ≠ cpu ctx
      ∨ tp_index p' ≠ wrap_int (lib_ring_buffer_nesting s (cpu ctx) - 1) →
      load_trace s' p' = load_trace s p'.
Proof.
  intros Hsize.
  destruct (get_size_inv _ _ _ _ _ _ Hsize)
    as (fdata & Hpriv & Hcs & Hrb & Hkm & _ & Hframe).
  repeat (split; [done |]).
  intros fdata' p' Hpriv' Hother.
  assert (fdata' = fdata) as -> by congruence.
  apply Hframe. unfold stack_trace_context.
  repeat case_decide; try done.
  intros [= <-]. simpl in Hother. by destruct Hother as [? | [? | ?]].
Qed.

(** X9: an inner event does not clobber the capture of the event it
    interrupts.  Between the measure and the write of an event on a CPU,
    let the nesting counter of that CPU move to another depth, a measure
    run there (for any field) and the counter come back: the write of
    the outer event emits what it would have emitted without the
    interruption. *)
Theorem inner_event_keeps_outer_capture offset field_in ctx_in field_out
    ctx_out s d_in sz s2 :
  cpu ctx_in = cpu ctx_out →
  in_event s (cpu ctx_out) →
  0 ≤ d_in - 1 ≤ INT_MAX →
  d_in ≠ lib_ring_buffer_nesting s (cpu ctx_out) →
  user_nesting_typed s (cpu ctx_out) →
  lttng_callstack_get_size T offset field_in ctx_in
    (set_lib_ring_buffer_nesting (λ f, <[cpu ctx_out := d_in]> f) s)
  = Some (sz, s2) →
  lttng_callstack_record T field_out ctx_out
    (set_lib_ring_buffer_nesting
       (λ f, <[cpu ctx_out := lib_ring_buffer_nesting s (cpu ctx_out)]> f) s2)
  = lttng_callstack_record T field_out ctx_out s.
Proof.
  intros Hcpu Hev Hin Hdepth Htyped Hsize.
  destruct (get_size_inv _ _ _ _ _ _ Hsize)
    as (fdata_in & Hpriv & Hcs & Hrb & Hkm & Hguard & Hframe).
  simpl in *. rewrite Hcpu in *.
  apply record_unchanged. repeat split; simpl.
  - by rewrite Hkm.
  - by apply Hguard.
  - by rewrite fn_lookup_insert.
  - intros fdata_out p_out _ Hsel.
    unfold load_trace at 1. simpl. fold (load_trace s2 p_out).
    apply Hframe. clear Hframe Hguard Hsize.
    unfold in_event, INT_MAX in Hev. unfold INT_MAX in Hin.
    unfold stack_trace_context in Hsel. unfold stack_trace_context. simpl.
    rewrite fn_lookup_insert.
    rewrite wrap_int_id in Hsel by (unfold INT_MIN, INT_MAX; lia).
    rewrite wrap_int_id by (unfold INT_MIN, INT_MAX; lia).
    destruct (decide (mode fdata_out = CALLSTACK_USER ∧ _)); [done |].
    destruct (decide (RING_BUFFER_MAX_NESTING ≤ _)); [done |].
    injection Hsel as <-.
    destruct (decide (mode fdata_in = CALLSTACK_USER ∧ _)); [done |].
    destruct (decide (RING_BUFFER_MAX_NESTING ≤ _)); [done |].
    intros [= _ ?]. lia.
Qed.
End Isolation.

(** ** The emitted sequence *)

Section Sequence.
Context (T : target) (HT : target_ok T).

Lemma record_reads_in_bounds field ctx s fdata p t ctx' :
  priv field ≫= (kmalloc_heap s !!.) = Some fdata →
  stack_trace_context fdata (cpu ctx) s = Some p →
  load_trace s p = Some t →
  lttng_callstack_record T field ctx s = Some ctx' →
  0 ≤ nr_entries t ≤ Z.of_nat (length (entries t)).
Proof.
  intros Hpriv Hsel Hload. unfold lttng_callstack_record.
  destruct (priv field) as [a |]; simpl in Hpriv; [| done].
  simpl. rewrite Hpriv. simpl. rewrite Hsel, Hload. simpl.
  unfold read_words.
  by destruct (decide (0 ≤ nr_entries t ≤ Z.of_nat (length (entries t)))).
Qed.

(** X10: every write lays down a well-formed sequence.  On an attached
    field inside an event, a returning write appends to the buffer a
    sequence whose count [N] is the number of machine words that follow
    it; [N] is at most [MAX_ENTRIES + 1] and is never [MAX_ENTRIES]: a
    full slot is always written with the marker. *)
Theorem record_sequence_well_formed field ctx s fdata cs f ctx' :
  attached s field (cpu ctx) fdata cs f →
  in_event s (cpu ctx) →
  lttng_callstack_record T field ctx s = Some ctx' →
  ∃ N words,
    written ctx' = written ctx ++ wire_sequence T (buf_offset ctx) N words
    ∧ Z.of_nat (length words) = N
    ∧ 0 ≤ N ≤ MAX_ENTRIES + 1
    ∧ N ≠ MAX_ENTRIES
    ∧ cpu ctx' = cpu ctx.
Proof.
  intros Hatt Hev Hrec.
  pose proof (att_priv _ _ _ _ _ _ Hatt) as Hpriv.
  destruct (stack_trace_context fdata (cpu ctx) s) as [p |] eqn:Hsel.
  - destruct (load_trace_attached _ _ _ _ _ _ _ Hatt Hev Hsel)
      as (t & Hload & Hmax & Hlen).
    pose proof (record_reads_in_bounds _ _ _ _ _ _ _ Hpriv Hsel Hload Hrec)
      as Hn.
    rewrite (record_capture T HT _ _ _ _ _ _ Hpriv Hsel Hload Hn) in Hrec.
    injection Hrec as <-. simpl. eexists _, _. split; [done |].
    rewrite Hmax, Hlen in *. unfold MAX_ENTRIES in *.
    rewrite length_app, length_take, Hlen, Nat.min_l by lia.
    destruct (decide (nr_entries t = 128)) as [-> |]; simpl.
    + unfold wrap_uint. rewrite Z.mod_small by lia. lia.
    + lia.
  - rewrite (record_skip T HT _ _ _ fdata Hpriv Hsel) in Hrec.
    injection Hrec as <-. simpl. eexists _, _. split; [done |].
    simpl. unfold MAX_ENTRIES. lia.
Qed.

Lemma Data_inj : Inj (=) (=) Data.
Proof. by intros b b' [= ->]. Qed.

Lemma le_bytes_inj n v v' :
  le_bytes n v = le_bytes n v' →
  v mod 256 ^ Z.of_nat n = v' mod 256 ^ Z.of_nat n.
Proof.
  revert v v'. induction n as [| n IH]; intros v v' Heq.
  { simpl. by rewrite !Z.mod_1_r. }
  simpl in Heq. injection Heq as Hlow Hhigh.
  apply IH in Hhigh.
  rewrite Nat2Z.inj_succ, Z.pow_succ_r by lia.
  rewrite !(Z.rem_mul_r _ 256 (256 ^ Z.of_nat n)) by lia.
  by rewrite Hlow, Hhigh.
Qed.

Lemma host_bytes_inj n v v' :
  0 ≤ n →
  0 ≤ v < 256 ^ n → 0 ≤ v' < 256 ^ n →
  host_bytes T n v = host_bytes T n v' → v = v'.
Proof.
  intros Hn Hv Hv' Heq. unfold host_bytes in Heq.
  assert (le_bytes (Z.to_nat n) v = le_bytes (Z.to_nat n) v') as Hle.
  { destruct (big_endian T); [| done].
    apply (inj reverse). done. }
  apply le_bytes_inj in Hle. rewrite Z2Nat.id in Hle by done.
  by rewrite !Z.mod_small in Hle.
Qed.

Lemma word_range : ULONG_MAX T + 1 = 256 ^ sizeof_long T.
Proof.
  unfold ULONG_MAX, long_bits.
  destruct (sizeof_long_ok T HT) as [-> | ->]; reflexivity.
Qed.

Lemma words_bytes_inj ws ws' :
  length ws = length ws' →
  Forall (λ w, 0 ≤ w ≤ ULONG_MAX T) ws →
  Forall (λ w, 0 ≤ w ≤ ULONG_MAX T) ws' →
  words_bytes T ws = words_bytes T ws' → ws = ws'.
Proof.
  pose proof (sizeof_long_range T HT) as Hw. pose proof word_range as Hr.
  revert ws'. induction ws as [| w ws IH]; intros [| w' ws'] Hlen Hws Hws' Heq;
    try done.
  unfold words_bytes in Heq. rewrite !bind_cons in Heq.
  apply app_inj_1 in Heq as [Hhead Htail];
    [| by rewrite !length_host_bytes].
  inversion Hws as [| ? ? Hw1 Hws1]; inversion Hws' as [| ? ? Hw2 Hws2];
    subst.
  f_equal.
  - apply (host_bytes_inj (sizeof_long T)); [lia | lia | lia | done].
  - apply IH; [by injection Hlen | done | done | done].
Qed.

(** X11: the write is injective on the captured traces.  Two writes that
    start at the same cursor and lay down the same bytes were made from
    slots with the same number of frames and the same frames: a reader
    recovers the stored length and the addresses from the output. *)
Theorem record_determines_frames field ctx s1 s2 fdata p1 p2 t1 t2 :
  priv field ≫= (kmalloc_heap s1 !!.) = Some fdata →
  priv field ≫= (kmalloc_heap s2 !!.) = Some fdata →
  stack_trace_context fdata (cpu ctx) s1 = Some p1 →
  stack_trace_context fdata (cpu ctx) s2 = Some p2 →
  load_trace s1 p1 = Some t1 →
  load_trace s2 p2 = Some t2 →
  slot_ok t1 → slot_ok t2 →
  0 ≤ nr_entries t1 ≤ MAX_ENTRIES →
  0 ≤ nr_entries t2 ≤ MAX_ENTRIES →
  Forall (λ w, 0 ≤ w ≤ ULONG_MAX T)
    (take (Z.to_nat (nr_entries t1)) (entries t1)) →
  Forall (λ w, 0 ≤ w ≤ ULONG_MAX T)
    (take (Z.to_nat (nr_entries t2)) (entries t2)) →
  lttng_callstack_record T field ctx s1
  = lttng_callstack_record T field ctx s2 →
  nr_entries t1 = nr_entries t2
  ∧ take (Z.to_nat (nr_entries t1)) (entries t1)
    = take (Z.to_nat (nr_entries t2)) (entries t2).
Proof.
  intros Hpriv1 Hpriv2 Hsel1 Hsel2 Hload1 Hload2 [Hmax1 Hlen1] [Hmax2 Hlen2]
    Hn1 Hn2 Hw1 Hw2 Heq.
  unfold MAX_ENTRIES in *.
  rewrite (record_capture T HT _ _ _ _ _ _ Hpriv1 Hsel1 Hload1) in Heq
    by (rewrite Hlen1; lia).
  rewrite (record_capture T HT _ _ _ _ _ _ Hpriv2 Hsel2 Hload2) in Heq
    by (rewrite Hlen2; lia).
  injection Heq as _ Heq. apply app_inv_head in Heq.
  unfold wire_sequence in Heq.
  apply app_inv_head in Heq.
  apply app_inj_1 in Heq as [Hcount Hwords];
    [| by rewrite !length_fmap, !length_host_bytes].
  apply app_inv_head in Hwords.
  pose proof Data_inj as HData.
  apply (inj (fmap Data)) in Hcount. apply (inj (fmap Data)) in Hwords.
  rewrite Hmax1, Hmax2 in *.
  assert (nr_entries t1 = nr_entries t2) as Hnr.
  { assert (∀ n, 0 ≤ n ≤ 128 →
              (if decide (n = 128) then wrap_uint (n + 1) else n)
              = (if decide (n = 128) then 129 else n)) as Hcnt.
    { intros n _. by destruct (decide (n = 128)) as [-> |]. }
    rewrite !Hcnt in Hcount by done.
    apply (host_bytes_inj sizeof_uint) in Hcount.
    - destruct (decide (nr_entries t1 = 128)),
        (decide (nr_entries t2 = 128)); lia.
    - done.
    - unfold sizeof_uint. destruct (decide (nr_entries t1 = 128)); lia.
    - unfold sizeof_uint. destruct (decide (nr_entries t2 = 128)); lia. }
  split; [done |].
  rewrite Hnr in Hwords, Hw1 |- *.
  assert (Forall (λ w, 0 ≤ w ≤ ULONG_MAX T)
            (if decide (nr_entries t2 = 128) then [ULONG_MAX T] else []))
    as Hmark.
  { destruct (decide (nr_entries t2 = 128)); [| done].
    apply Forall_singleton. pose proof word_range.
    pose proof (sizeof_long_range T HT).
    assert (0 < 256 ^ sizeof_long T) by (apply Z.pow_pos_nonneg; lia). lia. }
  apply words_bytes_inj in Hwords.
  - by apply app_inv_tail in Hwords.
  - rewrite !length_app, !length_take. lia.
  - by apply Forall_app.
  - by apply Forall_app.
Qed.
End Sequence.

(** ** The measured size *)

Section Size.
Context (T : target) (HT : target_ok T).

Ltac push_wrap :=
  repeat (rewrite (wrap_ulong_add_l T) || rewrite <- Z.add_assoc).

(** The size of a sequence, whatever the slot holds: the sum of its
    parts, reduced modulo the word. *)
Lemma sequence_size_sum offset t :
  sequence_size T offset t
  = wrap_ulong T
      (empty_layout_size T offset
       + (sizeof_long T * nr_entries t
          + (if decide (nr_entries t = max_entries t)
             then sizeof_long T else 0))).
Proof.
  unfold sequence_size, empty_layout_size.
  set (p1 := lib_ring_buffer_align offset (alignof_uint T)).
  set (o2 := wrap_ulong T (wrap_ulong T (offset + p1) + sizeof_uint)).
  set (p2 := lib_ring_buffer_align o2 (alignof_ulong T)).
  rewrite wrap_ulong_add_r.
  destruct (decide (nr_entries t = max_entries t)); subst o2; push_wrap;
    by rewrite wrap_ulong_delta, ?Z.add_0_r.
Qed.

(** X12: the measure depends on the offset through its alignment only.
    Two offsets with the same residues modulo the two alignments give
    the same size and the same state, on every branch and wherever the
    offsets lie in the range of [size_t]. *)
Theorem get_size_offset_congruence offset offset' field ctx s :
  offset mod alignof_uint T = offset' mod alignof_uint T →
  offset mod alignof_ulong T = offset' mod alignof_ulong T →
  lttng_callstack_get_size T offset field ctx s
  = lttng_callstack_get_size T offset' field ctx s.
Proof.
  intros H1 H2.
  pose proof (empty_layout_size_congr T HT _ _ H1 H2) as Hcongr.
  rewrite !get_size_body.
  destruct (priv field) as [a |]; [| done]. simpl.
  destruct (kmalloc_heap s !! a) as [fdata |]; [| done]. simpl.
  destruct (stack_trace_context fdata (cpu ctx) s) as [p |].
  - destruct (load_trace s p) as [t0 |]; [| done]. simpl.
    destruct (save_func _) as [f |]; [| done]. simpl.
    destruct (strip_delimiter T _) as [t' |]; [| done]. simpl.
    destruct (store_trace _ p t') as [s' |]; [| done]. simpl.
    by rewrite !sequence_size_sum, Hcongr.
  - by rewrite !(empty_sequence_size_eq T HT), Hcongr.
Qed.

(** X13: the measured size is bounded and does not wrap.  On an attached
    field inside an event the measure returns the padded length field
    plus [N] machine words, where [N] is at most [MAX_ENTRIES + 1] and
    never [MAX_ENTRIES]; so the size lies between 4 and
    [18 + (MAX_ENTRIES + 1) * sizeof(unsigned long)] bytes. *)
Theorem get_size_bounded offset field ctx s fdata cs f sz s' :
  attached s field (cpu ctx) fdata cs f →
  in_event s (cpu ctx) →
  user_nesting_typed s (cpu ctx) →
  lttng_callstack_get_size T offset field ctx s = Some (sz, s') →
  (∃ N, sz = empty_layout_size T offset + sizeof_long T * N
        ∧ 0 ≤ N ≤ MAX_ENTRIES + 1 ∧ N ≠ MAX_ENTRIES)
  ∧ sizeof_uint ≤ sz ≤ 18 + (MAX_ENTRIES + 1) * sizeof_long T.
Proof.
  intros Hatt Hev Htyped Hsize.
  pose proof (sizeof_long_range T HT) as Hw.
  pose proof (empty_layout_size_range T HT offset) as Hrange.
  assert (∃ N, sz = empty_layout_size T offset + sizeof_long T * N
               ∧ 0 ≤ N ≤ MAX_ENTRIES + 1 ∧ N ≠ MAX_ENTRIES)
    as (N & -> & HN & HN').
  { destruct (stack_trace_context fdata (cpu ctx) s) as [p |] eqn:Hsel.
    - destruct (load_trace_attached _ _ _ _ _ _ _ Hatt Hev Hsel)
        as (t0 & Hload & Hok).
      destruct (get_size_capture T offset _ _ _ _ _ _ _ _
                  Hatt Htyped Hsel Hload Hok)
        as (t' & s'' & Hsize' & _ & _ & [Hmax _] & Hnr & _).
      rewrite Hsize in Hsize'. injection Hsize' as -> _.
      rewrite (sequence_size_eq T HT) by done.
      rewrite Hmax. unfold MAX_ENTRIES in *.
      destruct (decide (nr_entries t' = 128)) as [Hfull |].
      + exists 129. rewrite Hfull. repeat split; lia.
      + exists (nr_entries t'). rewrite Z.add_0_r. repeat split; lia.
    - rewrite (get_size_skip T offset _ _ _ fdata) in Hsize;
        [| by apply (att_priv _ _ _ _ _ _ Hatt) | done].
      injection Hsize as <- _. exists 0.
      rewrite (empty_sequence_size_eq T HT). unfold MAX_ENTRIES.
      repeat split; lia. }
  split; [by exists N |].
  assert (empty_layout_size T offset ≤ 18) as Hpad.
  { unfold empty_layout_size.
    pose proof (align_bounds offset _ (alignof_uint_range T HT)).
    pose proof (align_bounds
                  (wrap_ulong T
                     (wrap_ulong T
                        (offset
                         + lib_ring_buffer_align offset (alignof_uint T))
                      + sizeof_uint))
                  _ (alignof_ulong_range T HT)).
    unfold sizeof_uint in *. lia. }
  unfold MAX_ENTRIES, sizeof_uint in *. nia.
Qed.
End Size.

(** ** The user-nesting guard and the kernel callstack *)

Section Guard.
Context (T : target).

(** X14: a kernel callstack field neither consults nor modifies the
    user-nesting guard.  Whatever values the guard is given, the measure
    of a kernel field returns the same size and the same state but for
    the guard, which it passes on unchanged, and its write emits the
    same bytes. *)
Theorem kernel_capture_ignores_guard offset field ctx s fdata
    (guard : nat → Z) :
  priv field ≫= (kmalloc_heap s !!.) = Some fdata →
  mode fdata = CALLSTACK_KERNEL →
  lttng_callstack_get_size T offset field ctx
    (set_callstack_user_nesting (λ _, guard) s)
  = (λ r, (r.1, set_callstack_user_nesting (λ _, guard) r.2))
      <$> lttng_callstack_get_size T offset field ctx s
  ∧ lttng_callstack_record T field ctx
      (set_callstack_user_nesting (λ _, guard) s)
    = lttng_callstack_record T field ctx s.
Proof.
  intros Hpriv Hmode.
  assert (∀ s0, stack_trace_context fdata (cpu ctx)
                  (set_callstack_user_nesting (λ _, guard) s0)
                = stack_trace_context fdata (cpu ctx) s0) as Hsel.
  { intros s0. unfold stack_trace_context. simpl.
    destruct (decide (mode fdata = CALLSTACK_USER ∧ 1 ≤ guard (cpu ctx)))
      as [[? _] |]; [congruence |].
    destruct (decide (mode fdata = CALLSTACK_USER ∧ _)) as [[? _] |];
      [congruence | done]. }
  rewrite !get_size_body. unfold lttng_callstack_record.
  destruct (priv field) as [a |]; simpl in Hpriv; [| done].
  simpl. rewrite Hpriv. simpl. rewrite Hsel. split; [| done].
  destruct (stack_trace_context fdata (cpu ctx) s) as [p |]; [| done].
  unfold load_trace, store_trace, user_nesting_enter, user_nesting_exit.
  rewrite Hmode. simpl.
  destruct (tp_area p) as [ar |]; [| done]. simpl.
  destruct (percpu_heap s !! ar) as [area |]; [| done]. simpl.
  destruct (area !! tp_cpu p) as [cs |]; [| done]. simpl.
  destruct (index cs (tp_index p)) as [t0 |]; [| done]. simpl.
  destruct (save_func _) as [f |]; [| done]. simpl.
  by destruct (strip_delimiter T _) as [t' |].
Qed.
End Guard.

(** ** Fields side by side, and the hooks of a fresh field *)

Section Fields.
Context (T : target) (HT : target_ok T).
Context (kallsyms_lookup_funcptr : string → option save_func_t).

(** X15: destroying a field leaves the other fields attached.  When two
    fields have distinct private data and distinct per-CPU areas, the
    [destroy] hook of the one frees its data and its area and the other
    stays attached, with its capture sets as they were. *)
Theorem destroy_preserves_attached s field1 c fdata1 cs1 f1 field2 fdata2 :
  attached s field1 c fdata1 cs1 f1 →
  priv field2 ≫= (kmalloc_heap s !!.) = Some fdata2 →
  priv field1 ≠ priv field2 →
  cs_percpu fdata1 ≠ cs_percpu fdata2 →
  ∃ s',
    lttng_callstack_destroy field2 s = Some s'
    ∧ priv field2 ≫= (kmalloc_heap s' !!.) = None
    ∧ cs_percpu fdata2 ≫= (percpu_heap s' !!.) = None
    ∧ attached s' field1 c fdata1 cs1 f1.
Proof.
  intros [Hpriv Hset Hlen Hslots Hbound Hbackend] Hpriv2 Hp Ha.
  unfold lttng_callstack_destroy, field_data_free.
  destruct (priv field2) as [p2 |]; simpl in Hpriv2; [| done].
  rewrite Hpriv2. simpl. eexists. split; [done |].
  destruct fdata2 as [[a2 |] m2]; simpl in *.
  - split; [by rewrite lookup_delete_eq |].
    split; [by rewrite lookup_delete_eq |].
    split; try done.
    + destruct (priv field1) as [p1 |]; [| done]. simpl in *.
      rewrite lookup_delete_ne; congruence.
    + unfold capture_set in *.
      destruct (cs_percpu fdata1) as [a1 |]; [| done]. simpl in *.
      rewrite lookup_delete_ne; [done | congruence].
  - split; [by rewrite lookup_delete_eq |]. split; [done |].
    split; try done.
    destruct (priv field1) as [p1 |]; [| done]. simpl in *.
    rewrite lookup_delete_ne; congruence.
Qed.

(** X16: the hooks of a freshly attached field stay inside its slots.
    After a successful attachment whose unwinder respects the capacity
    of the slot, let an event raise the nesting counter of a possible
    CPU to any depth of at least 1: the measure returns, and the write
    that follows it returns and emits as many bytes as were measured.
    No slot index leaves the array, on the capture branch or on the
    nesting overflow. *)
Theorem fresh_field_hooks_defined o (ctx : lttng_ctx) type s ctx' s' field
    offset rb d :
  (∀ m f, bound_unwinder kallsyms_lookup_funcptr s m = Some f →
     backend_ok f) →
  lttng_add_callstack_to_ctx T kallsyms_lookup_funcptr o ctx type s
  = Some (0, ctx', s') →
  ctx' = ctx ++ [field] →
  (cpu rb < nr_possible_cpus T)%nat →
  0 ≤ d - 1 ≤ INT_MAX →
  user_nesting_typed s (cpu rb) →
  buf_offset rb = offset →
  ∃ sz s'' rb',
    lttng_callstack_get_size T offset field rb
      (set_lib_ring_buffer_nesting (λ f, <[cpu rb := d]> f) s')
    = Some (sz, s'')
    ∧ lttng_callstack_record T field rb s'' = Some rb'
    ∧ Z.of_nat (length (written rb')) = Z.of_nat (length (written rb)) + sz.
Proof.
  intros Hbackends Hrun Hlast Hcpu Hd Htyped <-.
  destruct (attach_success_inv T HT _ _ _ _ _ _ _ Hrun)
    as (m & fdata & a & f & Hsup & _ & _ & Hctx & _ & _ & _ & _ & Hbind & _).
  destruct (attached_after_attach T HT _ _ _ _ _ _ _ _ f Hsup Hbind
              (Hbackends _ _ Hbind) Hrun)
    as (fdata' & a' & Hctx' & Hatt).
  rewrite Hctx' in Hlast. apply app_inv_head in Hlast.
  injection Hlast as <-. specialize (Hatt _ Hcpu).
  destruct (attach_dispatch T HT kallsyms_lookup_funcptr o ctx type s)
    as [(m' & _ & Hgen) | [_ Hno]]; [| by rewrite Hno in Hrun].
  rewrite Hgen in Hrun.
  destruct (add_callstack_generic_state T kallsyms_lookup_funcptr
              _ _ _ _ _ _ _ Hrun)
    as (_ & Hguard & _).
  set (s_ev := set_lib_ring_buffer_nesting (λ f, <[cpu rb := d]> f) s').
  assert (attached s_ev (callstack_field T (name (cs_types s m)) fdata')
            (cpu rb) (FieldData (Some a') m)
            (replicate (Z.to_nat RING_BUFFER_MAX_NESTING)
               (StackTrace 0 MAX_ENTRIES
                  (replicate (Z.to_nat MAX_ENTRIES) 0))) f) as Hatt'.
  { by destruct Hatt. }
  assert (in_event s_ev (cpu rb)) as Hev'.
  { unfold in_event. simpl. by rewrite fn_lookup_insert. }
  assert (user_nesting_typed s_ev (cpu rb)) as Htyped'
    by (unfold user_nesting_typed; simpl; by rewrite Hguard).
  pose proof (att_priv _ _ _ _ _ _ Hatt') as Hpriv.
  set (field := callstack_field T (name (cs_types s m)) fdata') in *.
  destruct (stack_trace_context (FieldData (Some a') m) (cpu rb) s_ev)
    as [p |] eqn:Hsel.
  - destruct (load_trace_attached _ _ _ _ _ _ _ Hatt' Hev' Hsel)
      as (t0 & Hload & Hok).
    destruct (capture_event T HT (buf_offset rb) _ _ _ _ _ _ _ _
                Hatt' Htyped' Hsel Hload Hok)
      as (t' & s'' & Hsize & _ & _ & [Hmax Hlen] & Hnr & Hrec).
    eexists _, s'', _. split; [done |]. split; [done |]. simpl.
    rewrite (sequence_size_eq T HT) by done.
    rewrite length_app, Nat2Z.inj_add, (length_wire_sequence T HT).
    rewrite length_app, length_take, Hlen, Nat2Z.inj_add.
    unfold MAX_ENTRIES in *. rewrite Nat.min_l, Z2Nat.id by lia.
    destruct (decide (nr_entries t' = max_entries t')); simpl; nia.
  - exists (empty_sequence_size T (buf_offset rb)), s_ev. eexists.
    split; [by apply (get_size_skip T _ _ _ _ (FieldData (Some a') m)) |].
    split; [by apply (record_skip T HT _ _ _ (FieldData (Some a') m)) |].
    simpl. rewrite (empty_sequence_size_eq T HT).
    rewrite length_app, Nat2Z.inj_add, (length_wire_sequence T HT). simpl.
    lia.
Qed.
End Fields.

(** ** The claims at the sample instances *)

Lemma sample_in_event slot fr m guard : in_event (sample_state slot fr m guard 1) 0.
Proof. unfold in_event, INT_MAX. simpl. lia. Qed.

Lemma sample_user_nesting_typed slot fr m d :
  user_nesting_typed (sample_state slot fr m 0 d) 0.
Proof. unfold user_nesting_typed, INT_MIN, INT_MAX. simpl. lia. Qed.

Lemma stack_trace_context_selects_witness :
  in_event kernel_event 0
  ∧ stack_trace_context (sample_fdata CALLSTACK_KERNEL) 0 kernel_event
    = Some sample_ptr.
Proof.
  split; [apply sample_in_event |].
  destruct (stack_trace_context_selects (sample_fdata CALLSTACK_KERNEL) 0
              kernel_event (sample_in_event _ _ _ _)) as [_ Hsel].
  destruct (stack_trace_context (sample_fdata CALLSTACK_KERNEL) 0
              kernel_event) as [p |] eqn:Hp; [| discriminate Hp].
  destruct (Hsel p eq_refl) as [-> _]. reflexivity.
Defined.

Lemma no_slot_emits_empty_sequence_witness :
  target_ok x86_64
  ∧ priv (sample_field CALLSTACK_USER)
      ≫= (kmalloc_heap nested_user_event !!.)
    = Some (sample_fdata CALLSTACK_USER)
  ∧ stack_trace_context (sample_fdata CALLSTACK_USER) (cpu sample_ctx)
      nested_user_event = None
  ∧ lttng_callstack_get_size x86_64 4 (sample_field CALLSTACK_USER)
      sample_ctx nested_user_event
    = Some (4, nested_user_event).
Proof.
  split; [apply x86_64_ok |]. split; [reflexivity |]. split; [reflexivity |].
  apply (no_slot_emits_empty_sequence x86_64 x86_64_ok 4
           (sample_field CALLSTACK_USER) sample_ctx nested_user_event
           (sample_fdata CALLSTACK_USER) eq_refl eq_refl).
Defined.

Lemma truncated_slot_ok : slot_ok (StackTrace 128 128 (replicate 128 5)).
Proof. by split. Qed.

Lemma record_count_and_marker_witness :
  target_ok x86_64
  ∧ priv (sample_field CALLSTACK_KERNEL)
      ≫= (kmalloc_heap truncated_capture !!.)
    = Some (sample_fdata CALLSTACK_KERNEL)
  ∧ stack_trace_context (sample_fdata CALLSTACK_KERNEL) (cpu sample_ctx)
      truncated_capture = Some sample_ptr
  ∧ load_trace truncated_capture sample_ptr
    = Some (StackTrace 128 128 (replicate 128 5))
  ∧ slot_ok (StackTrace 128 128 (replicate 128 5))
  ∧ 0 ≤ 128 ≤ 128
  ∧ ∃ ctx',
      lttng_callstack_record x86_64 (sample_field CALLSTACK_KERNEL)
        sample_ctx truncated_capture = Some ctx'
      ∧ written ctx'
        = wire_sequence x86_64 4 129 (replicate 128 5 ++ [ULONG_MAX x86_64]).
Proof.
  split; [apply x86_64_ok |]. split; [reflexivity |]. split; [reflexivity |].
  split; [reflexivity |]. split; [apply truncated_slot_ok |].
  split; [lia |].
  destruct (record_count_and_marker x86_64 x86_64_ok
              (sample_field CALLSTACK_KERNEL) sample_ctx truncated_capture
              (sample_fdata CALLSTACK_KERNEL) sample_ptr
              (StackTrace 128 128 (replicate 128 5))
              eq_refl eq_refl eq_refl truncated_slot_ok
              ltac:(simpl; lia))
    as (ctx' & Hrec & Hfull & _).
  exists ctx'. split; [exact Hrec |]. exact (Hfull eq_refl).
Defined.

Lemma record_emits_measured_size_witness :
  target_ok x86_64
  ∧ attached kernel_event (sample_field CALLSTACK_KERNEL) (cpu sample_ctx)
      (sample_fdata CALLSTACK_KERNEL) (replicate 4 idle_slot)
      (frames_backend [10; 11; 12; ULONG_MAX x86_64])
  ∧ in_event kernel_event (cpu sample_ctx)
  ∧ user_nesting_typed kernel_event (cpu sample_ctx)
  ∧ 12 mod alignof_uint x86_64 = buf_offset sample_ctx mod alignof_uint x86_64
  ∧ 12 mod alignof_ulong x86_64
    = buf_offset sample_ctx mod alignof_ulong x86_64
  ∧ ∃ s' ctx',
      lttng_callstack_get_size x86_64 12 (sample_field CALLSTACK_KERNEL)
        sample_ctx kernel_event = Some (28, s')
      ∧ lttng_callstack_record x86_64 (sample_field CALLSTACK_KERNEL)
          sample_ctx s' = Some ctx'
      ∧ Z.of_nat (length (written ctx')) = 28
      ∧ buf_offset ctx' = 32.
Proof.
  split; [apply x86_64_ok |].
  split; [apply sample_attached, idle_slot_ok |].
  split; [apply sample_in_event |].
  split; [apply sample_user_nesting_typed |].
  split; [reflexivity |]. split; [reflexivity |].
  destruct (record_emits_measured_size x86_64 x86_64_ok 12
              (sample_field CALLSTACK_KERNEL) sample_ctx kernel_event
              (sample_fdata CALLSTACK_KERNEL) (replicate 4 idle_slot)
              (frames_backend [10; 11; 12; ULONG_MAX x86_64])
              (sample_attached _ _ _ _ _ idle_slot_ok)
              (sample_in_event _ _ _ _) (sample_user_nesting_typed _ _ _ _)
              eq_refl eq_refl)
    as (sz & s' & Hsize & Hrec).
  assert (sz = 28) as ->.
  { assert (fst <$> lttng_callstack_get_size x86_64 12
                      (sample_field CALLSTACK_KERNEL) sample_ctx kernel_event
            = Some 28) as H28 by (vm_compute; reflexivity).
    rewrite Hsize in H28. by injection H28. }
  destruct (Hrec s') as (ctx' & Hctx & Hlen & Hoff).
  { repeat split; reflexivity. }
  exists s', ctx'. split; [exact Hsize |]. split; [exact Hctx |].
  split; [exact Hlen | exact Hoff].
Defined.

Lemma get_size_strips_final_delimiter_witness :
  attached kernel_event (sample_field CALLSTACK_KERNEL) (cpu sample_ctx)
    (sample_fdata CALLSTACK_KERNEL) (replicate 4 idle_slot)
    (frames_backend [10; 11; 12; ULONG_MAX x86_64])
  ∧ in_event kernel_event (cpu sample_ctx)
  ∧ user_nesting_typed kernel_event (cpu sample_ctx)
  ∧ stack_trace_context (sample_fdata CALLSTACK_KERNEL) (cpu sample_ctx)
      kernel_event = Some sample_ptr
  ∧ load_trace kernel_event sample_ptr = Some idle_slot
  ∧ ∃ sz s' t',
      lttng_callstack_get_size x86_64 4 (sample_field CALLSTACK_KERNEL)
        sample_ctx kernel_event = Some (sz, s')
      ∧ load_trace s' sample_ptr = Some t'
      ∧ nr_entries t' = 3.
Proof.
  split; [apply sample_attached, idle_slot_ok |].
  split; [apply sample_in_event |].
  split; [apply sample_user_nesting_typed |].
  split; [reflexivity |]. split; [reflexivity |].
  destruct (get_size_strips_final_delimiter x86_64 4
              (sample_field CALLSTACK_KERNEL) sample_ctx kernel_event
              (sample_fdata CALLSTACK_KERNEL) (replicate 4 idle_slot)
              (frames_backend [10; 11; 12; ULONG_MAX x86_64])
              sample_ptr idle_slot
              (sample_attached _ _ _ _ _ idle_slot_ok)
              (sample_in_event _ _ _ _) (sample_user_nesting_typed _ _ _ _)
              eq_refl eq_refl)
    as (sz & s' & t' & Hsize & Hload & _ & _ & Hstrip & _).
  exists sz, s', t'. split; [exact Hsize |]. split; [exact Hload |].
  apply Hstrip. split; [reflexivity | reflexivity].
Defined.

Lemma get_size_balances_user_nesting_witness :
  user_nesting_typed user_event (cpu sample_ctx)
  ∧ ∃ sz s' g,
      lttng_callstack_get_size_run x86_64 4 (sample_field CALLSTACK_USER)
        sample_ctx user_event = Some (sz, s', Some g)
      ∧ lttng_callstack_get_size x86_64 4 (sample_field CALLSTACK_USER)
          sample_ctx user_event = Some (sz, s')
      ∧ callstack_user_nesting user_event 0%nat = 0
      ∧ g 0%nat = 1
      ∧ callstack_user_nesting s' 0%nat = 0
      ∧ save_func_calls s' = 1%nat.
Proof.
  split; [apply sample_user_nesting_typed |].
  destruct (get_size_balances_user_nesting x86_64 4
              (sample_field CALLSTACK_USER) sample_ctx user_event
              (sample_user_nesting_typed _ _ _ _))
    as (Hbalanced & _ & Hreturns).
  destruct (Hreturns (sample_fdata CALLSTACK_USER) (replicate 4 idle_slot)
              (frames_backend [10; 11])
              (sample_attached _ _ _ _ _ idle_slot_ok)
              (sample_in_event _ _ _ _)) as [[[sz s'] [g |]] Hrun];
    [| exfalso; vm_compute in Hrun; discriminate Hrun].
  destruct (Hbalanced sz s' (Some g) Hrun)
    as (Hsize & Hsame & _ & fdata & Hpriv & _ & Hcalls & Hduring).
  assert (fdata = sample_fdata CALLSTACK_USER) as ->
    by (vm_compute in Hpriv; injection Hpriv as <-; reflexivity).
  exists sz, s', g. split; [exact Hrun |]. split; [exact Hsize |].
  split; [reflexivity |].
  split; [rewrite (Hduring 0%nat); reflexivity |].
  split; [exact (Hsame 0%nat) | exact Hcalls].
Defined.

(** C8 as stated, for a result longer than its delimiter: a delimiter
    that follows a frame is stripped and the frame stays:
    the unwinder result has length 2 and ends with [ULONG_MAX], and the
    event is written with the count 1 and one element word, not as the
    empty sequence. *)
Lemma delimiter_after_frame_keeps_frame :
  0 < nr_entries (backend_result (frames_backend [10; ULONG_MAX x86_64])
                    idle_slot)
  ∧ index (entries (backend_result (frames_backend [10; ULONG_MAX x86_64])
                      idle_slot))
      (nr_entries (backend_result (frames_backend [10; ULONG_MAX x86_64])
                     idle_slot) - 1)
    = Some (ULONG_MAX x86_64)
  ∧ written <$>
      (lttng_callstack_get_size x86_64 4 (sample_field CALLSTACK_KERNEL)
         sample_ctx short_event
       ≫= λ r, lttng_callstack_record x86_64 (sample_field CALLSTACK_KERNEL)
                  sample_ctx r.2)
    = Some (wire_sequence x86_64 4 1 [10])
  ∧ wire_sequence x86_64 4 1 [10] ≠ wire_sequence x86_64 4 0 [].
Proof.
  split; [reflexivity |]. split; [reflexivity |].
  split; [vm_compute; reflexivity |].
  vm_compute. intros H. discriminate H.
Qed.

Lemma empty_and_lone_delimiter_alike_witness :
  attached bottom_event (sample_field CALLSTACK_KERNEL) (cpu sample_ctx)
    (sample_fdata CALLSTACK_KERNEL) (replicate 4 idle_slot)
    (frames_backend [ULONG_MAX x86_64])
  ∧ in_event bottom_event (cpu sample_ctx)
  ∧ user_nesting_typed bottom_event (cpu sample_ctx)
  ∧ stack_trace_context (sample_fdata CALLSTACK_KERNEL) (cpu sample_ctx)
      bottom_event = Some sample_ptr
  ∧ load_trace bottom_event sample_ptr = Some idle_slot
  ∧ (nr_entries (backend_result (frames_backend [ULONG_MAX x86_64]) idle_slot)
     = 1
     ∧ index (entries (backend_result (frames_backend [ULONG_MAX x86_64])
                         idle_slot)) 0
       = Some (ULONG_MAX x86_64))
  ∧ ∃ sz s' ctx',
      lttng_callstack_get_size x86_64 4 (sample_field CALLSTACK_KERNEL)
        sample_ctx bottom_event = Some (sz, s')
      ∧ lttng_callstack_record x86_64 (sample_field CALLSTACK_KERNEL)
          sample_ctx s' = Some ctx'
      ∧ written ctx' = wire_sequence x86_64 4 0 [].
Proof.
  split; [apply sample_attached, idle_slot_ok |].
  split; [apply sample_in_event |].
  split; [apply sample_user_nesting_typed |].
  split; [reflexivity |]. split; [reflexivity |].
  split; [split; reflexivity |].
  apply (empty_and_lone_delimiter_alike x86_64 x86_64_ok 4
           (sample_field CALLSTACK_KERNEL) sample_ctx bottom_event
           (sample_fdata CALLSTACK_KERNEL) (replicate 4 idle_slot)
           (frames_backend [ULONG_MAX x86_64]) sample_ptr idle_slot
           (sample_attached _ _ _ _ _ idle_slot_ok)
           (sample_in_event _ _ _ _) (sample_user_nesting_typed _ _ _ _)
           eq_refl eq_refl (or_intror (conj eq_refl eq_refl))).
Defined.

Lemma delimiter_and_marker_exclusive_witness :
  attached brimful_event (sample_field CALLSTACK_KERNEL) (cpu sample_ctx)
    (sample_fdata CALLSTACK_KERNEL) (replicate 4 idle_slot)
    (frames_backend (replicate 127 5 ++ [ULONG_MAX x86_64]))
  ∧ in_event brimful_event (cpu sample_ctx)
  ∧ user_nesting_typed brimful_event (cpu sample_ctx)
  ∧ stack_trace_context (sample_fdata CALLSTACK_KERNEL) (cpu sample_ctx)
      brimful_event = Some sample_ptr
  ∧ load_trace brimful_event sample_ptr = Some idle_slot
  ∧ ∃ sz s' t' ctx',
      lttng_callstack_get_size x86_64 4 (sample_field CALLSTACK_KERNEL)
        sample_ctx brimful_event = Some (sz, s')
      ∧ load_trace s' sample_ptr = Some t'
      ∧ lttng_callstack_record x86_64 (sample_field CALLSTACK_KERNEL)
          sample_ctx s' = Some ctx'
      ∧ nr_entries t' = 127
      ∧ written ctx' = wire_sequence x86_64 4 127 (replicate 127 5).
Proof.
  split; [apply sample_attached, idle_slot_ok |].
  split; [apply sample_in_event |].
  split; [apply sample_user_nesting_typed |].
  split; [reflexivity |]. split; [reflexivity |].
  destruct (delimiter_and_marker_exclusive x86_64 x86_64_ok 4
              (sample_field CALLSTACK_KERNEL) sample_ctx brimful_event
              (sample_fdata CALLSTACK_KERNEL) (replicate 4 idle_slot)
              (frames_backend (replicate 127 5 ++ [ULONG_MAX x86_64]))
              sample_ptr idle_slot
              (sample_attached _ _ _ _ _ idle_slot_ok)
              (sample_in_event _ _ _ _) (sample_user_nesting_typed _ _ _ _)
              eq_refl eq_refl)
    as (sz & s' & t' & ctx' & Hsize & Hload & Hrec & Hbrim & _).
  exists sz, s', t', ctx'.
  split; [exact Hsize |]. split; [exact Hload |]. split; [exact Hrec |].
  apply Hbrim. split; vm_compute; reflexivity.
Defined.

Lemma record_ignores_stale_entries_witness :
  attached two_frames_over_sevens (sample_field CALLSTACK_KERNEL)
    (cpu sample_ctx) (sample_fdata CALLSTACK_KERNEL)
    (replicate 4 (StackTrace 2 128 (10 :: 11 :: replicate 126 7)))
    (frames_backend [])
  ∧ in_event two_frames_over_sevens (cpu sample_ctx)
  ∧ user_nesting_typed two_frames_over_sevens (cpu sample_ctx)
  ∧ priv (sample_field CALLSTACK_KERNEL)
      ≫= (kmalloc_heap two_frames_over_nines !!.)
    = Some (sample_fdata CALLSTACK_KERNEL)
  ∧ stack_trace_context (sample_fdata CALLSTACK_KERNEL) (cpu sample_ctx)
      two_frames_over_sevens = Some sample_ptr
  ∧ stack_trace_context (sample_fdata CALLSTACK_KERNEL) (cpu sample_ctx)
      two_frames_over_nines = Some sample_ptr
  ∧ load_trace two_frames_over_sevens sample_ptr
    = Some (StackTrace 2 128 (10 :: 11 :: replicate 126 7))
  ∧ load_trace two_frames_over_nines sample_ptr
    = Some (StackTrace 2 128 (10 :: 11 :: replicate 126 9))
  ∧ lttng_callstack_record x86_64 (sample_field CALLSTACK_KERNEL) sample_ctx
      two_frames_over_sevens
    = lttng_callstack_record x86_64 (sample_field CALLSTACK_KERNEL) sample_ctx
        two_frames_over_nines.
Proof.
  assert (slot_ok (StackTrace 2 128 (10 :: 11 :: replicate 126 7))) as Hok
    by (by split).
  split; [by apply sample_attached |].
  split; [apply sample_in_event |].
  split; [apply sample_user_nesting_typed |].
  do 5 (split; [reflexivity |]).
  apply (record_ignores_stale_entries x86_64 4
           (sample_field CALLSTACK_KERNEL) sample_ctx
           two_frames_over_sevens two_frames_over_nines
           (sample_fdata CALLSTACK_KERNEL)
           (replicate 4 (StackTrace 2 128 (10 :: 11 :: replicate 126 7)))
           (frames_backend []) sample_ptr sample_ptr
           (StackTrace 2 128 (10 :: 11 :: replicate 126 7))
           (StackTrace 2 128 (10 :: 11 :: replicate 126 9))
           (sample_attached _ _ _ _ _ Hok)
           (sample_in_event _ _ _ _) (sample_user_nesting_typed _ _ _ _)
           eq_refl eq_refl eq_refl eq_refl eq_refl eq_refl eq_refl eq_refl
           eq_refl).
Defined.

Lemma attach_return_codes_witness :
  target_ok x86_64
  ∧ ∃ ctx' s',
      lttng_add_callstack_to_ctx x86_64 sample_symbols
        (AllocOracle true true true) [] 16 boot_state
      = Some (0, ctx', s')
      ∧ ctx' = [callstack_field x86_64 "callstack_kernel" 1%positive].
Proof.
  split; [apply x86_64_ok |].
  destruct (attach_return_codes x86_64 x86_64_ok sample_symbols
              (AllocOracle true true true) [] 16 boot_state)
    as (ret & ctx' & s' & Hrun & _ & Hsupported & _).
  destruct (Hsupported CALLSTACK_KERNEL (or_introl (conj eq_refl eq_refl)))
    as [_ Hbound].
  destruct Hbound as [_ Happend].
  { intros [_ Hmissing]. discriminate Hmissing. }
  destruct (Happend eq_refl) as [_ Hnew].
  destruct (Hnew eq_refl) as [_ Hok].
  destruct (Hok (conj eq_refl eq_refl)) as (-> & fdata & a & _ & _ & -> & _).
  exists [callstack_field x86_64 "callstack_kernel" fdata], s'.
  split; [exact Hrun |].
  assert ((λ r, r.1.2) <$>
            lttng_add_callstack_to_ctx x86_64 sample_symbols
              (AllocOracle true true true) [] 16 boot_state
          = Some [callstack_field x86_64 "callstack_kernel" 1%positive])
    as Hctx by (vm_compute; reflexivity).
  rewrite Hrun in Hctx. simpl in Hctx. injection Hctx as ->. reflexivity.
Defined.

(** ** The further properties at the sample instances *)

Lemma field_data_create_slots_witness :
  ∃ fdata s',
    field_data_create x86_64 plentiful CALLSTACK_USER boot_state
    = Some (Some fdata, s')
    ∧ kmalloc_heap boot_state !! fdata = None
    ∧ ∃ a,
        kmalloc_heap s' !! fdata = Some (FieldData (Some a) CALLSTACK_USER)
        ∧ load_trace s' (TracePtr (Some a) 3 3)
          = Some (StackTrace 0 128 (replicate 128 0))
        ∧ load_trace s' (TracePtr (Some a) 3 4) = None.
Proof.
  destruct (field_data_create x86_64 plentiful CALLSTACK_USER boot_state)
    as [[[fdata |] s'] |] eqn:Hrun;
    [| exfalso; vm_compute in Hrun; discriminate Hrun
     | exfalso; vm_compute in Hrun; discriminate Hrun].
  exists fdata, s'. split; [reflexivity |].
  destruct (field_data_create_slots x86_64 plentiful CALLSTACK_USER boot_state
              fdata s' Hrun) as (Hfresh & a & _ & Hfd & Hslots & _).
  split; [exact Hfresh |]. exists a. split; [exact Hfd |].
  split; [exact (Hslots 3%nat 3) | exact (Hslots 3%nat 4)].
Defined.

Lemma sample_attach_returns :
  ∃ ctx' s',
    lttng_add_callstack_to_ctx x86_64 sample_symbols plentiful [] 16
      boot_state = Some (0, ctx', s').
Proof.
  destruct (lttng_add_callstack_to_ctx x86_64 sample_symbols plentiful [] 16
              boot_state) as [[[ret ctx'] s'] |] eqn:Hrun;
    [| exfalso; vm_compute in Hrun; discriminate Hrun].
  assert ((λ r, r.1.1) <$>
            lttng_add_callstack_to_ctx x86_64 sample_symbols plentiful []
              16 boot_state = Some 0) as Hret by (vm_compute; reflexivity).
  rewrite Hrun in Hret. simpl in Hret. injection Hret as ->.
  by exists ctx', s'.
Qed.

Lemma destroy_releases_attachment_witness :
  target_ok x86_64
  ∧ ∃ ctx' s' field s'',
      lttng_add_callstack_to_ctx x86_64 sample_symbols plentiful [] 16
        boot_state = Some (0, ctx', s')
      ∧ ctx' = [] ++ [field]
      ∧ lttng_callstack_destroy field s' = Some s''
      ∧ kmalloc_heap s'' = kmalloc_heap boot_state
      ∧ percpu_heap s'' = percpu_heap boot_state.
Proof.
  split; [apply x86_64_ok |].
  destruct sample_attach_returns as (ctx' & s' & Hrun).
  destruct (destroy_releases_attachment x86_64 x86_64_ok sample_symbols
              plentiful [] 16 boot_state ctx' s' Hrun)
    as (field & s'' & Hctx & Hdestroy & Hkm & Hpc).
  exists ctx', s', field, s''. split; [exact Hrun |].
  split; [exact Hctx |]. split; [exact Hdestroy |].
  split; [exact Hkm | exact Hpc].
Defined.

Lemma second_attach_rejected_witness :
  target_ok x86_64
  ∧ ∃ ctx' s' s'',
      lttng_add_callstack_to_ctx x86_64 sample_symbols plentiful [] 16
        boot_state = Some (0, ctx', s')
      ∧ lttng_add_callstack_to_ctx x86_64 no_symbols plentiful ctx' 16 s'
        = Some (- EEXIST, ctx', s'')
      ∧ kmalloc_heap s'' = kmalloc_heap s'.
Proof.
  split; [apply x86_64_ok |].
  destruct sample_attach_returns as (ctx' & s' & Hrun).
  destruct (second_attach_rejected x86_64 x86_64_ok sample_symbols plentiful
              plentiful no_symbols [] 16 boot_state ctx' s' Hrun)
    as (s'' & Hsecond & Hkm & _).
  exists ctx', s', s''. split; [exact Hrun |].
  split; [exact Hsecond | exact Hkm].
Defined.

Lemma failed_attach_keeps_binding_witness :
  target_ok x86_64
  ∧ ∃ s',
      lttng_add_callstack_to_ctx x86_64 sample_symbols percpu_exhausted []
        16 boot_state = Some (- ENOMEM, [], s')
      ∧ - ENOMEM ≠ 0
      ∧ kmalloc_heap s' = kmalloc_heap boot_state
      ∧ is_Some (save_func (cs_types s' CALLSTACK_KERNEL)).
Proof.
  split; [apply x86_64_ok |].
  destruct (lttng_add_callstack_to_ctx x86_64 sample_symbols percpu_exhausted
              [] 16 boot_state) as [[[ret ctx'] s'] |] eqn:Hrun;
    [| exfalso; vm_compute in Hrun; discriminate Hrun].
  assert ((λ r, r.1) <$>
            lttng_add_callstack_to_ctx x86_64 sample_symbols percpu_exhausted
              [] 16 boot_state = Some (- ENOMEM, [])) as Hret
    by (vm_compute; reflexivity).
  rewrite Hrun in Hret. simpl in Hret. injection Hret as -> ->.
  exists s'. split; [reflexivity |].
  assert (- ENOMEM ≠ 0) as Hne by (intros H; discriminate H).
  split; [exact Hne |].
  destruct (failed_attach_keeps_binding x86_64 x86_64_ok sample_symbols
              percpu_exhausted [] 16 boot_state (- ENOMEM) [] s' Hrun Hne)
    as (_ & Hkm & _ & _ & _ & [[Hinval _] | (_ & m & f & Hsup & _ & Hf)]).
  { discriminate Hinval. }
  split; [exact Hkm |].
  destruct Hsup as [[_ ->] | (_ & Htype & _)]; [| discriminate Htype].
  exists f. exact Hf.
Defined.

Lemma attach_preserves_attached_witness :
  target_ok x86_64
  ∧ attached kernel_event (sample_field CALLSTACK_KERNEL) 0
      (sample_fdata CALLSTACK_KERNEL) (replicate 4 idle_slot)
      (frames_backend [10; 11; 12; ULONG_MAX x86_64])
  ∧ ∃ ret ctx' s',
      lttng_add_callstack_to_ctx x86_64 both_symbols plentiful
        [sample_field CALLSTACK_KERNEL] 17 kernel_event
      = Some (ret, ctx', s')
      ∧ attached s' (sample_field CALLSTACK_KERNEL) 0
          (sample_fdata CALLSTACK_KERNEL) (replicate 4 idle_slot)
          (frames_backend [10; 11; 12; ULONG_MAX x86_64]).
Proof.
  split; [apply x86_64_ok |].
  split; [apply sample_attached, idle_slot_ok |].
  destruct (lttng_add_callstack_to_ctx x86_64 both_symbols plentiful
              [sample_field CALLSTACK_KERNEL] 17 kernel_event)
    as [[[ret ctx'] s'] |] eqn:Hrun;
    [| exfalso; vm_compute in Hrun; discriminate Hrun].
  exists ret, ctx', s'. split; [reflexivity |].
  exact (attach_preserves_attached x86_64 x86_64_ok both_symbols plentiful
           [sample_field CALLSTACK_KERNEL] 17 kernel_event ret ctx' s'
           (sample_field CALLSTACK_KERNEL) 0%nat
           (sample_fdata CALLSTACK_KERNEL) (replicate 4 idle_slot)
           (frames_backend [10; 11; 12; ULONG_MAX x86_64])
           (sample_attached _ _ _ _ _ idle_slot_ok) Hrun).
Defined.

Lemma kernel_event_measured :
  ∃ s',
    lttng_callstack_get_size x86_64 4 (sample_field CALLSTACK_KERNEL)
      sample_ctx kernel_event = Some (28, s').
Proof.
  destruct (lttng_callstack_get_size x86_64 4 (sample_field CALLSTACK_KERNEL)
              sample_ctx kernel_event) as [[sz s'] |] eqn:Hsize;
    [| exfalso; vm_compute in Hsize; discriminate Hsize].
  assert (fst <$> lttng_callstack_get_size x86_64 4
                    (sample_field CALLSTACK_KERNEL) sample_ctx kernel_event
          = Some 28) as Hsz by (vm_compute; reflexivity).
  rewrite Hsize in Hsz. simpl in Hsz. injection Hsz as ->. by exists s'.
Qed.

Lemma get_size_writes_one_slot_witness :
  ∃ s',
    lttng_callstack_get_size x86_64 4 (sample_field CALLSTACK_KERNEL)
      sample_ctx kernel_event = Some (28, s')
    ∧ load_trace s' (TracePtr (Some 1%positive) 0 1) = Some idle_slot
    ∧ load_trace s' (TracePtr (Some 1%positive) 1 0) = Some idle_slot.
Proof.
  destruct kernel_event_measured as (s' & Hsize).
  exists s'. split; [exact Hsize |].
  destruct (get_size_writes_one_slot x86_64 4 (sample_field CALLSTACK_KERNEL)
              sample_ctx kernel_event 28 s' Hsize) as (_ & _ & _ & Hframe).
  split.
  - rewrite (Hframe (sample_fdata CALLSTACK_KERNEL)
               (TracePtr (Some 1%positive) 0 1) eq_refl).
    + reflexivity.
    + right. right. intros H. discriminate H.
  - rewrite (Hframe (sample_fdata CALLSTACK_KERNEL)
               (TracePtr (Some 1%positive) 1 0) eq_refl).
    + reflexivity.
    + right. left. intros H. discriminate H.
Defined.

Lemma inner_event_keeps_outer_capture_witness :
  cpu sample_ctx = cpu sample_ctx
  ∧ in_event kernel_event (cpu sample_ctx)
  ∧ 0 ≤ 2 - 1 ≤ INT_MAX
  ∧ 2 ≠ lib_ring_buffer_nesting kernel_event (cpu sample_ctx)
  ∧ user_nesting_typed kernel_event (cpu sample_ctx)
  ∧ ∃ sz s2,
      lttng_callstack_get_size x86_64 4 (sample_field CALLSTACK_KERNEL)
        sample_ctx
        (set_lib_ring_buffer_nesting (λ f, <[cpu sample_ctx := 2]> f)
           kernel_event) = Some (sz, s2)
      ∧ lttng_callstack_record x86_64 (sample_field CALLSTACK_KERNEL)
          sample_ctx
          (set_lib_ring_buffer_nesting
             (λ f, <[cpu sample_ctx
                     := lib_ring_buffer_nesting kernel_event (cpu sample_ctx)]>
                     f) s2)
        = lttng_callstack_record x86_64 (sample_field CALLSTACK_KERNEL)
            sample_ctx kernel_event.
Proof.
  assert (0 ≤ 2 - 1 ≤ INT_MAX) as Hin by (unfold INT_MAX; lia).
  assert (2 ≠ lib_ring_buffer_nesting kernel_event (cpu sample_ctx)) as Hd
    by (intros H; discriminate H).
  split; [reflexivity |]. split; [apply sample_in_event |].
  split; [exact Hin |]. split; [exact Hd |].
  split; [apply sample_user_nesting_typed |].
  destruct (lttng_callstack_get_size x86_64 4 (sample_field CALLSTACK_KERNEL)
              sample_ctx
              (set_lib_ring_buffer_nesting (λ f, <[cpu sample_ctx := 2]> f)
                 kernel_event)) as [[sz s2] |] eqn:Hsize;
    [| exfalso; vm_compute in Hsize; discriminate Hsize].
  exists sz, s2. split; [reflexivity |].
  exact (inner_event_keeps_outer_capture x86_64 4
           (sample_field CALLSTACK_KERNEL) sample_ctx
           (sample_field CALLSTACK_KERNEL) sample_ctx kernel_event 2 sz s2
           eq_refl (sample_in_event _ _ _ _) Hin Hd
           (sample_user_nesting_typed _ _ _ _) Hsize).
Defined.

Lemma record_sequence_well_formed_witness :
  target_ok x86_64
  ∧ attached truncated_capture (sample_field CALLSTACK_KERNEL)
      (cpu sample_ctx) (sample_fdata CALLSTACK_KERNEL)
      (replicate 4 (StackTrace 128 128 (replicate 128 5))) (frames_backend [])
  ∧ in_event truncated_capture (cpu sample_ctx)
  ∧ ∃ ctx' N words,
      lttng_callstack_record x86_64 (sample_field CALLSTACK_KERNEL)
        sample_ctx truncated_capture = Some ctx'
      ∧ written ctx' = written sample_ctx ++ wire_sequence x86_64 4 N words
      ∧ Z.of_nat (length words) = N
      ∧ N ≠ MAX_ENTRIES.
Proof.
  split; [apply x86_64_ok |].
  split; [apply sample_attached, truncated_slot_ok |].
  split; [apply sample_in_event |].
  destruct (lttng_callstack_record x86_64 (sample_field CALLSTACK_KERNEL)
              sample_ctx truncated_capture) as [ctx' |] eqn:Hrec;
    [| exfalso; vm_compute in Hrec; discriminate Hrec].
  destruct (record_sequence_well_formed x86_64 x86_64_ok
              (sample_field CALLSTACK_KERNEL) sample_ctx truncated_capture
              (sample_fdata CALLSTACK_KERNEL)
              (replicate 4 (StackTrace 128 128 (replicate 128 5)))
              (frames_backend []) ctx'
              (sample_attached _ _ _ _ _ truncated_slot_ok)
              (sample_in_event _ _ _ _) Hrec)
    as (N & words & Hout & Hlen & _ & Hnot & _).
  exists ctx', N, words. split; [reflexivity |].
  split; [exact Hout |]. split; [exact Hlen | exact Hnot].
Defined.

Lemma get_size_offset_congruence_witness :
  target_ok x86_64
  ∧ 4 mod alignof_uint x86_64 = 20 mod alignof_uint x86_64
  ∧ 4 mod alignof_ulong x86_64 = 20 mod alignof_ulong x86_64
  ∧ lttng_callstack_get_size x86_64 4 (sample_field CALLSTACK_KERNEL)
      sample_ctx kernel_event
    = lttng_callstack_get_size x86_64 20 (sample_field CALLSTACK_KERNEL)
        sample_ctx kernel_event.
Proof.
  split; [apply x86_64_ok |]. split; [reflexivity |]. split; [reflexivity |].
  exact (get_size_offset_congruence x86_64 x86_64_ok 4 20
           (sample_field CALLSTACK_KERNEL) sample_ctx kernel_event
           eq_refl eq_refl).
Defined.

Lemma get_size_bounded_witness :
  target_ok x86_64
  ∧ attached kernel_event (sample_field CALLSTACK_KERNEL) (cpu sample_ctx)
      (sample_fdata CALLSTACK_KERNEL) (replicate 4 idle_slot)
      (frames_backend [10; 11; 12; ULONG_MAX x86_64])
  ∧ in_event kernel_event (cpu sample_ctx)
  ∧ user_nesting_typed kernel_event (cpu sample_ctx)
  ∧ ∃ s',
      lttng_callstack_get_size x86_64 4 (sample_field CALLSTACK_KERNEL)
        sample_ctx kernel_event = Some (28, s')
      ∧ sizeof_uint ≤ 28 ≤ 18 + (MAX_ENTRIES + 1) * sizeof_long x86_64.
Proof.
  split; [apply x86_64_ok |].
  split; [apply sample_attached, idle_slot_ok |].
  split; [apply sample_in_event |].
  split; [apply sample_user_nesting_typed |].
  destruct kernel_event_measured as (s' & Hsize).
  exists s'. split; [exact Hsize |].
  exact (proj2 (get_size_bounded x86_64 x86_64_ok 4
                  (sample_field CALLSTACK_KERNEL) sample_ctx kernel_event
                  (sample_fdata CALLSTACK_KERNEL) (replicate 4 idle_slot)
                  (frames_backend [10; 11; 12; ULONG_MAX x86_64]) 28 s'
                  (sample_attached _ _ _ _ _ idle_slot_ok)
                  (sample_in_event _ _ _ _)
                  (sample_user_nesting_typed _ _ _ _) Hsize)).
Defined.

Lemma kernel_capture_ignores_guard_witness :
  priv (sample_field CALLSTACK_KERNEL) ≫= (kmalloc_heap kernel_event !!.)
  = Some (sample_fdata CALLSTACK_KERNEL)
  ∧ mode (sample_fdata CALLSTACK_KERNEL) = CALLSTACK_KERNEL
  ∧ lttng_callstack_record x86_64 (sample_field CALLSTACK_KERNEL) sample_ctx
      (set_callstack_user_nesting (λ _ _, 3) kernel_event)
    = lttng_callstack_record x86_64 (sample_field CALLSTACK_KERNEL) sample_ctx
        kernel_event.
Proof.
  split; [reflexivity |]. split; [reflexivity |].
  exact (proj2 (kernel_capture_ignores_guard x86_64 4
                  (sample_field CALLSTACK_KERNEL) sample_ctx kernel_event
                  (sample_fdata CALLSTACK_KERNEL) (λ _, 3)
                  eq_refl eq_refl)).
Defined.

Lemma two_frames_slot_ok x : slot_ok (StackTrace 2 128 (10 :: 11 :: replicate 126 x)).
Proof. by split. Qed.

Lemma two_frames_are_words x :
  Forall (λ w, 0 ≤ w ≤ ULONG_MAX x86_64)
    (take (Z.to_nat 2) (10 :: 11 :: replicate 126 x)).
Proof. repeat constructor; by vm_compute. Qed.

Lemma record_determines_frames_witness :
  target_ok x86_64
  ∧ lttng_callstack_record x86_64 (sample_field CALLSTACK_KERNEL) sample_ctx
      two_frames_over_sevens
    = lttng_callstack_record x86_64 (sample_field CALLSTACK_KERNEL) sample_ctx
        two_frames_over_nines
  ∧ take (Z.to_nat 2) (10 :: 11 :: replicate 126 7)
    = take (Z.to_nat 2) (10 :: 11 :: replicate 126 9).
Proof.
  split; [apply x86_64_ok |].
  assert (lttng_callstack_record x86_64 (sample_field CALLSTACK_KERNEL)
            sample_ctx two_frames_over_sevens
          = lttng_callstack_record x86_64 (sample_field CALLSTACK_KERNEL)
              sample_ctx two_frames_over_nines) as Heq
    by (vm_compute; reflexivity).
  split; [exact Heq |].
  exact (proj2 (record_determines_frames x86_64 x86_64_ok
                  (sample_field CALLSTACK_KERNEL) sample_ctx
                  two_frames_over_sevens two_frames_over_nines
                  (sample_fdata CALLSTACK_KERNEL) sample_ptr sample_ptr
                  (StackTrace 2 128 (10 :: 11 :: replicate 126 7))
                  (StackTrace 2 128 (10 :: 11 :: replicate 126 9))
                  eq_refl eq_refl eq_refl eq_refl eq_refl eq_refl
                  (two_frames_slot_ok 7) (two_frames_slot_ok 9)
                  ltac:(simpl; unfold MAX_ENTRIES; lia)
                  ltac:(simpl; unfold MAX_ENTRIES; lia)
                  (two_frames_are_words 7) (two_frames_are_words 9) Heq)).
Defined.

Lemma two_fields_attached :
  attached two_fields (sample_field CALLSTACK_KERNEL) 0
    (sample_fdata CALLSTACK_KERNEL) (replicate 4 idle_slot)
    (frames_backend [10; 11]).
Proof.
  split; try done.
  - apply Forall_replicate, idle_slot_ok.
  - apply frames_backend_ok.
Qed.

Lemma destroy_preserves_attached_witness :
  attached two_fields (sample_field CALLSTACK_KERNEL) 0
    (sample_fdata CALLSTACK_KERNEL) (replicate 4 idle_slot)
    (frames_backend [10; 11])
  ∧ priv second_field ≫= (kmalloc_heap two_fields !!.)
    = Some (FieldData (Some 2%positive) CALLSTACK_USER)
  ∧ priv (sample_field CALLSTACK_KERNEL) ≠ priv second_field
  ∧ cs_percpu (sample_fdata CALLSTACK_KERNEL)
    ≠ cs_percpu (FieldData (Some 2%positive) CALLSTACK_USER)
  ∧ ∃ s',
      lttng_callstack_destroy second_field two_fields = Some s'
      ∧ attached s' (sample_field CALLSTACK_KERNEL) 0
          (sample_fdata CALLSTACK_KERNEL) (replicate 4 idle_slot)
          (frames_backend [10; 11]).
Proof.
  assert (priv (sample_field CALLSTACK_KERNEL) ≠ priv second_field) as Hp
    by (intros H; discriminate H).
  assert (cs_percpu (sample_fdata CALLSTACK_KERNEL)
          ≠ cs_percpu (FieldData (Some 2%positive) CALLSTACK_USER)) as Ha
    by (intros H; discriminate H).
  split; [apply two_fields_attached |]. split; [reflexivity |].
  split; [exact Hp |]. split; [exact Ha |].
  destruct (destroy_preserves_attached two_fields
              (sample_field CALLSTACK_KERNEL) 0%nat
              (sample_fdata CALLSTACK_KERNEL) (replicate 4 idle_slot)
              (frames_backend [10; 11]) second_field
              (FieldData (Some 2%positive) CALLSTACK_USER)
              two_fields_attached eq_refl Hp Ha)
    as (s' & Hdestroy & _ & _ & Hatt).
  exists s'. split; [exact Hdestroy | exact Hatt].
Defined.

Lemma sample_symbols_ok m f :
  bound_unwinder sample_symbols boot_state m = Some f → backend_ok f.
Proof.
  unfold bound_unwinder, sample_symbols. destruct m; simpl; [| done].
  intros [= <-]. apply frames_backend_ok.
Qed.

Lemma fresh_field_hooks_defined_witness :
  target_ok x86_64
  ∧ (cpu sample_ctx < nr_possible_cpus x86_64)%nat
  ∧ 0 ≤ 1 - 1 ≤ INT_MAX
  ∧ user_nesting_typed boot_state (cpu sample_ctx)
  ∧ ∃ ctx' s' field sz s'' rb',
      lttng_add_callstack_to_ctx x86_64 sample_symbols plentiful [] 16
        boot_state = Some (0, ctx', s')
      ∧ ctx' = [] ++ [field]
      ∧ lttng_callstack_get_size x86_64 4 field sample_ctx
          (set_lib_ring_buffer_nesting (λ f, <[cpu sample_ctx := 1]> f) s')
        = Some (sz, s'')
      ∧ lttng_callstack_record x86_64 field sample_ctx s'' = Some rb'
      ∧ Z.of_nat (length (written rb'))
        = Z.of_nat (length (written sample_ctx)) + sz.
Proof.
  assert (cpu sample_ctx < nr_possible_cpus x86_64)%nat as Hcpu
    by (simpl; lia).
  assert (0 ≤ 1 - 1 ≤ INT_MAX) as Hd by (unfold INT_MAX; lia).
  assert (user_nesting_typed boot_state (cpu sample_ctx)) as Htyped
    by (unfold user_nesting_typed, INT_MIN, INT_MAX; simpl; lia).
  split; [apply x86_64_ok |]. split; [exact Hcpu |].
  split; [exact Hd |]. split; [exact Htyped |].
  destruct sample_attach_returns as (ctx' & s' & Hrun).
  destruct (attach_success_inv x86_64 x86_64_ok sample_symbols plentiful []
              16 boot_state ctx' s' Hrun)
    as (m & fdata & _ & _ & _ & _ & _ & Hctx & _).
  set (field := callstack_field x86_64 (name (cs_types boot_state m)) fdata)
    in *.
  destruct (fresh_field_hooks_defined x86_64 x86_64_ok sample_symbols
              plentiful [] 16 boot_state ctx' s' field 4 sample_ctx 1
              sample_symbols_ok Hrun Hctx Hcpu Hd Htyped eq_refl)
    as (sz & s'' & rb' & Hsize & Hrec & Hlen).
  exists ctx', s', field, sz, s'', rb'.
  split; [exact Hrun |]. split; [exact Hctx |]. split; [exact Hsize |].
  split; [exact Hrec | exact Hlen].
Defined.
